(** * VA-CRM: payments, balances, composite creation, CSV preview, deletes

    A shallow embedding of the Express route handlers of the backend (the
    payments, students, enrollments, courses, upload and dashboard routers)
    over an explicit database state, and of the balance and badge functions
    of the frontend pages, followed by the properties established about
    them.

    Conventions of the embedding.
    - A handler is a function from the database state (and the request) to
      the new database state and the JSON response.
    - A price or an amount in the database is a Prisma Decimal; it is kept
      as its exact number of hundredths.  The handlers and the pages read it
      through [parseFloat] and compute with JavaScript numbers, which are
      IEEE 754 binary64 values: these are the primitive floats of Rocq,
      with their addition, subtraction and comparisons.
    - Text is ASCII; [trim] removes ASCII white space.  Integers read by
      [parseInt] are exact.
    - A JavaScript date is either the text it was parsed from or the current
      time. *)

From Stdlib Require Import ZArith Lia Ascii String Floats.
From stdpp Require Import base decidable option list strings gmap pretty sorting.

Local Open Scope Z_scope.

(* ===================================================================== *)
(** * JavaScript primitives used by the handlers *)
(* ===================================================================== *)

Module Js.

(** [Array.prototype.reduce(f, init)] is a left fold. *)
Definition reduce {A B} (f : B → A → B) (init : B) (l : list A) : B :=
  foldl f init l.

(** Truthiness of a value that is a string or undefined. *)
Definition truthy (v : option string) : bool :=
  match v with
  | Some (String _ _) => true
  | _ => false
  end.

(** [a || b] on values that are strings or undefined. *)
Definition or_else (a b : option string) : option string :=
  if truthy a then a else b.

Definition is_white (c : ascii) : bool :=
  let n := nat_of_ascii c in
  bool_decide (n = 9 ∨ n = 10 ∨ n = 11 ∨ n = 12 ∨ n = 13 ∨ n = 32)%nat.

Fixpoint trimStart (s : string) : string :=
  match s with
  | String c r => if is_white c then trimStart r else s
  | EmptyString => EmptyString
  end.

Fixpoint trimEnd (s : string) : string :=
  match s with
  | String c r =>
      match trimEnd r with
      | EmptyString => if is_white c then EmptyString else String c EmptyString
      | r' => String c r'
      end
  | EmptyString => EmptyString
  end.

Definition trim (s : string) : string := trimEnd (trimStart s).

Definition lower (c : ascii) : ascii :=
  let n := nat_of_ascii c in
  if bool_decide (65 ≤ n ≤ 90)%nat then ascii_of_nat (n + 32) else c.

Fixpoint toLowerCase (s : string) : string :=
  match s with
  | String c r => String (lower c) (toLowerCase r)
  | EmptyString => EmptyString
  end.

(** [s.includes(c)] for a one-character needle. *)
Fixpoint includes (s : string) (c : ascii) : bool :=
  match s with
  | String d r => if Ascii.eqb c d then true else includes r c
  | EmptyString => false
  end.

(** [s.includes(needle)] *)
Fixpoint contains (s needle : string) : bool :=
  if String.prefix needle s then true
  else match s with
       | String _ r => contains r needle
       | EmptyString => false
       end.

Definition length (s : string) : nat := String.length s.

(** [arr.includes(x)] on an array of strings. *)
Definition isIn (x : string) (l : list string) : bool := bool_decide (x ∈ l).

(** ** [parseInt]

    A number that results from [parseInt] is an integer or NaN; [None] is
    NaN, and arithmetic propagates it.  The integers are those that a
    number holds exactly, the safe integers: on them [parseInt], [-], [*]
    and the division under [Math.ceil] give the integer results written
    here.  A numeral beyond them is rounded by [parseInt], and is outside
    what this section describes. *)


Definition digit (radix : Z) (c : ascii) : option Z :=
  let n := Z.of_nat (nat_of_ascii c) in
  let v := if bool_decide (48 ≤ n ≤ 57) then Some (n - 48)
           else if bool_decide (97 ≤ n ≤ 122) then Some (n - 87)
           else if bool_decide (65 ≤ n ≤ 90) then Some (n - 55)
           else None in
  match v with
  | Some d => if bool_decide (d < radix) then Some d else None
  | None => None
  end.

(** The longest prefix of digits, read in the radix; [None] when the text
    does not start with a digit. *)
Fixpoint digits (radix : Z) (acc : option Z) (s : string) : option Z :=
  match s with
  | String c r =>
      match digit radix c with
      | Some d => digits radix (Some (default 0 acc * radix + d)) r
      | None => acc
      end
  | EmptyString => acc
  end.

Definition unsigned (s : string) : option Z :=
  match s with
  | String "0" (String "x" r) | String "0" (String "X" r) => digits 16 None r
  | _ => digits 10 None s
  end.

Definition parseInt (s : string) : option Z :=
  match trimStart s with
  | String "-" r => Z.opp <$> unsigned r
  | String "+" r => unsigned r
  | r => unsigned r
  end.

Definition sub (a b : option Z) : option Z :=
  match a, b with Some x, Some y => Some (x - y) | _, _ => None end.

Definition mul (a b : option Z) : option Z :=
  match a, b with Some x, Some y => Some (x * y) | _, _ => None end.

(** [Math.ceil(total / limit)] as it is serialised by [res.json]: a
    division by zero gives an infinity or NaN, and all three are written
    as [null] ([None]). *)
Definition ceil_div (total : Z) (limit : option Z) : option Z :=
  match limit with
  | Some l => if bool_decide (l = 0) then None else Some (- ((- total) `div` l))
  | None => None
  end.

(** ** Numbers

    A JavaScript number is an IEEE 754 binary64 value, a [float]; [+], [-]
    and the comparisons on numbers are the primitive operations. *)

(** The binary64 number nearest to [m / d] (ties to even): the number that
    a decimal numeral with numerator [m] over the power of ten [d] denotes.
    It is the division of the IEEE 754 specification applied to the two
    integers, so it rounds once, whatever the size of [m]. *)
Definition quotient (m : Z) (d : positive) : float :=
  match m with
  | Z0 => 0%float
  | Zpos n => SF2Prim (SFdiv prec emax (S754_finite false n 0) (S754_finite false d 0))
  | Zneg n => SF2Prim (SFdiv prec emax (S754_finite true n 0) (S754_finite false d 0))
  end.

(** [parseFloat(decimal)] for a Prisma Decimal given by its hundredths. *)
Definition parseFloat (hundredths : Z) : float := quotient hundredths 100.

(** [Math.max(a, b)]: NaN when an argument is NaN; of two zeros, the
    positive one. *)
Definition max (a b : float) : float :=
  if is_nan a || is_nan b then nan
  else if PrimFloat.ltb a b then b
  else if PrimFloat.ltb b a then a
  else if get_sign a then b else a.

(** Truthiness of a number: NaN and the two zeros are falsy. *)
Definition number_truthy (x : float) : bool :=
  negb (is_nan x || PrimFloat.eqb x 0).

End Js.

(* ===================================================================== *)
(** * The relational schema *)
(* ===================================================================== *)

Inductive EnrollmentStatus := ACTIVE | COMPLETED | CANCELLED | SUSPENDED.

Inductive JsDate :=
| DateOf (text : string)
| CurrentDate.

Record Student := {
  student_id : string;
  student_name : string;
  student_email : string;
  student_phone : string;
  student_nricPassportId : option string;
  student_address : option string;
  student_remarks : option string;
  student_documents : list string
}.

Record Course := {
  course_id : string;
  course_name : string;
  course_description : option string;
  course_duration : option string;
  course_price : Z;
  course_isActive : bool
}.

Record Enrollment := {
  enrollment_id : string;
  enrollment_studentId : string;
  enrollment_courseId : string;
  enrollment_batch : option string;
  enrollment_startDate : JsDate;
  enrollment_endDate : option JsDate;
  enrollment_status : EnrollmentStatus
}.

Record Payment := {
  payment_id : string;
  payment_studentId : string;
  payment_enrollmentId : string;
  payment_amount : Z;
  payment_method : string;
  payment_date : JsDate;
  payment_notes : option string
}.

Record DB := {
  students : list Student;
  courses : list Course;
  enrollments : list Enrollment;
  payments : list Payment;
  nextId : nat
}.

Global Instance EnrollmentStatus_eq_dec : EqDecision EnrollmentStatus.
Proof. solve_decision. Defined.
Global Instance JsDate_eq_dec : EqDecision JsDate.
Proof. solve_decision. Defined.
Global Instance Student_eq_dec : EqDecision Student.
Proof. solve_decision. Defined.
Global Instance Course_eq_dec : EqDecision Course.
Proof. solve_decision. Defined.
Global Instance Enrollment_eq_dec : EqDecision Enrollment.
Proof. solve_decision. Defined.
Global Instance Payment_eq_dec : EqDecision Payment.
Proof. solve_decision. Defined.

Definition status_text (s : EnrollmentStatus) : string :=
  match s with
  | ACTIVE => "ACTIVE"
  | COMPLETED => "COMPLETED"
  | CANCELLED => "CANCELLED"
  | SUSPENDED => "SUSPENDED"
  end.

Definition status_of_text (s : string) : option EnrollmentStatus :=
  if bool_decide (s = "ACTIVE") then Some ACTIVE
  else if bool_decide (s = "COMPLETED") then Some COMPLETED
  else if bool_decide (s = "CANCELLED") then Some CANCELLED
  else if bool_decide (s = "SUSPENDED") then Some SUSPENDED
  else None.

Definition payment_methods : list string :=
  ["CASH"; "BANK_TRANSFER"; "CREDIT_CARD"; "DEBIT_CARD"; "ONLINE_PAYMENT"; "CHECK"].

Record Response (B : Type) := reply { status : nat; body : B }.
Arguments reply {B} _ _.
Arguments status {B} _.
Arguments body {B} _.

(* ===================================================================== *)
(** * The ORM client *)
(* ===================================================================== *)

Module Prisma.

(** Errors thrown by the client, by their code. *)
Inductive Error :=
| P2002 (target : string)
| P2003 (field : string)
| P2025
| ValidationError (message : string)
| DecimalError.

Definition message (e : Error) : string :=
  match e with
  | P2002 t => "Unique constraint failed on the fields: " +:+ t
  | P2003 f => "Foreign key constraint failed on the field: " +:+ f
  | P2025 => "Record not found"
  | ValidationError m => m
  | DecimalError => "[DecimalError] Invalid argument"
  end.

Definition find_by {A} (key : A → string) (k : string) (rows : list A) : option A :=
  head (filter (λ x, key x = k) rows).

Definition remove_by {A} (key : A → string) (k : string) (rows : list A) : list A :=
  filter (λ x, key x ≠ k) rows.

Definition update_by {A} (key : A → string) (k : string) (f : A → A)
    (rows : list A) : list A :=
  (λ x, if decide (key x = k) then f x else x) <$> rows.

(** The identifier given to the [n]-th row created ([@default(cuid())]). *)
Definition cuid (n : nat) : string := "c" +:+ pretty n.

Definition with_students (db : DB) (l : list Student) : DB :=
  {| students := l; courses := courses db; enrollments := enrollments db;
     payments := payments db; nextId := nextId db |}.
Definition with_courses (db : DB) (l : list Course) : DB :=
  {| students := students db; courses := l; enrollments := enrollments db;
     payments := payments db; nextId := nextId db |}.
Definition with_enrollments (db : DB) (l : list Enrollment) : DB :=
  {| students := students db; courses := courses db; enrollments := l;
     payments := payments db; nextId := nextId db |}.
Definition with_payments (db : DB) (l : list Payment) : DB :=
  {| students := students db; courses := courses db; enrollments := enrollments db;
     payments := l; nextId := nextId db |}.
Definition tick (db : DB) : DB :=
  {| students := students db; courses := courses db; enrollments := enrollments db;
     payments := payments db; nextId := S (nextId db) |}.

(** ** Reads *)

Definition student_findUnique (db : DB) (id : string) : option Student :=
  find_by student_id id (students db).
Definition course_findUnique (db : DB) (id : string) : option Course :=
  find_by course_id id (courses db).
Definition enrollment_findUnique (db : DB) (id : string) : option Enrollment :=
  find_by enrollment_id id (enrollments db).
Definition payment_findUnique (db : DB) (id : string) : option Payment :=
  find_by payment_id id (payments db).

(** [findFirst({ where: { nricPassportId } })] *)
Definition student_findFirst_nric (db : DB) (nric : string) : option Student :=
  head (filter (λ s, student_nricPassportId s = Some nric) (students db)).

(** [payment.findMany({ where: { enrollmentId } })] *)
Definition payment_findMany_enrollment (db : DB) (enrollmentId : string) : list Payment :=
  filter (λ p, payment_enrollmentId p = enrollmentId) (payments db).

(** [enrollment.findMany({ where: { courseId } })] *)
Definition enrollment_findMany_course (db : DB) (courseId : string) : list Enrollment :=
  filter (λ e, enrollment_courseId e = courseId) (enrollments db).

(** [enrollment.findMany({ where: { studentId } })] *)
Definition enrollment_findMany_student (db : DB) (studentId : string) : list Enrollment :=
  filter (λ e, enrollment_studentId e = studentId) (enrollments db).

(** ** Writes

    Modelled from the spec: the schema file (prisma/schema.prisma) is not
    part of the sources.  Per the data model, a student's email and, when
    present, national ID are unique; an enrollment links one existing
    student to one existing course; a payment belongs to exactly one
    existing student and one existing enrollment; method and status are
    closed enums. *)

Definition student_create (db : DB) (name email phone : string)
    (nric address remarks : option string) (documents : list string)
    : Error + DB * Student :=
  if bool_decide (Exists (λ s, student_email s = email) (students db))
  then inl (P2002 "email")
  else if bool_decide (is_Some nric ∧
                       Exists (λ s, student_nricPassportId s = nric) (students db))
  then inl (P2002 "nricPassportId")
  else
    let s := {| student_id := cuid (nextId db); student_name := name;
                student_email := email; student_phone := phone;
                student_nricPassportId := nric; student_address := address;
                student_remarks := remarks; student_documents := documents |} in
    inr (tick (with_students db (students db ++ [s])), s).

Definition enrollment_create (db : DB) (studentId courseId : string)
    (batch : option string) (startDate : JsDate) (endDate : option JsDate)
    (status : string) : Error + DB * Enrollment :=
  match status_of_text status with
  | None => inl (ValidationError "Invalid value for argument `status`")
  | Some st =>
      if bool_decide (student_findUnique db studentId = None)
      then inl (P2003 "studentId")
      else if bool_decide (course_findUnique db courseId = None)
      then inl (P2003 "courseId")
      else
        let e := {| enrollment_id := cuid (nextId db);
                    enrollment_studentId := studentId;
                    enrollment_courseId := courseId; enrollment_batch := batch;
                    enrollment_startDate := startDate; enrollment_endDate := endDate;
                    enrollment_status := st |} in
        inr (tick (with_enrollments db (enrollments db ++ [e])), e)
  end.

Definition payment_create (db : DB) (studentId : string) (enrollmentId : option string)
    (amount : Z) (method : string) (date : JsDate) (notes : option string)
    : Error + DB * Payment :=
  match enrollmentId with
  | None => inl (ValidationError "Argument `enrollment` is missing")
  | Some enrollmentId =>
      if negb (Js.isIn method payment_methods)
      then inl (ValidationError "Invalid value for argument `method`")
      else if bool_decide (student_findUnique db studentId = None)
      then inl (P2003 "studentId")
      else if bool_decide (enrollment_findUnique db enrollmentId = None)
      then inl (P2003 "enrollmentId")
      else
        let p := {| payment_id := cuid (nextId db); payment_studentId := studentId;
                    payment_enrollmentId := enrollmentId; payment_amount := amount;
                    payment_method := method; payment_date := date;
                    payment_notes := notes |} in
        inr (tick (with_payments db (payments db ++ [p])), p)
  end.

(** [payment.update({ where: { id }, data })]; a [notes] that is
    undefined ([None]) leaves the column as it is. *)
Definition payment_update (db : DB) (id studentId enrollmentId : string)
    (amount : Z) (method : string) (date : JsDate) (notes : option string)
    : Error + DB * Payment :=
  match payment_findUnique db id with
  | None => inl P2025
  | Some existing =>
      if negb (Js.isIn method payment_methods)
      then inl (ValidationError "Invalid value for argument `method`")
      else if bool_decide (student_findUnique db studentId = None)
      then inl (P2003 "studentId")
      else if bool_decide (enrollment_findUnique db enrollmentId = None)
      then inl (P2003 "enrollmentId")
      else
        let p := {| payment_id := id; payment_studentId := studentId;
                    payment_enrollmentId := enrollmentId; payment_amount := amount;
                    payment_method := method; payment_date := date;
                    payment_notes := match notes with
                                     | Some text => Some text
                                     | None => payment_notes existing
                                     end |} in
        inr (with_payments db (update_by payment_id id (λ _, p) (payments db)), p)
  end.

(** [enrollment.update({ where: { id }, data: { status } })] *)
Definition enrollment_update_status (db : DB) (id : string) (st : EnrollmentStatus)
    : Error + DB :=
  match enrollment_findUnique db id with
  | None => inl P2025
  | Some _ =>
      let set e := {| enrollment_id := enrollment_id e;
                      enrollment_studentId := enrollment_studentId e;
                      enrollment_courseId := enrollment_courseId e;
                      enrollment_batch := enrollment_batch e;
                      enrollment_startDate := enrollment_startDate e;
                      enrollment_endDate := enrollment_endDate e;
                      enrollment_status := st |} in
      inr (with_enrollments db (update_by enrollment_id id set (enrollments db)))
  end.

Definition course_delete (db : DB) (id : string) : Error + DB :=
  match course_findUnique db id with
  | None => inl P2025
  | Some _ => inr (with_courses db (remove_by course_id id (courses db)))
  end.

Definition enrollment_delete (db : DB) (id : string) : Error + DB :=
  match enrollment_findUnique db id with
  | None => inl P2025
  | Some _ => inr (with_enrollments db (remove_by enrollment_id id (enrollments db)))
  end.

Definition payment_delete (db : DB) (id : string) : Error + DB :=
  match payment_findUnique db id with
  | None => inl P2025
  | Some _ => inr (with_payments db (remove_by payment_id id (payments db)))
  end.

(** [enrollment.findFirst({ where: { studentId, courseId, status: 'ACTIVE' } })] *)
Definition enrollment_findFirst_active (db : DB) (studentId courseId : string)
    : option Enrollment :=
  head (filter (λ e, enrollment_studentId e = studentId
                     ∧ enrollment_courseId e = courseId
                     ∧ enrollment_status e = ACTIVE) (enrollments db)).

(** [enrollment.update({ where: { id }, data })] with every column given. *)
Definition enrollment_update (db : DB) (id studentId courseId : string)
    (batch : option string) (startDate : JsDate) (endDate : option JsDate)
    (st : EnrollmentStatus) : Error + DB * Enrollment :=
  match enrollment_findUnique db id with
  | None => inl P2025
  | Some _ =>
      if bool_decide (student_findUnique db studentId = None)
      then inl (P2003 "studentId")
      else if bool_decide (course_findUnique db courseId = None)
      then inl (P2003 "courseId")
      else
        let e := {| enrollment_id := id; enrollment_studentId := studentId;
                    enrollment_courseId := courseId; enrollment_batch := batch;
                    enrollment_startDate := startDate; enrollment_endDate := endDate;
                    enrollment_status := st |} in
        inr (with_enrollments db (update_by enrollment_id id (λ _, e) (enrollments db)), e)
  end.

(** [course.findFirst({ where: { name: { equals: name, mode: 'insensitive' },
    NOT: { id } } })]; [notId] is [None] when the query has no [NOT]. *)
Definition course_findFirst_name (db : DB) (name : string) (notId : option string)
    : option Course :=
  head (filter (λ c, Js.toLowerCase (course_name c) = Js.toLowerCase name
                     ∧ Some (course_id c) ≠ notId) (courses db)).

(** [course.create]; [clash] says whether the schema's constraint on the
    name, if it has one, turns the row down. *)
Definition course_create (db : DB) (clash : bool) (name : string)
    (description duration : option string) (price : Z) (isActive : bool)
    : Error + DB * Course :=
  if clash then inl (P2002 "name")
  else
    let c := {| course_id := cuid (nextId db); course_name := name;
                course_description := description; course_duration := duration;
                course_price := price; course_isActive := isActive |} in
    inr (tick (with_courses db (courses db ++ [c])), c).

(** [course.update({ where: { id }, data })]; [f] applies the data. *)
Definition course_update (db : DB) (id : string) (clash : bool) (f : Course → Course)
    : Error + DB * Course :=
  match course_findUnique db id with
  | None => inl P2025
  | Some c =>
      if clash then inl (P2002 "name")
      else inr (with_courses db (update_by course_id id f (courses db)), f c)
  end.

(** [student.findUnique({ where: { email } })] *)
Definition student_findUnique_email (db : DB) (email : string) : option Student :=
  head (filter (λ s, student_email s = email) (students db)).

(** [course.findFirst({ where: { name: { equals: name, mode: 'insensitive' },
    isActive: true } })] *)
Definition course_findFirst_active_name (db : DB) (name : string) : option Course :=
  head (filter (λ c, Js.toLowerCase (course_name c) = Js.toLowerCase name
                     ∧ course_isActive c = true) (courses db)).

(** [$transaction(fn)]: the writes of [fn] are committed when it returns
    and rolled back when it throws. *)
Definition transaction {E A} (fn : DB → E + DB * A) (db : DB) : DB * (E + A) :=
  match fn db with
  | inl e => (db, inl e)
  | inr (db', a) => (db', inr a)
  end.

End Prisma.

(* ===================================================================== *)
(** * Balance reconciliation: the inline computations *)
(* ===================================================================== *)

(** An enrollment as returned with [include: { course: true, payments: true }]. *)
Record EnrollmentFull := {
  ef_enrollment : Enrollment;
  ef_course : Course;
  ef_payments : list Payment
}.

(** [paymentStatus]: three JavaScript values. *)
Record PaymentStatus := {
  totalPaid : float;
  outstanding : float;
  isFullyPaid : bool
}.

(** The formula in the words of the specification, on the exact amounts:
    the sum of the payments, the price less the sum but not below zero, and
    whether that is zero. *)
Fixpoint sum_amounts (amounts : list Z) : Z :=
  match amounts with
  | [] => 0
  | a :: rest => a + sum_amounts rest
  end.

Definition balance_spec (price : Z) (amounts : list Z) : Z * Z * bool :=
  (sum_amounts amounts,
   Z.max 0 (price - sum_amounts amounts),
   bool_decide (Z.max 0 (price - sum_amounts amounts) ≤ 0)).

Definition amounts_of (ps : list Payment) : list Z := payment_amount <$> ps.

(** The same formula on binary64 numbers: the sum is taken from [acc]
    through the list, one rounded addition per payment. *)
Fixpoint sum_doubles (acc : float) (amounts : list float) : float :=
  match amounts with
  | [] => acc
  | a :: rest => sum_doubles (acc + a) rest
  end.

Definition balance_double (price : float) (amounts : list float) : PaymentStatus :=
  {| totalPaid := sum_doubles 0 amounts;
     outstanding := Js.max 0 (price - sum_doubles 0 amounts);
     isFullyPaid := (Js.max 0 (price - sum_doubles 0 amounts) <=? 0)%float |}.

(** GET /enrollments: [enrollmentsWithPaymentStatus]. *)
Definition enrollmentsWithPaymentStatus (enrollments : list EnrollmentFull)
    : list (EnrollmentFull * PaymentStatus) :=
  (λ enrollment,
     let totalPaid :=
       Js.reduce (λ sum payment, (sum + Js.parseFloat (payment_amount payment))%float)
         0%float (ef_payments enrollment) in
     let coursePrice := Js.parseFloat (course_price (ef_course enrollment)) in
     let outstanding := Js.max 0 (coursePrice - totalPaid) in
     (enrollment,
      {| totalPaid := totalPaid; outstanding := outstanding;
         isFullyPaid := (outstanding <=? 0)%float |})) <$> enrollments.

(** GET /enrollments/:id: [enrollmentWithPaymentStatus]. *)
Definition enrollmentWithPaymentStatus (enrollment : EnrollmentFull)
    : EnrollmentFull * PaymentStatus :=
  let totalPaid :=
    Js.reduce (λ sum payment, (sum + Js.parseFloat (payment_amount payment))%float)
      0%float (ef_payments enrollment) in
  let coursePrice := Js.parseFloat (course_price (ef_course enrollment)) in
  let outstanding := Js.max 0 (coursePrice - totalPaid) in
  (enrollment,
   {| totalPaid := totalPaid; outstanding := outstanding;
      isFullyPaid := (outstanding <=? 0)%float |}).

(** GET /payments/student/:studentId/summary: one item of [summary]. *)
Record SummaryItem := {
  si_enrollmentId : string;
  si_courseName : string;
  si_coursePrice : float;
  si_totalPaid : float;
  si_outstanding : float;
  si_isFullyPaid : bool;
  si_status : EnrollmentStatus;
  si_startDate : JsDate;
  si_endDate : option JsDate
}.

Definition summary (enrollments : list EnrollmentFull) : list SummaryItem :=
  (λ enrollment,
     let totalPaid :=
       Js.reduce (λ sum payment, (sum + Js.parseFloat (payment_amount payment))%float)
         0%float (ef_payments enrollment) in
     let coursePrice := Js.parseFloat (course_price (ef_course enrollment)) in
     let outstanding := Js.max 0 (coursePrice - totalPaid) in
     {| si_enrollmentId := enrollment_id (ef_enrollment enrollment);
        si_courseName := course_name (ef_course enrollment);
        si_coursePrice := coursePrice;
        si_totalPaid := totalPaid;
        si_outstanding := outstanding;
        si_isFullyPaid := (outstanding <=? 0)%float;
        si_status := enrollment_status (ef_enrollment enrollment);
        si_startDate := enrollment_startDate (ef_enrollment enrollment);
        si_endDate := enrollment_endDate (ef_enrollment enrollment) |}) <$> enrollments.

Record SummaryTotals := { totals_outstanding : float; totals_paid : float }.

Definition summary_totals (items : list SummaryItem) : SummaryTotals :=
  {| totals_outstanding :=
       Js.reduce (λ sum item, (sum + si_outstanding item)%float) 0%float items;
     totals_paid :=
       Js.reduce (λ sum item, (sum + si_totalPaid item)%float) 0%float items |}.

(** GET /dashboard/overview and GET /dashboard/payments: [outstandingAmount]
    over the ACTIVE enrollments. *)
Definition outstandingAmount (activeEnrollmentsList : list EnrollmentFull) : float :=
  Js.reduce (λ total enrollment,
     let totalPaid :=
       Js.reduce (λ sum payment, (sum + Js.parseFloat (payment_amount payment))%float)
         0%float (ef_payments enrollment) in
     let coursePrice := Js.parseFloat (course_price (ef_course enrollment)) in
     (total + Js.max 0 (coursePrice - totalPaid))%float) 0%float activeEnrollmentsList.

(** The relation loading of [include: { course: true, payments: true }];
    [None] when the course row is missing, in which case the handler's
    [enrollment.course.price] throws. *)
Definition include_full (db : DB) (e : Enrollment) : option EnrollmentFull :=
  match Prisma.course_findUnique db (enrollment_courseId e) with
  | Some c => Some {| ef_enrollment := e; ef_course := c;
                      ef_payments := Prisma.payment_findMany_enrollment db (enrollment_id e) |}
  | None => None
  end.

Inductive SummaryReply :=
| SummaryOk (studentId : string) (items : list SummaryItem) (totals : SummaryTotals)
| SummaryError (error : string).

(** GET /payments/student/:studentId/summary *)
Definition get_student_summary (db : DB) (studentId : string) : Response SummaryReply :=
  match mapM (include_full db) (Prisma.enrollment_findMany_student db studentId) with
  | Some enrollments =>
      let items := summary enrollments in
      reply 200%nat (SummaryOk studentId items (summary_totals items))
  | None => reply 500%nat (SummaryError "Failed to fetch payment summary")
  end.

(* ===================================================================== *)
(** * Route handlers *)
(* ===================================================================== *)

Section Routes.

(** express-validator's [isISO8601], taken as given. *)
Variable isISO8601 : string → bool.

(** What a Decimal column keeps when a JavaScript number is written to it,
    in hundredths.  It depends on the scale of the column and on how the
    database rounds; the schema is not among the sources, so the conversion
    is taken as given. *)
Variable toDecimal : float → Z.

(** ** The payments router *)

(** The JSON body of POST /payments and PUT /payments/:id.  A missing text
    field is the empty text.  [pb_amount] is the number that [amount] reads
    as when it is written as a decimal numeral ([parseFloat(amount)]), and
    NaN when it is not: NaN is what [isFloat] turns down. *)
Record PaymentBody := {
  pb_studentId : string;
  pb_enrollmentId : string;
  pb_amount : float;
  pb_method : string;
  pb_date : string;
  pb_notes : option string
}.

Inductive PaymentReply :=
| PaymentErrors (errors : list string)
| PaymentError (error : string)
| PaymentExceeds (coursePrice totalPaid remaining : float)
| PaymentJson (payment : Payment).

(** [validatePayment] followed by [validationResult(req)]: the messages of
    the failed checks.  The bound of [isFloat({ min: 0.01 })] is the number
    that the numeral 0.01 denotes. *)
Definition validatePayment (b : PaymentBody) : list string :=
  (if bool_decide (pb_studentId b = "") then ["Student ID is required"] else []) ++
  (if bool_decide (pb_enrollmentId b = "") then ["Enrollment ID is required"] else []) ++
  (if (Js.quotient 1 100 <=? pb_amount b)%float then []
   else ["Amount must be a positive number"]) ++
  (if Js.isIn (pb_method b) payment_methods then [] else ["Invalid payment method"]) ++
  (if isISO8601 (pb_date b) then [] else ["Date must be a valid date"]) ++
  match pb_notes b with
  | Some notes =>
      if bool_decide (Js.length (Js.trim notes) ≤ 500)%nat then []
      else ["Notes must be less than 500 characters"]
  | None => []
  end.

(** [existingPayments.reduce((sum, payment) => sum + parseFloat(payment.amount), 0)]
    for the payments of an enrollment, in the order in which [findMany]
    returns them. *)
Definition totalPaid_of (db : DB) (enrollmentId : string) : float :=
  Js.reduce (λ sum payment, (sum + Js.parseFloat (payment_amount payment))%float)
    0%float (Prisma.payment_findMany_enrollment db enrollmentId).

(** POST /payments *)
Definition post_payment (db : DB) (b : PaymentBody) : DB * Response PaymentReply :=
  match validatePayment b with
  | (_ :: _) as errors => (db, reply 400%nat (PaymentErrors errors))
  | [] =>
  let studentId := pb_studentId b in
  let enrollmentId := pb_enrollmentId b in
  match Prisma.student_findUnique db studentId with
  | None => (db, reply 400%nat (PaymentError "Student not found"))
  | Some student =>
  match Prisma.enrollment_findUnique db enrollmentId with
  | None => (db, reply 400%nat (PaymentError "Enrollment not found"))
  | Some enrollment =>
  let course := Prisma.course_findUnique db (enrollment_courseId enrollment) in
  if bool_decide (enrollment_studentId enrollment ≠ studentId)
  then (db, reply 400%nat
              (PaymentError "Enrollment does not belong to the specified student"))
  else if bool_decide (enrollment_status enrollment ≠ ACTIVE)
  then (db, reply 400%nat (PaymentError "Cannot record payment for inactive enrollment"))
  else
    let existingPayments := Prisma.payment_findMany_enrollment db enrollmentId in
    let totalPaid :=
      Js.reduce (λ sum payment, (sum + Js.parseFloat (payment_amount payment))%float)
        0%float existingPayments in
    match course with
    | None => (db, reply 500%nat (PaymentError "Failed to create payment"))
    | Some course =>
    let coursePrice := Js.parseFloat (course_price course) in
    let newTotalPaid := (totalPaid + pb_amount b)%float in
    if (coursePrice <? newTotalPaid)%float
    then (db, reply 400%nat
                (PaymentExceeds coursePrice totalPaid (coursePrice - totalPaid)%float))
    else
      match Prisma.payment_create db studentId (Some enrollmentId)
              (toDecimal (pb_amount b))
              (pb_method b) (DateOf (pb_date b)) (Js.trim <$> pb_notes b) with
      | inl _ => (db, reply 500%nat (PaymentError "Failed to create payment"))
      | inr (db1, payment) =>
          if (coursePrice <=? newTotalPaid)%float
          then match Prisma.enrollment_update_status db1 enrollmentId COMPLETED with
               | inl _ => (db1, reply 500%nat (PaymentError "Failed to create payment"))
               | inr db2 => (db2, reply 201%nat (PaymentJson payment))
               end
          else (db1, reply 201%nat (PaymentJson payment))
      end
    end
  end end end.

(** PUT /payments/:id *)
Definition put_payment (db : DB) (id : string) (b : PaymentBody)
    : DB * Response PaymentReply :=
  match validatePayment b with
  | (_ :: _) as errors => (db, reply 400%nat (PaymentErrors errors))
  | [] =>
  let studentId := pb_studentId b in
  let enrollmentId := pb_enrollmentId b in
  match Prisma.payment_findUnique db id with
  | None => (db, reply 404%nat (PaymentError "Payment not found"))
  | Some existingPayment =>
  let student_or := if bool_decide (studentId ≠ "") then studentId
                    else payment_studentId existingPayment in
  let enrollment_or := if bool_decide (enrollmentId ≠ "") then enrollmentId
                       else payment_enrollmentId existingPayment in
  if bool_decide (studentId ≠ "") && bool_decide (Prisma.student_findUnique db studentId = None)
  then (db, reply 400%nat (PaymentError "Student not found"))
  else
    let update (_ : unit) :=
      match Prisma.payment_update db id student_or enrollment_or
              (toDecimal (pb_amount b))
              (pb_method b) (DateOf (pb_date b)) (Js.trim <$> pb_notes b) with
      | inl Prisma.P2025 => (db, reply 404%nat (PaymentError "Payment not found"))
      | inl _ => (db, reply 500%nat (PaymentError "Failed to update payment"))
      | inr (db1, payment) => (db1, reply 200%nat (PaymentJson payment))
      end in
    if bool_decide (enrollmentId ≠ "") then
      match Prisma.enrollment_findUnique db enrollmentId with
      | None => (db, reply 400%nat (PaymentError "Enrollment not found"))
      | Some enrollment =>
          if bool_decide (enrollment_studentId enrollment ≠ student_or)
          then (db, reply 400%nat
                      (PaymentError "Enrollment does not belong to the specified student"))
          else update ()
      end
    else update ()
  end end.

(** ** POST /payments split at its [await]s

    Between two [await]s a handler runs without interruption; each query is
    one atomic step against the database, and the steps of another request
    may run between two steps of this one. *)
Inductive PostTask :=
| AwaitStudent
| AwaitEnrollment
| AwaitPayments (enrollment : Enrollment) (course : option Course)
| AwaitCreate (newTotalPaid coursePrice : float)
| AwaitUpdate (payment : Payment)
| Finished (r : Response PaymentReply).

Definition post_begin (b : PaymentBody) : PostTask :=
  match validatePayment b with
  | (_ :: _) as errors => Finished (reply 400%nat (PaymentErrors errors))
  | [] => AwaitStudent
  end.

Definition post_step (b : PaymentBody) (db : DB) (task : PostTask) : DB * PostTask :=
  let studentId := pb_studentId b in
  let enrollmentId := pb_enrollmentId b in
  match task with
  | AwaitStudent =>
      match Prisma.student_findUnique db studentId with
      | None => (db, Finished (reply 400%nat (PaymentError "Student not found")))
      | Some _ => (db, AwaitEnrollment)
      end
  | AwaitEnrollment =>
      match Prisma.enrollment_findUnique db enrollmentId with
      | None => (db, Finished (reply 400%nat (PaymentError "Enrollment not found")))
      | Some enrollment =>
          let course := Prisma.course_findUnique db (enrollment_courseId enrollment) in
          if bool_decide (enrollment_studentId enrollment ≠ studentId)
          then (db, Finished (reply 400%nat
                  (PaymentError "Enrollment does not belong to the specified student")))
          else if bool_decide (enrollment_status enrollment ≠ ACTIVE)
          then (db, Finished (reply 400%nat
                  (PaymentError "Cannot record payment for inactive enrollment")))
          else (db, AwaitPayments enrollment course)
      end
  | AwaitPayments enrollment course =>
      let existingPayments := Prisma.payment_findMany_enrollment db enrollmentId in
      let totalPaid :=
        Js.reduce (λ sum payment, (sum + Js.parseFloat (payment_amount payment))%float)
          0%float existingPayments in
      match course with
      | None => (db, Finished (reply 500%nat (PaymentError "Failed to create payment")))
      | Some course =>
          let coursePrice := Js.parseFloat (course_price course) in
          let newTotalPaid := (totalPaid + pb_amount b)%float in
          if (coursePrice <? newTotalPaid)%float
          then (db, Finished (reply 400%nat
                  (PaymentExceeds coursePrice totalPaid (coursePrice - totalPaid)%float)))
          else (db, AwaitCreate newTotalPaid coursePrice)
      end
  | AwaitCreate newTotalPaid coursePrice =>
      match Prisma.payment_create db studentId (Some enrollmentId)
              (toDecimal (pb_amount b))
              (pb_method b) (DateOf (pb_date b)) (Js.trim <$> pb_notes b) with
      | inl _ => (db, Finished (reply 500%nat (PaymentError "Failed to create payment")))
      | inr (db1, payment) =>
          if (coursePrice <=? newTotalPaid)%float
          then (db1, AwaitUpdate payment)
          else (db1, Finished (reply 201%nat (PaymentJson payment)))
      end
  | AwaitUpdate payment =>
      match Prisma.enrollment_update_status db enrollmentId COMPLETED with
      | inl _ => (db, Finished (reply 500%nat (PaymentError "Failed to create payment")))
      | inr db2 => (db2, Finished (reply 201%nat (PaymentJson payment)))
      end
  | Finished r => (db, Finished r)
  end.

(** One request served alone: its five queries in a row. *)
Definition post_alone (db : DB) (b : PaymentBody) : DB * PostTask :=
  let '(db1, t1) := post_step b db (post_begin b) in
  let '(db2, t2) := post_step b db1 t1 in
  let '(db3, t3) := post_step b db2 t2 in
  let '(db4, t4) := post_step b db3 t3 in
  post_step b db4 t4.

(** Two requests in flight; the schedule says whose next query runs. *)
Inductive Turn := RunFirst | RunSecond.

Definition race_step (b1 b2 : PaymentBody) (st : DB * PostTask * PostTask) (t : Turn)
    : DB * PostTask * PostTask :=
  let '(db, t1, t2) := st in
  match t with
  | RunFirst => let '(db', t1') := post_step b1 db t1 in (db', t1', t2)
  | RunSecond => let '(db', t2') := post_step b2 db t2 in (db', t1, t2')
  end.

Definition race (b1 b2 : PaymentBody) (db : DB) (schedule : list Turn)
    : DB * PostTask * PostTask :=
  foldl (race_step b1 b2) (db, post_begin b1, post_begin b2) schedule.

(** The total recorded against an enrollment, and the invariant of the data
    model: no enrollment is paid beyond the price of its course. *)
Definition paid (db : DB) (enrollmentId : string) : Z :=
  sum_amounts (amounts_of (Prisma.payment_findMany_enrollment db enrollmentId)).

Definition within_price (db : DB) : Prop :=
  ∀ id e c, Prisma.enrollment_findUnique db id = Some e →
            Prisma.course_findUnique db (enrollment_courseId e) = Some c →
            paid db id ≤ course_price c.

(** ** The list endpoints: GET /students, /courses, /enrollments, /payments *)

(** [findMany({ where, orderBy, skip, take })] on the rows that match, in
    order: the window of the ORM, taken as given.  It throws ([None]) on
    arguments it rejects. *)
Variable window : ∀ A : Type, option Z → option Z → list A → option (list A).

Record Pagination := {
  pg_page : option Z;
  pg_limit : option Z;
  pg_total : Z;
  pg_pages : option Z
}.

(** The body [{ <key>: rows, pagination }]; the rows are sent under the
    name of the entity ([students], [courses], [enrollments], [payments]). *)
Inductive ListReply (Row : Type) :=
| ListJson (key : string) (data : list Row) (pagination : Pagination)
| ListError (error : string).
Arguments ListJson {Row} _ _ _.
Arguments ListError {Row} _.

(** [parseInt(page)] with the destructuring default of [req.query]. *)
Definition parse_param (dflt : Z) (v : option string) : option Z :=
  match v with
  | Some text => Js.parseInt text
  | None => Some dflt
  end.

(** The body shared by the four handlers: [where_] and [orderBy] are the
    filter and the ordering built from the query, [shape] post-processes the
    rows (it throws with [None]), [key] names the rows in the reply. *)
Definition list_rows {Row Out : Type} (where_ : Row → Prop) `{∀ r, Decision (where_ r)}
    (orderBy : list Row → list Row) (shape : list Row → option (list Out))
    (key failure : string) (table : list Row) (page limit : option string)
    : Response (ListReply Out) :=
  let skip := Js.mul (Js.sub (parse_param 1 page) (Some 1)) (parse_param 20 limit) in
  let total := Z.of_nat (length (filter where_ table)) in
  match window Row skip (parse_param 20 limit) (orderBy (filter where_ table)) ≫= shape with
  | Some rows =>
      reply 200%nat
        (ListJson key rows
           {| pg_page := parse_param 1 page;
              pg_limit := parse_param 20 limit;
              pg_total := total;
              pg_pages := Js.ceil_div total (parse_param 20 limit) |})
  | None => reply 500%nat (ListError failure)
  end.






(** ** The upload router: the CSV preview *)

(** [cleanedData] *)
Record CsvStudent := {
  cs_name : string;
  cs_email : string;
  cs_phone : string;
  cs_course : option string;
  cs_batch : option string;
  cs_startDate : option string;
  cs_notes : option string
}.

Inductive CsvData :=
| RawRow (data : gmap string string)
| CleanedRow (cleanedData : CsvStudent).

Record CsvError := {
  ce_row : nat;
  ce_error : string;
  ce_data : CsvData
}.

(** The ['data'] callback of [parseCSV], on one row object of csv-parser
    (header name to cell text). *)
Definition onData (acc : list CsvStudent * list CsvError) (data : gmap string string)
    : list CsvStudent * list CsvError :=
  let '(results, errors) := acc in
  if negb (Js.truthy (data !! "name")) || negb (Js.truthy (data !! "email"))
     || negb (Js.truthy (data !! "phone"))
  then (results,
        errors ++ [{| ce_row := length results + 1;
                      ce_error := "Missing required fields (name, email, phone)";
                      ce_data := RawRow data |}])
  else
    let cleanedData :=
      {| cs_name := Js.trim (default "" (data !! "name"));
         cs_email := Js.toLowerCase (Js.trim (default "" (data !! "email")));
         cs_phone := Js.trim (default "" (data !! "phone"));
         cs_course := Js.trim <$> data !! "course";
         cs_batch := Js.trim <$> data !! "batch";
         cs_startDate := Js.trim <$> data !! "startDate";
         cs_notes := Js.trim <$> data !! "notes" |} in
    if bool_decide (Js.length (cs_name cleanedData) < 2)%nat
    then (results,
          errors ++ [{| ce_row := length results + 1;
                        ce_error := "Name must be at least 2 characters";
                        ce_data := CleanedRow cleanedData |}])
    else if negb (Js.includes (cs_email cleanedData) "@")
    then (results,
          errors ++ [{| ce_row := length results + 1;
                        ce_error := "Invalid email format";
                        ce_data := CleanedRow cleanedData |}])
    else if bool_decide (Js.length (cs_phone cleanedData) < 10)%nat
    then (results,
          errors ++ [{| ce_row := length results + 1;
                        ce_error := "Phone number too short";
                        ce_data := CleanedRow cleanedData |}])
    else (results ++ [cleanedData], errors).

Definition parseCSV (rows : list (gmap string string)) : list CsvStudent * list CsvError :=
  foldl onData ([], []) rows.

(** [req.file] after multer: no file, a file whose stream fails, or a file
    that csv-parser reads as the given rows. *)
Inductive Upload :=
| NoFile
| Unreadable
| CsvFile (rows : list (gmap string string)).

Record Preview := {
  pv_totalRows : nat;
  pv_validRows : nat;
  pv_errorRows : nat;
  pv_preview : list CsvStudent;
  pv_errors : list CsvError;
  pv_sampleData : option CsvStudent
}.

Inductive PreviewReply :=
| PreviewJson (p : Preview)
| PreviewError (error : string).

(** POST /upload/csv-preview *)
Definition csv_preview (db : DB) (file : Upload) : DB * Response PreviewReply :=
  match file with
  | NoFile => (db, reply 400%nat (PreviewError "No file uploaded"))
  | Unreadable => (db, reply 500%nat (PreviewError "Failed to parse CSV file"))
  | CsvFile rows =>
      let '(results, errors) := parseCSV rows in
      (db, reply 200%nat
             (PreviewJson
                {| pv_totalRows := length results + length errors;
                   pv_validRows := length results;
                   pv_errorRows := length errors;
                   pv_preview := take 10 results;
                   pv_errors := take 10 errors;
                   pv_sampleData := head results |}))
  end.

(** ** The guarded deletes *)

Inductive DeleteReply :=
| DeleteMessage (message : string)
| DeleteError (error : string)
| DeleteBlocked (error : string) (count : nat).

(** DELETE /courses/:id *)
Definition delete_course (db : DB) (id : string) : DB * Response DeleteReply :=
  let enrollments := Prisma.enrollment_findMany_course db id in
  if bool_decide (0 < length enrollments)%nat
  then (db, reply 400%nat
              (DeleteBlocked "Cannot delete course with active enrollments"
                 (length enrollments)))
  else match Prisma.course_delete db id with
       | inr db' => (db', reply 200%nat (DeleteMessage "Course deleted successfully"))
       | inl Prisma.P2025 => (db, reply 404%nat (DeleteError "Course not found"))
       | inl _ => (db, reply 500%nat (DeleteError "Failed to delete course"))
       end.

(** DELETE /enrollments/:id *)
Definition delete_enrollment (db : DB) (id : string) : DB * Response DeleteReply :=
  let payments := Prisma.payment_findMany_enrollment db id in
  if bool_decide (0 < length payments)%nat
  then (db, reply 400%nat
              (DeleteBlocked "Cannot delete enrollment with payment records"
                 (length payments)))
  else match Prisma.enrollment_delete db id with
       | inr db' => (db', reply 200%nat (DeleteMessage "Enrollment deleted successfully"))
       | inl Prisma.P2025 => (db, reply 404%nat (DeleteError "Enrollment not found"))
       | inl _ => (db, reply 500%nat (DeleteError "Failed to delete enrollment"))
       end.

(** Every enrollment points to a course row, every payment to an
    enrollment row. *)
Definition no_dangling (db : DB) : Prop :=
  (∀ e, e ∈ enrollments db → is_Some (Prisma.course_findUnique db (enrollment_courseId e))) ∧
  (∀ p, p ∈ payments db → is_Some (Prisma.enrollment_findUnique db (payment_enrollmentId p))).

(** ** The students router: the composite creation *)

Record StudentPayload := {
  sp_name : option string;
  sp_email : option string;
  sp_phone : option string;
  sp_nricPassportId : option string;
  sp_address : option string;
  sp_remarks : option string;
  sp_documents : option (list string)
}.

Record EnrollmentPayload := {
  ep_courseId : option string;
  ep_batch : option string;
  ep_startDate : option string;
  ep_endDate : option string;
  ep_status : option string
}.

(** [payment.amount]: falsy (absent, [0], the empty text), a value that
    [Prisma.Decimal] rejects, or a decimal, in hundredths. *)
Inductive JsAmount :=
| AmountFalsy
| AmountInvalid
| AmountDecimal (hundredths : Z).

Definition amount_truthy (a : JsAmount) : bool :=
  match a with
  | AmountFalsy => false
  | _ => true
  end.

Record PaymentPayload := {
  pp_amount : JsAmount;
  pp_method : option string;
  pp_date : option string;
  pp_applyTo : option string;
  pp_enrollmentId : option string;
  pp_notes : option string
}.

(** [req.body.data] after [JSON.parse]. *)
Inductive FormData :=
| BadJson (message : string)
| Json (student : option StudentPayload) (enrollment : option EnrollmentPayload)
       (payment : option PaymentPayload).

Record FullCreateRequest := {
  fc_data : FormData;
  fc_files : list string
}.

Record Created := {
  createdStudent : Student;
  createdEnrollment : option Enrollment;
  createdPayment : option Payment
}.

Inductive FullCreateReply :=
| CreatedJson (result : Created)
| CreateError (error : string).

(** What the transaction callback can throw. *)
Inductive Thrown :=
| PrismaError (e : Prisma.Error)
| JsError (message : string).

Definition thrown_message (t : Thrown) : string :=
  match t with
  | PrismaError e => Prisma.message e
  | JsError m => m
  end.

Definition lift {A} (r : Prisma.Error + A) : Thrown + A :=
  match r with
  | inl e => inl (PrismaError e)
  | inr a => inr a
  end.

(** The callback given to [prisma.$transaction]. *)
Definition full_create_tx (studentPayload : StudentPayload)
    (enrollment : option EnrollmentPayload) (payment : option PaymentPayload)
    (docPaths : list string) (tx : DB) : Thrown + DB * Created :=
  let nric := default "" (sp_nricPassportId studentPayload) in
  match Prisma.student_findFirst_nric tx nric with
  | Some dup => inl (JsError "NRIC/Passport ID already exists")
  | None =>
  match lift (Prisma.student_create tx
                (default "" (sp_name studentPayload))
                (default "" (sp_email studentPayload))
                (default "" (sp_phone studentPayload))
                (Some nric)
                (Js.or_else (sp_address studentPayload) None)
                (Js.or_else (sp_remarks studentPayload) None)
                (default [] (sp_documents studentPayload) ++ docPaths)) with
  | inl e => inl e
  | inr (tx1, createdStudent) =>
  let enrollment_step : Thrown + DB * option Enrollment :=
    match enrollment ≫= ep_courseId with
    | Some (String _ _ as courseId) =>
        match lift (Prisma.enrollment_create tx1 (student_id createdStudent) courseId
                      (Js.or_else (enrollment ≫= ep_batch) None)
                      (match enrollment ≫= ep_startDate with
                       | Some (String _ _ as d) => DateOf d
                       | _ => CurrentDate
                       end)
                      (match enrollment ≫= ep_endDate with
                       | Some (String _ _ as d) => Some (DateOf d)
                       | _ => None
                       end)
                      (default "ACTIVE" (Js.or_else (enrollment ≫= ep_status) None))) with
        | inl e => inl e
        | inr (tx2, e) => inr (tx2, Some e)
        end
    | _ => inr (tx1, None)
    end in
  match enrollment_step with
  | inl e => inl e
  | inr (tx2, createdEnrollment) =>
  let amount := default AmountFalsy (pp_amount <$> payment) in
  if amount_truthy amount && Js.truthy (payment ≫= pp_method)
     && Js.truthy (payment ≫= pp_date)
  then
    let enrollmentId :=
      if bool_decide ((payment ≫= pp_applyTo) = Some "enrollment")
      then enrollment_id <$> createdEnrollment
      else Js.or_else (payment ≫= pp_enrollmentId) None in
    let target :=
      if Js.truthy enrollmentId then enrollmentId
      else match createdEnrollment with
           | Some e => Some (enrollment_id e)
           | None => payment ≫= pp_enrollmentId
           end in
    match amount with
    | AmountDecimal value =>
        match lift (Prisma.payment_create tx2 (student_id createdStudent) target value
                      (default "" (payment ≫= pp_method))
                      (DateOf (default "" (payment ≫= pp_date)))
                      (Js.or_else (payment ≫= pp_notes) None)) with
        | inl e => inl e
        | inr (tx3, p) =>
            inr (tx3, {| createdStudent := createdStudent;
                         createdEnrollment := createdEnrollment;
                         createdPayment := Some p |})
        end
    | _ => inl (PrismaError Prisma.DecimalError)
    end
  else inr (tx2, {| createdStudent := createdStudent;
                    createdEnrollment := createdEnrollment;
                    createdPayment := None |})
  end end end.

(** The three writes of the callback, each on its own: the awaited
    [tx.student.create], the optional [tx.enrollment.create] and the optional
    [tx.payment.create] with the evaluation of its [data]. *)
Definition tx_student (studentPayload : StudentPayload) (docPaths : list string)
    (tx : DB) : Thrown + DB * Student :=
  lift (Prisma.student_create tx
          (default "" (sp_name studentPayload))
          (default "" (sp_email studentPayload))
          (default "" (sp_phone studentPayload))
          (Some (default "" (sp_nricPassportId studentPayload)))
          (Js.or_else (sp_address studentPayload) None)
          (Js.or_else (sp_remarks studentPayload) None)
          (default [] (sp_documents studentPayload) ++ docPaths)).

Definition tx_enrollment (enrollment : option EnrollmentPayload) (tx1 : DB)
    (createdStudent : Student) : Thrown + DB * option Enrollment :=
  match enrollment ≫= ep_courseId with
  | Some (String _ _ as courseId) =>
      match lift (Prisma.enrollment_create tx1 (student_id createdStudent) courseId
                    (Js.or_else (enrollment ≫= ep_batch) None)
                    (match enrollment ≫= ep_startDate with
                     | Some (String _ _ as d) => DateOf d
                     | _ => CurrentDate
                     end)
                    (match enrollment ≫= ep_endDate with
                     | Some (String _ _ as d) => Some (DateOf d)
                     | _ => None
                     end)
                    (default "ACTIVE" (Js.or_else (enrollment ≫= ep_status) None))) with
      | inl e => inl e
      | inr (tx2, e) => inr (tx2, Some e)
      end
  | _ => inr (tx1, None)
  end.

Definition tx_payment (payment : option PaymentPayload) (tx2 : DB)
    (createdStudent : Student) (createdEnrollment : option Enrollment)
    : Thrown + DB * option Payment :=
  let amount := default AmountFalsy (pp_amount <$> payment) in
  if amount_truthy amount && Js.truthy (payment ≫= pp_method)
     && Js.truthy (payment ≫= pp_date)
  then
    let enrollmentId :=
      if bool_decide ((payment ≫= pp_applyTo) = Some "enrollment")
      then enrollment_id <$> createdEnrollment
      else Js.or_else (payment ≫= pp_enrollmentId) None in
    let target :=
      if Js.truthy enrollmentId then enrollmentId
      else match createdEnrollment with
           | Some e => Some (enrollment_id e)
           | None => payment ≫= pp_enrollmentId
           end in
    match amount with
    | AmountDecimal value =>
        match lift (Prisma.payment_create tx2 (student_id createdStudent) target value
                      (default "" (payment ≫= pp_method))
                      (DateOf (default "" (payment ≫= pp_date)))
                      (Js.or_else (payment ≫= pp_notes) None)) with
        | inl e => inl e
        | inr (tx3, p) => inr (tx3, Some p)
        end
    | _ => inl (PrismaError Prisma.DecimalError)
    end
  else inr (tx2, None).

(** The [catch] block: every failure is answered with status 400. *)
Definition full_create_catch (error : Thrown) : Response FullCreateReply :=
  let field :=
    match error with
    | PrismaError (Prisma.P2002 target) => Some target
    | _ => None
    end in
  if bool_decide (field = Some "email")
  then reply 400%nat
         (CreateError "Email address already exists. Please use a different email.")
  else if bool_decide (field = Some "nricPassportId")
  then reply 400%nat
         (CreateError "NRIC/Passport ID already exists. Please use a different ID.")
  else if Js.contains (thrown_message error) "NRIC/Passport ID already exists"
  then reply 400%nat
         (CreateError "NRIC/Passport ID already exists. Please use a different ID.")
  else if Js.contains (thrown_message error) "Decimal"
  then reply 400%nat
         (CreateError "Invalid payment amount. Please enter a valid number.")
  else reply 400%nat
         (CreateError (if bool_decide (thrown_message error = "")
                       then "Failed to create student"
                       else thrown_message error)).

(** POST /students/full-create *)
Definition full_create (db : DB) (req : FullCreateRequest)
    : DB * Response FullCreateReply :=
  match fc_data req with
  | BadJson message => (db, full_create_catch (JsError message))
  | Json student enrollment payment =>
      if negb (Js.truthy (student ≫= sp_name) && Js.truthy (student ≫= sp_email)
               && Js.truthy (student ≫= sp_phone)
               && Js.truthy (student ≫= sp_nricPassportId))
      then (db, reply 400%nat (CreateError "Missing required student fields"))
      else
        let studentPayload :=
          default (Build_StudentPayload None None None None None None None) student in
        let docPaths := (λ f, "/uploads/student-docs/" +:+ f) <$> fc_files req in
        match Prisma.transaction
                (full_create_tx studentPayload enrollment payment docPaths) db with
        | (db', inr result) => (db', reply 201%nat (CreatedJson result))
        | (db', inl error) => (db', full_create_catch error)
        end
  end.

(** ** The payments router: reading and deleting one payment *)

(** GET /payments/:id *)
Definition get_payment (db : DB) (id : string) : Response PaymentReply :=
  match Prisma.payment_findUnique db id with
  | None => reply 404%nat (PaymentError "Payment not found")
  | Some payment => reply 200%nat (PaymentJson payment)
  end.

(** DELETE /payments/:id *)
Definition delete_payment (db : DB) (id : string) : DB * Response DeleteReply :=
  match Prisma.payment_delete db id with
  | inr db' => (db', reply 200%nat (DeleteMessage "Payment deleted successfully"))
  | inl Prisma.P2025 => (db, reply 404%nat (DeleteError "Payment not found"))
  | inl _ => (db, reply 500%nat (DeleteError "Failed to delete payment"))
  end.

(** ** The dashboard router: the counters of GET /dashboard/overview

    The counters that do not depend on the clock or on an ordering;
    [None] is the 500 reply.  [totalRevenue] is [_sum.amount] of
    [payment.aggregate]: a Decimal, added up by the database. *)
Record Overview := {
  ov_totalStudents : nat;
  ov_activeEnrollments : nat;
  ov_completedEnrollments : nat;
  ov_totalCourses : nat;
  ov_activeCourses : nat;
  ov_totalPayments : nat;
  ov_totalRevenue : Z;
  ov_outstandingAmount : float
}.

Definition dashboard_overview (db : DB) : option Overview :=
  let totalStudents := length (students db) in
  let activeEnrollments := length (filter (λ e, enrollment_status e = ACTIVE) (enrollments db)) in
  let completedEnrollments :=
    length (filter (λ e, enrollment_status e = COMPLETED) (enrollments db)) in
  let totalCourses := length (courses db) in
  let activeCourses := length (filter (λ c, course_isActive c = true) (courses db)) in
  let totalPayments := length (payments db) in
  let totalRevenue := sum_amounts (amounts_of (payments db)) in
  match mapM (include_full db)
          (filter (λ e, enrollment_status e = ACTIVE) (enrollments db)) with
  | Some activeEnrollmentsList =>
      Some {| ov_totalStudents := totalStudents;
              ov_activeEnrollments := activeEnrollments;
              ov_completedEnrollments := completedEnrollments;
              ov_totalCourses := totalCourses;
              ov_activeCourses := activeCourses;
              ov_totalPayments := totalPayments;
              ov_totalRevenue := totalRevenue;
              ov_outstandingAmount := outstandingAmount activeEnrollmentsList |}
  | None => None
  end.

(** ** The enrollments router: creating and updating *)

(** The JSON body of POST /enrollments and PUT /enrollments/:id.  A missing
    required text field is the empty text. *)
Record EnrollmentBody := {
  eb_studentId : string;
  eb_courseId : string;
  eb_batch : option string;
  eb_startDate : string;
  eb_endDate : option string;
  eb_status : option string
}.

Inductive EnrollmentReply :=
| EnrollmentErrors (errors : list string)
| EnrollmentError (error : string)
| EnrollmentJson (enrollment : Enrollment).

Definition enrollment_statuses : list string :=
  ["ACTIVE"; "COMPLETED"; "CANCELLED"; "SUSPENDED"].

(** [validateEnrollment] followed by [validationResult(req)]. *)
Definition validateEnrollment (b : EnrollmentBody) : list string :=
  (if bool_decide (eb_studentId b = "") then ["Student ID is required"] else []) ++
  (if bool_decide (eb_courseId b = "") then ["Course ID is required"] else []) ++
  match eb_batch b with
  | Some batch =>
      if bool_decide (Js.length (Js.trim batch) ≤ 50)%nat then []
      else ["Batch must be less than 50 characters"]
  | None => []
  end ++
  (if isISO8601 (eb_startDate b) then [] else ["Start date must be a valid date"]) ++
  match eb_endDate b with
  | Some endDate => if isISO8601 endDate then [] else ["End date must be a valid date"]
  | None => []
  end ++
  match eb_status b with
  | Some st => if Js.isIn st enrollment_statuses then [] else ["Invalid status"]
  | None => []
  end.

(** POST /enrollments *)
Definition post_enrollment (db : DB) (b : EnrollmentBody) : DB * Response EnrollmentReply :=
  match validateEnrollment b with
  | (_ :: _) as errors => (db, reply 400%nat (EnrollmentErrors errors))
  | [] =>
  let studentId := eb_studentId b in
  let courseId := eb_courseId b in
  let status := default "ACTIVE" (eb_status b) in
  match Prisma.student_findUnique db studentId with
  | None => (db, reply 400%nat (EnrollmentError "Student not found"))
  | Some student =>
  match Prisma.course_findUnique db courseId with
  | None => (db, reply 400%nat (EnrollmentError "Course not found"))
  | Some course =>
  if negb (course_isActive course)
  then (db, reply 400%nat (EnrollmentError "Course is not active"))
  else
  match Prisma.enrollment_findFirst_active db studentId courseId with
  | Some existingEnrollment =>
      (db, reply 400%nat (EnrollmentError "Student is already enrolled in this course"))
  | None =>
      match Prisma.enrollment_create db studentId courseId (Js.trim <$> eb_batch b)
              (DateOf (eb_startDate b))
              (match eb_endDate b with
               | Some (String _ _ as endDate) => Some (DateOf endDate)
               | _ => None
               end)
              status with
      | inl _ => (db, reply 500%nat (EnrollmentError "Failed to create enrollment"))
      | inr (db', enrollment) => (db', reply 201%nat (EnrollmentJson enrollment))
      end
  end end end end.

(** PUT /enrollments/:id *)
Definition put_enrollment (db : DB) (id : string) (b : EnrollmentBody)
    : DB * Response EnrollmentReply :=
  match validateEnrollment b with
  | (_ :: _) as errors => (db, reply 400%nat (EnrollmentErrors errors))
  | [] =>
  let studentId := eb_studentId b in
  let courseId := eb_courseId b in
  match Prisma.enrollment_findUnique db id with
  | None => (db, reply 404%nat (EnrollmentError "Enrollment not found"))
  | Some existingEnrollment =>
  if bool_decide (studentId ≠ "") && bool_decide (Prisma.student_findUnique db studentId = None)
  then (db, reply 400%nat (EnrollmentError "Student not found"))
  else
  let course := Prisma.course_findUnique db courseId in
  if bool_decide (courseId ≠ "") && bool_decide (course = None)
  then (db, reply 400%nat (EnrollmentError "Course not found"))
  else if bool_decide (courseId ≠ "") && negb (default true (course_isActive <$> course))
  then (db, reply 400%nat (EnrollmentError "Course is not active"))
  else
    let status :=
      match eb_status b with
      | Some (String _ _ as st) => status_of_text st
      | _ => Some (enrollment_status existingEnrollment)
      end in
    match status with
    | None => (db, reply 500%nat (EnrollmentError "Failed to update enrollment"))
    | Some st =>
        match Prisma.enrollment_update db id
                (if bool_decide (studentId ≠ "") then studentId
                 else enrollment_studentId existingEnrollment)
                (if bool_decide (courseId ≠ "") then courseId
                 else enrollment_courseId existingEnrollment)
                (match Js.trim <$> eb_batch b with
                 | Some (String _ _ as batch) => Some batch
                 | _ => enrollment_batch existingEnrollment
                 end)
                (match eb_startDate b with
                 | String _ _ as startDate => DateOf startDate
                 | EmptyString => enrollment_startDate existingEnrollment
                 end)
                (match eb_endDate b with
                 | Some (String _ _ as endDate) => Some (DateOf endDate)
                 | _ => enrollment_endDate existingEnrollment
                 end)
                st with
        | inr (db', enrollment) => (db', reply 200%nat (EnrollmentJson enrollment))
        | inl Prisma.P2025 => (db, reply 404%nat (EnrollmentError "Enrollment not found"))
        | inl _ => (db, reply 500%nat (EnrollmentError "Failed to update enrollment"))
        end
    end
  end end.

(** An enrollment with its status replaced. *)
Definition with_status (st : EnrollmentStatus) (e : Enrollment) : Enrollment :=
  {| enrollment_id := enrollment_id e;
     enrollment_studentId := enrollment_studentId e;
     enrollment_courseId := enrollment_courseId e;
     enrollment_batch := enrollment_batch e;
     enrollment_startDate := enrollment_startDate e;
     enrollment_endDate := enrollment_endDate e;
     enrollment_status := st |}.

(** PATCH /enrollments/:id/status; [status] is [req.body.status], when it is
    a text. *)
Definition patch_enrollment_status (db : DB) (id : string) (status : option string)
    : DB * Response EnrollmentReply :=
  match status ≫= status_of_text with
  | None => (db, reply 400%nat (EnrollmentError "Invalid status"))
  | Some st =>
      match Prisma.enrollment_update_status db id st with
      | inr db' =>
          match Prisma.enrollment_findUnique db' id with
          | Some enrollment => (db', reply 200%nat (EnrollmentJson enrollment))
          | None => (db', reply 500%nat (EnrollmentError "Failed to update enrollment status"))
          end
      | inl Prisma.P2025 => (db, reply 404%nat (EnrollmentError "Enrollment not found"))
      | inl _ => (db, reply 500%nat (EnrollmentError "Failed to update enrollment status"))
      end
  end.

(** At most one ACTIVE enrollment per student and course. *)
Definition active_pairs (db : DB) : list (string * string) :=
  (λ e, (enrollment_studentId e, enrollment_courseId e))
    <$> filter (λ e, enrollment_status e = ACTIVE) (enrollments db).

Definition unique_active (db : DB) : Prop := NoDup (active_pairs db).

(** ** The courses router *)

(** The constraint that the schema may put on course names: whether a new
    name is turned down given the courses that exist.  The schema file is
    not part of the sources, so it is taken as given. *)
Variable course_name_clash : list Course → string → bool.

(** The JSON body of POST /courses and PUT /courses/:id; [cb_price] is the
    price in hundredths. *)
Record CourseBody := {
  cb_name : string;
  cb_description : option string;
  cb_duration : option string;
  cb_price : Z;
  cb_isActive : option bool
}.

Inductive CourseReply :=
| CourseErrors (errors : list string)
| CourseError (error : string)
| CourseJson (course : Course).

(** [validateCourse] followed by [validationResult(req)]. *)
Definition validateCourse (b : CourseBody) : list string :=
  (if bool_decide (2 ≤ Js.length (Js.trim (cb_name b)) ≤ 100)%nat then []
   else ["Course name must be 2-100 characters"]) ++
  match cb_description b with
  | Some description =>
      if bool_decide (Js.length (Js.trim description) ≤ 500)%nat then []
      else ["Description must be less than 500 characters"]
  | None => []
  end ++
  match cb_duration b with
  | Some duration =>
      if bool_decide (Js.length (Js.trim duration) ≤ 50)%nat then []
      else ["Duration must be less than 50 characters"]
  | None => []
  end ++
  (if bool_decide (0 ≤ cb_price b) then [] else ["Price must be a positive number"]).

(** POST /courses.  The validation chain has trimmed [name], [description]
    and [duration] in [req.body]; the handler trims them again. *)
Definition post_course (db : DB) (b : CourseBody) : DB * Response CourseReply :=
  match validateCourse b with
  | (_ :: _) as errors => (db, reply 400%nat (CourseErrors errors))
  | [] =>
  let name := Js.trim (cb_name b) in
  let description := Js.trim <$> cb_description b in
  let duration := Js.trim <$> cb_duration b in
  let isActive := default true (cb_isActive b) in
  match Prisma.course_findFirst_name db name None with
  | Some existingCourse => (db, reply 400%nat (CourseError "Course name already exists"))
  | None =>
      match Prisma.course_create db (course_name_clash (courses db) (Js.trim name))
              (Js.trim name) (Js.trim <$> description) (Js.trim <$> duration)
              (cb_price b) isActive with
      | inl _ => (db, reply 500%nat (CourseError "Failed to create course"))
      | inr (db', course) => (db', reply 201%nat (CourseJson course))
      end
  end end.

(** The [data] of PUT /courses/:id applied to a row; an [isActive] that is
    not sent leaves the flag as it is. *)
Definition course_data (name : string) (description duration : option string)
    (price : Z) (isActive : option bool) (c : Course) : Course :=
  {| course_id := course_id c; course_name := name;
     course_description := description; course_duration := duration;
     course_price := price;
     course_isActive := default (course_isActive c) isActive |}.

(** PUT /courses/:id *)
Definition put_course (db : DB) (id : string) (b : CourseBody) : DB * Response CourseReply :=
  match validateCourse b with
  | (_ :: _) as errors => (db, reply 400%nat (CourseErrors errors))
  | [] =>
  let name := Js.trim (cb_name b) in
  let description := Js.trim <$> cb_description b in
  let duration := Js.trim <$> cb_duration b in
  match Prisma.course_findFirst_name db name (Some id) with
  | Some existingCourse => (db, reply 400%nat (CourseError "Course name already exists"))
  | None =>
      match Prisma.course_update db id
              (course_name_clash (Prisma.remove_by course_id id (courses db)) (Js.trim name))
              (course_data (Js.trim name) (Js.trim <$> description) (Js.trim <$> duration)
                 (cb_price b) (cb_isActive b)) with
      | inr (db', course) => (db', reply 200%nat (CourseJson course))
      | inl Prisma.P2025 => (db, reply 404%nat (CourseError "Course not found"))
      | inl _ => (db, reply 500%nat (CourseError "Failed to update course"))
      end
  end end.

(** A course with its active flag replaced. *)
Definition with_isActive (flag : bool) (c : Course) : Course :=
  {| course_id := course_id c; course_name := course_name c;
     course_description := course_description c;
     course_duration := course_duration c; course_price := course_price c;
     course_isActive := flag |}.

(** PATCH /courses/:id/toggle-status *)
Definition toggle_course (db : DB) (id : string) : DB * Response CourseReply :=
  match Prisma.course_findUnique db id with
  | None => (db, reply 404%nat (CourseError "Course not found"))
  | Some course =>
      match Prisma.course_update db id false
              (with_isActive (negb (course_isActive course))) with
      | inr (db', updatedCourse) => (db', reply 200%nat (CourseJson updatedCourse))
      | inl _ => (db, reply 500%nat (CourseError "Failed to toggle course status"))
      end
  end.

(** No two courses have the same name up to the case of the letters. *)
Definition names_distinct (db : DB) : Prop :=
  NoDup ((λ c, Js.toLowerCase (course_name c)) <$> courses db).

(** ** The students router: POST /students/bulk-import *)

(** One element of [req.body.students], with text fields; a field that is
    absent is [None]. *)
Record BulkRow := {
  br_name : option string;
  br_email : option string;
  br_phone : option string
}.

Record BulkError := {
  be_row : nat;
  be_error : string;
  be_data : BulkRow
}.

Record BulkSummary := {
  bs_imported : nat;
  bs_total : nat;
  bs_results : list Student;
  bs_errors : list BulkError
}.

Inductive BulkReply :=
| BulkJson (summary : BulkSummary)
| BulkError_ (error : string).

(** The body of the [for] loop, on row [i] (counted from 0). *)
Definition bulk_step (acc : DB * list Student * list BulkError) (indexed : nat * BulkRow)
    : DB * list Student * list BulkError :=
  let '(db, results, errors) := acc in
  let '(i, studentData) := indexed in
  if negb (Js.truthy (br_name studentData)) || negb (Js.truthy (br_email studentData))
     || negb (Js.truthy (br_phone studentData))
  then (db, results,
        errors ++ [{| be_row := i + 1;
                      be_error := "Missing required fields (name, email, phone)";
                      be_data := studentData |}])
  else
    let name := default "" (br_name studentData) in
    let email := default "" (br_email studentData) in
    let phone := default "" (br_phone studentData) in
    match Prisma.student_findUnique_email db email with
    | Some existingStudent =>
        (db, results,
         errors ++ [{| be_row := i + 1; be_error := "Email already registered";
                       be_data := studentData |}])
    | None =>
        match Prisma.student_create db (Js.trim name) (Js.toLowerCase (Js.trim email))
                (Js.trim phone) None None None [] with
        | inr (db', student) => (db', results ++ [student], errors)
        | inl error =>
            (db, results,
             errors ++ [{| be_row := i + 1; be_error := Prisma.message error;
                           be_data := studentData |}])
        end
    end.

(** POST /students/bulk-import; [students] is [req.body.students] when it
    is an array. *)
Definition bulk_import (db : DB) (students : option (list BulkRow))
    : DB * Response BulkReply :=
  match students with
  | None | Some [] =>
      (db, reply 400%nat (BulkError_ "Students data is required and must be an array"))
  | Some rows =>
      let '(db', results, errors) :=
        foldl bulk_step (db, [], []) (imap (λ i row, (i, row)) rows) in
      (db', reply 200%nat
              (BulkJson {| bs_imported := length results; bs_total := length rows;
                           bs_results := results; bs_errors := errors |}))
  end.

(** ** The upload router: POST /upload/import-students *)

Section ImportStudents.

(** express-validator's [isEmail] and [normalizeEmail], taken as given. *)
Variable isEmail : string → bool.
Variable normalizeEmail : string → string.

(** One element of [req.body.students]; a missing required text is the
    empty text. *)
Record ImportRow := {
  ir_name : string;
  ir_email : string;
  ir_phone : string;
  ir_course : option string;
  ir_batch : option string;
  ir_startDate : option string
}.

Record ImportError := {
  ie_row : nat;
  ie_error : string;
  ie_data : ImportRow
}.

Record ImportSummary := {
  is_imported : nat;
  is_total : nat;
  is_enrollmentsCreated : nat;
  is_results : list Student;
  is_errors : list ImportError
}.

Inductive ImportReply :=
| ImportJson (summary : ImportSummary)
| ImportErrors (errors : list string)
| ImportError_ (error : string).

(** The validation chains [students.*.name], [students.*.email] and
    [students.*.phone], each over all the rows, and the row as the
    sanitizers leave it. *)
Definition validateImport (rows : list ImportRow) : list string :=
  concat ((λ row, if bool_decide (2 ≤ Js.length (Js.trim (ir_name row)) ≤ 100)%nat
                  then [] else ["Name must be 2-100 characters"]) <$> rows) ++
  concat ((λ row, if isEmail (ir_email row) then [] else ["Must be a valid email"])
            <$> rows) ++
  concat ((λ row, if bool_decide (10 ≤ Js.length (Js.trim (ir_phone row)) ≤ 15)%nat
                  then [] else ["Phone must be 10-15 characters"]) <$> rows).

Definition sanitizeImportRow (row : ImportRow) : ImportRow :=
  {| ir_name := Js.trim (ir_name row); ir_email := normalizeEmail (ir_email row);
     ir_phone := Js.trim (ir_phone row); ir_course := ir_course row;
     ir_batch := ir_batch row; ir_startDate := ir_startDate row |}.

(** The inner [try]: find or create the course, then create the
    enrollment.  The database returned is the one after the writes that
    were made, also when a later one throws. *)
Definition import_enrollment (db : DB) (student : Student) (studentData : ImportRow)
    (courseName : string) : DB * (Prisma.Error + Enrollment) :=
  let found := Prisma.course_findFirst_active_name db courseName in
  let course_step : Prisma.Error + DB * Course :=
    match found with
    | Some course => inr (db, course)
    | None =>
        Prisma.course_create db (course_name_clash (courses db) (Js.trim courseName))
          (Js.trim courseName) (Some "Auto-created from CSV import") None 0 true
    end in
  match course_step with
  | inl error => (db, inl error)
  | inr (db1, course) =>
      match Prisma.enrollment_create db1 (student_id student) (course_id course)
              (match Js.trim <$> ir_batch studentData with
               | Some (String _ _ as batch) => Some batch
               | _ => Some "CSV Import"
               end)
              (match ir_startDate studentData with
               | Some (String _ _ as startDate) => DateOf startDate
               | _ => CurrentDate
               end)
              None "ACTIVE" with
      | inl error => (db1, inl error)
      | inr (db2, enrollment) => (db2, inr enrollment)
      end
  end.

(** The body of the [for] loop, on row [i] (counted from 0). *)
Definition import_step (createEnrollments : bool)
    (acc : DB * list Student * list ImportError * list Enrollment)
    (indexed : nat * ImportRow) : DB * list Student * list ImportError * list Enrollment :=
  let '(db, importedStudents, importErrors, createdEnrollments) := acc in
  let '(i, studentData) := indexed in
  match Prisma.student_findUnique_email db (ir_email studentData) with
  | Some existingStudent =>
      (db, importedStudents,
       importErrors ++ [{| ie_row := i + 1; ie_error := "Email already registered";
                           ie_data := studentData |}],
       createdEnrollments)
  | None =>
      match Prisma.student_create db (Js.trim (ir_name studentData))
              (Js.toLowerCase (Js.trim (ir_email studentData)))
              (Js.trim (ir_phone studentData)) None None None [] with
      | inl error =>
          (db, importedStudents,
           importErrors ++ [{| ie_row := i + 1; ie_error := Prisma.message error;
                               ie_data := studentData |}],
           createdEnrollments)
      | inr (db1, student) =>
          match ir_course studentData with
          | Some (String _ _ as courseName) =>
              if createEnrollments then
                match import_enrollment db1 student studentData courseName with
                | (db2, inr enrollment) =>
                    (db2, importedStudents ++ [student], importErrors,
                     createdEnrollments ++ [enrollment])
                | (db2, inl enrollmentError) =>
                    (db2, importedStudents ++ [student],
                     importErrors
                     ++ [{| ie_row := i + 1;
                            ie_error := "Student created but enrollment failed: "
                                        +:+ Prisma.message enrollmentError;
                            ie_data := studentData |}],
                     createdEnrollments)
                end
              else (db1, importedStudents ++ [student], importErrors, createdEnrollments)
          | _ => (db1, importedStudents ++ [student], importErrors, createdEnrollments)
          end
      end
  end.

(** POST /upload/import-students; [students] is [req.body.students] when it
    is an array, [createEnrollments] defaults to false. *)
Definition import_students (db : DB) (students : option (list ImportRow))
    (createEnrollments : option bool) : DB * Response ImportReply :=
  match students with
  | None => (db, reply 400%nat (ImportErrors ["Students data must be an array"]))
  | Some rows =>
      match validateImport rows with
      | (_ :: _) as errors => (db, reply 400%nat (ImportErrors errors))
      | [] =>
          match sanitizeImportRow <$> rows with
          | [] =>
              (db, reply 400%nat
                     (ImportError_ "Students data is required and must be an array"))
          | students =>
              let '(db', importedStudents, importErrors, createdEnrollments) :=
                foldl (import_step (default false createEnrollments)) (db, [], [], [])
                  (imap (λ i row, (i, row)) students) in
              (db', reply 200%nat
                      (ImportJson
                         {| is_imported := length importedStudents;
                            is_total := length students;
                            is_enrollmentsCreated := length createdEnrollments;
                            is_results := importedStudents;
                            is_errors := importErrors |}))
          end
      end
  end.

End ImportStudents.

(** ** The dashboard: revenue by month

    [monthlyRevenueMap] is a JS object used as a map from the month
    ("YYYY-MM") to a number; [Object.entries] lists its keys in the order
    of their first assignment, so the object is an association list.  The
    rows come from [payment.groupBy({ by: ['date'], _sum: { amount } })]:
    one row per date, with the sum of the amounts of that date as a
    Decimal. *)

Definition obj_get (o : list (string * float)) (k : string) : option float :=
  snd <$> head (filter (λ kv, kv.1 = k) o).

Definition obj_set (o : list (string * float)) (k : string) (v : float)
    : list (string * float) :=
  if bool_decide (is_Some (obj_get o k))
  then (λ kv, if decide (kv.1 = k) then (k, v) else kv) <$> o
  else o ++ [(k, v)].

(** [!monthlyRevenueMap[month]]: true for a key that is absent (undefined)
    and for a number that is falsy. *)
Definition entry_falsy (v : option float) : bool :=
  match v with
  | Some x => negb (Js.number_truthy x)
  | None => true
  end.

Section Monthly.

(** [date.toISOString().slice(0, 7)] *)
Variable month_of : JsDate → string.

(** The body of [monthlyRevenue.forEach]. *)
Definition month_step (monthlyRevenueMap : list (string * float)) (payment : JsDate * Z)
    : list (string * float) :=
  let month := month_of payment.1 in
  let map1 :=
    if entry_falsy (obj_get monthlyRevenueMap month)
    then obj_set monthlyRevenueMap month 0%float
    else monthlyRevenueMap in
  obj_set map1 month
    (default nan (obj_get map1 month) + Js.parseFloat payment.2)%float.

(** [monthlyRevenueData], as pairs of a month and an amount. *)
Definition monthlyRevenueData (monthlyRevenue : list (JsDate * Z))
    : list (string * float) :=
  foldl month_step [] monthlyRevenue.

End Monthly.

(** ** The pages of the frontend: the balance they print

    The pages recompute the balance from the enrollments they receive.  The
    list of payments of an enrollment may be missing in the JSON
    ([enrollment.payments?.reduce(...) || 0], [enrollment.payments || []]). *)

Record EnrollmentView := {
  ev_status : EnrollmentStatus;
  ev_course : Course;
  ev_payments : option (list Payment)
}.





(** The badge of a student in the student list. *)
Inductive StudentBadge := BadgeNoEnrollments | BadgeActive | BadgeCompleted | BadgeInactive.

Definition students_getStatusBadge (enrollments : list EnrollmentView) : StudentBadge :=
  if bool_decide (length enrollments = 0%nat) then BadgeNoEnrollments
  else if bool_decide (0 < length (filter (λ e, ev_status e = ACTIVE) enrollments))%nat
  then BadgeActive
  else if bool_decide (0 < length (filter (λ e, ev_status e = COMPLETED) enrollments))%nat
  then BadgeCompleted
  else BadgeInactive.

(** ** A small database used in the examples

    One student enrolled in one course priced 1000.00, with one payment of
    400.00 recorded. *)

Definition demo_student : Student :=
  {| student_id := "s1"; student_name := "Ada Lim";
     student_email := "ada@example.com"; student_phone := "0123456789";
     student_nricPassportId := Some "S1234567A"; student_address := None;
     student_remarks := None; student_documents := [] |}.

Definition demo_course : Course :=
  {| course_id := "k1"; course_name := "Web Development";
     course_description := None; course_duration := Some "12 weeks";
     course_price := 100000; course_isActive := true |}.

Definition demo_enrollment : Enrollment :=
  {| enrollment_id := "e1"; enrollment_studentId := "s1";
     enrollment_courseId := "k1"; enrollment_batch := Some "Batch 2024-01";
     enrollment_startDate := DateOf "2024-01-15"; enrollment_endDate := None;
     enrollment_status := ACTIVE |}.

Definition demo_payment : Payment :=
  {| payment_id := "p1"; payment_studentId := "s1"; payment_enrollmentId := "e1";
     payment_amount := 40000; payment_method := "CASH";
     payment_date := DateOf "2024-01-20"; payment_notes := None |}.

Definition demo_db : DB :=
  {| students := [demo_student]; courses := [demo_course];
     enrollments := [demo_enrollment]; payments := [demo_payment];
     nextId := 4 |}.

(** A request to record [amount] hundredths for the enrollment of
    [demo_db]: its amount is the number that the numeral denotes. *)
Definition demo_body (amount : Z) (date : string) : PaymentBody :=
  {| pb_studentId := "s1"; pb_enrollmentId := "e1";
     pb_amount := Js.parseFloat amount;
     pb_method := "BANK_TRANSFER"; pb_date := date; pb_notes := None |}.

(** The same request with its amount written as the numeral [m / d]. *)
Definition demo_body_numeral (m : Z) (d : positive) (date : string) : PaymentBody :=
  {| pb_studentId := "s1"; pb_enrollmentId := "e1";
     pb_amount := Js.quotient m d;
     pb_method := "BANK_TRANSFER"; pb_date := date; pb_notes := None |}.

(** The example database at another scale: the course priced [price]
    hundredths, with one payment of [paid] hundredths recorded. *)
Definition demo_course_priced (price : Z) : Course :=
  {| course_id := "k1"; course_name := "Web Development";
     course_description := None; course_duration := Some "12 weeks";
     course_price := price; course_isActive := true |}.

Definition demo_payment_of (id : string) (amount : Z) : Payment :=
  {| payment_id := id; payment_studentId := "s1"; payment_enrollmentId := "e1";
     payment_amount := amount; payment_method := "CASH";
     payment_date := DateOf "2024-01-20"; payment_notes := None |}.

Definition demo_db_with (price paid : Z) : DB :=
  {| students := [demo_student]; courses := [demo_course_priced price];
     enrollments := [demo_enrollment]; payments := [demo_payment_of "p1" paid];
     nextId := 4 |}.

(** The enrollment in a course priced 0.80, with payments of 0.10 and 0.70
    recorded. *)
Definition demo_full_cents : EnrollmentFull :=
  {| ef_enrollment := demo_enrollment; ef_course := demo_course_priced 80;
     ef_payments := [demo_payment_of "p1" 10; demo_payment_of "p2" 70] |}.

(** A column with two decimal places that rounds to the nearest hundredth:
    the integer part of [100 a + 0.5]. *)
Definition demo_toDecimal (a : float) : Z :=
  match Prim2SF (a * 100 + 0.5)%float with
  | S754_finite sign m e => Z.shiftl (if sign then Z.neg m else Z.pos m) e
  | _ => 0
  end.

(** Both requests of the race first read, then both write. *)
Definition demo_schedule : list Turn :=
  [RunFirst; RunFirst; RunFirst; RunSecond; RunSecond; RunSecond;
   RunFirst; RunFirst; RunSecond; RunSecond].

(** A date check and a row window to run the handlers with: ten-character
    dates, and the window that accepts exactly the offsets and sizes that
    are not negative. *)
Definition demo_isISO8601 (text : string) : bool :=
  bool_decide (String.length text = 10%nat).

Definition demo_window (A : Type) (skip take_ : option Z) (rows : list A)
    : option (list A) :=
  match skip, take_ with
  | Some s, Some t =>
      if bool_decide (0 ≤ s ∧ 0 ≤ t)
      then Some (take (Z.to_nat t) (drop (Z.to_nat s) rows))
      else None
  | _, _ => None
  end.

(** The two rows of the CSV example: a complete one and one whose email
    cell is empty. *)
Definition demo_csv_good : gmap string string :=
  <["name" := "John Doe"]> (<["email" := "john@example.com"]>
    (<["phone" := "1234567890"]> (<["course" := "Web Development"]> ∅))).

Definition demo_csv_bad : gmap string string :=
  <["name" := "Jane Smith"]> (<["email" := ""]> (<["phone" := "0987654321"]> ∅)).

(** A composite creation whose payment is refused (unknown method) after
    the student and the enrollment have been created, and the same request
    without the payment. *)
Definition demo_new_student : StudentPayload :=
  {| sp_name := Some "Ben Tan"; sp_email := Some "ben@example.com";
     sp_phone := Some "0198765432"; sp_nricPassportId := Some "S7654321B";
     sp_address := None; sp_remarks := None; sp_documents := None |}.

Definition demo_new_enrollment : EnrollmentPayload :=
  {| ep_courseId := Some "k1"; ep_batch := Some "Batch 2024-02";
     ep_startDate := Some "2024-02-01"; ep_endDate := None; ep_status := None |}.

Definition demo_bad_payment : PaymentPayload :=
  {| pp_amount := AmountDecimal 50000; pp_method := Some "BITCOIN";
     pp_date := Some "2024-02-01"; pp_applyTo := Some "enrollment";
     pp_enrollmentId := None; pp_notes := None |}.

Definition demo_full_create : FullCreateRequest :=
  {| fc_data := Json (Some demo_new_student) (Some demo_new_enrollment)
                  (Some demo_bad_payment);
     fc_files := ["1706745600000-1-passport.pdf"] |}.

Definition demo_full_create_unpaid : FullCreateRequest :=
  {| fc_data := Json (Some demo_new_student) (Some demo_new_enrollment) None;
     fc_files := ["1706745600000-1-passport.pdf"] |}.

(** Requests that fail at the earlier steps: a national ID and an email
    that are taken, and a course that does not exist. *)
Definition demo_taken_nric : FullCreateRequest :=
  {| fc_data :=
       Json (Some {| sp_name := Some "Ben Tan"; sp_email := Some "ben@example.com";
                     sp_phone := Some "0198765432";
                     sp_nricPassportId := Some "S1234567A";
                     sp_address := None; sp_remarks := None; sp_documents := None |})
            None None;
     fc_files := [] |}.

Definition demo_taken_email : FullCreateRequest :=
  {| fc_data :=
       Json (Some {| sp_name := Some "Ben Tan"; sp_email := Some "ada@example.com";
                     sp_phone := Some "0198765432";
                     sp_nricPassportId := Some "S7654321B";
                     sp_address := None; sp_remarks := None; sp_documents := None |})
            None None;
     fc_files := [] |}.

Definition demo_unknown_course : FullCreateRequest :=
  {| fc_data :=
       Json (Some demo_new_student)
            (Some {| ep_courseId := Some "k9"; ep_batch := None;
                     ep_startDate := None; ep_endDate := None; ep_status := None |})
            None;
     fc_files := [] |}.

(** Further example data: a second course, and requests for the handlers
    of the enrollments, courses and imports. *)
Definition demo_course2 : Course :=
  {| course_id := "k2"; course_name := "Data Science";
     course_description := None; course_duration := None;
     course_price := 200000; course_isActive := true |}.

Definition demo_db2 : DB :=
  {| students := [demo_student]; courses := [demo_course; demo_course2];
     enrollments := [demo_enrollment]; payments := [demo_payment];
     nextId := 4 |}.

Definition demo_enrollment_body (courseId : string) : EnrollmentBody :=
  {| eb_studentId := "s1"; eb_courseId := courseId; eb_batch := Some " Batch 2024-04 ";
     eb_startDate := "2024-04-01"; eb_endDate := None; eb_status := None |}.

Definition demo_course_body (name : string) : CourseBody :=
  {| cb_name := name; cb_description := None; cb_duration := Some "8 weeks";
     cb_price := 150000; cb_isActive := None |}.

(** A database whose unique index on course names never objects. *)
Definition demo_clash (rows : list Course) (name : string) : bool := false.

Definition demo_bulk_rows : list BulkRow :=
  [ {| br_name := Some " Cy Ong "; br_email := Some "CY@Example.com";
       br_phone := Some "0111222333" |};
    {| br_name := Some "Di Wu"; br_email := None; br_phone := Some "0444555666" |} ].

Definition demo_isEmail (text : string) : bool := Js.includes text "@".

Definition demo_import_rows : list ImportRow :=
  [ {| ir_name := "Cy Ong"; ir_email := "cy@example.com"; ir_phone := "0111222333";
       ir_course := Some "Web Development"; ir_batch := None; ir_startDate := None |};
    {| ir_name := "Ada Again"; ir_email := "ada@example.com"; ir_phone := "0123456789";
       ir_course := None; ir_batch := None; ir_startDate := None |} ].

(** A payment of 1500.00 for a course of 1000.00. *)
Definition demo_large_payment : PaymentPayload :=
  {| pp_amount := AmountDecimal 150000; pp_method := Some "CASH";
     pp_date := Some "2024-02-01"; pp_applyTo := Some "enrollment";
     pp_enrollmentId := None; pp_notes := None |}.


Definition demo_full_create_no_course : FullCreateRequest :=
  {| fc_data := Json (Some demo_new_student) None (Some demo_large_payment);
     fc_files := [] |}.


(** ** Predicates used to state the properties *)

(** The balance of an enrollment by the formula on binary64 numbers, from
    its price and its payments read as numbers. *)
Definition balance_of (e : EnrollmentFull) : PaymentStatus :=
  balance_double (Js.parseFloat (course_price (ef_course e)))
    (Js.parseFloat <$> amounts_of (ef_payments e)).

(** The balance that the formula of the specification gives on the exact
    amounts, as the numbers a reply would carry. *)
Definition exact_status (e : EnrollmentFull) : PaymentStatus :=
  let '(paid, rest, full) :=
    balance_spec (course_price (ef_course e)) (amounts_of (ef_payments e)) in
  {| totalPaid := Js.parseFloat paid; outstanding := Js.parseFloat rest;
     isFullyPaid := full |}.

(** [paid / 100 + m / d > price / 100] in exact arithmetic: the total paid
    so far plus an amount written as the numeral [m / d] exceeds the price;
    [paid] and [price] are in hundredths. *)
Definition exceeds (paid m : Z) (d : positive) (price : Z) : Prop :=
  price * Z.pos d < paid * Z.pos d + 100 * m.

Definition status_of_item (i : SummaryItem) : PaymentStatus :=
  {| totalPaid := si_totalPaid i; outstanding := si_outstanding i;
     isFullyPaid := si_isFullyPaid i |}.

(** The sign of a number by the shape of its representation: NaN, the
    zeros and what carries a plus sign are not below zero. *)
Definition sf_nonneg (x : spec_float) : bool :=
  match x with
  | S754_nan | S754_zero _ => true
  | S754_infinity sign | S754_finite sign _ _ => negb sign
  end.

(** [k] is the ceiling of [total / l]. *)
Definition is_ceil (total l k : Z) : Prop := (k - 1) * l < total ≤ k * l.





(** A CSV row whose three required cells are filled in and pass the length
    and format checks. *)
Definition csv_valid (data : gmap string string) : Prop :=
  ∃ name email phone,
    data !! "name" = Some name ∧ data !! "email" = Some email ∧
    data !! "phone" = Some phone ∧
    name ≠ "" ∧ email ≠ "" ∧ phone ≠ "" ∧
    (2 ≤ Js.length (Js.trim name))%nat ∧
    Js.includes (Js.toLowerCase (Js.trim email)) "@" = true ∧
    (10 ≤ Js.length (Js.trim phone))%nat.

(** A CSV row without an email: the cell is absent or empty. *)
Definition csv_missing_email (data : gmap string string) : Prop :=
  data !! "email" = None ∨ data !! "email" = Some "".

(** A cleaned CSV row that passed the checks of [parseCSV]. *)
Definition csv_clean (c : CsvStudent) : Prop :=
  (2 ≤ Js.length (cs_name c))%nat
  ∧ Js.includes (cs_email c) "@" = true
  ∧ (10 ≤ Js.length (cs_phone c))%nat
  ∧ Js.trim (cs_name c) = cs_name c
  ∧ Js.trim (cs_phone c) = cs_phone c
  ∧ Js.toLowerCase (cs_email c) = cs_email c.

(** What the CSV import writes besides students: courses that are free,
    active and marked as created by the import, and enrollments that are
    ACTIVE, open-ended and carry a batch label. *)
Definition imported_course (c : Course) : Prop :=
  course_price c = 0 ∧ course_isActive c = true
  ∧ course_description c = Some "Auto-created from CSV import".

Definition imported_enrollment (e : Enrollment) : Prop :=
  enrollment_status e = ACTIVE ∧ enrollment_endDate e = None
  ∧ Js.truthy (enrollment_batch e) = true.

(** The rows carried by a list reply (none for an error reply). *)
Definition page_data {Out} (r : Response (ListReply Out)) : list Out :=
  match body r with
  | ListJson _ data _ => data
  | ListError _ => []
  end.

(** The range that the pages of the frontend print under a table,
    "Showing first to last of total results". *)
Definition showing_first (page limit : Z) : Z := (page - 1) * limit + 1.
Definition showing_last (page limit total : Z) : Z := Z.min (page * limit) total.

(* ===================================================================== *)
(** * Properties *)
(* ===================================================================== *)

(** ** Binary64 numbers *)

Lemma SFcompare_antisym (a b : spec_float) (c : comparison) :
  SFcompare a b = Some c → SFcompare b a = Some (CompOpp c).
Proof.
  destruct a as [sa|sa| |sa ma ea], b as [sb|sb| |sb mb eb]; cbn;
    try (intros [= <-]; by repeat case_match);
    try done.
  intros [= <-]. f_equal.
  change (Pos.compare_cont Eq mb ma) with (mb ?= ma)%positive.
  change (Pos.compare_cont Eq ma mb) with (ma ?= mb)%positive.
  rewrite (Z.compare_antisym ea eb), (Pos.compare_antisym ma mb).
  destruct sa, sb; try done; destruct (ea ?= eb); cbn; try done;
    by destruct (ma ?= mb)%positive.
Qed.

Lemma ltb_asym (a b : float) : (a <? b)%float = true → (b <? a)%float = false.
Proof.
  rewrite !FloatAxioms.ltb_spec. unfold SFltb.
  destruct (SFcompare (Prim2SF a) (Prim2SF b)) as [[]|] eqn:H; try done.
  intros _. by rewrite (SFcompare_antisym _ _ _ H).
Qed.

Lemma ltb_not_leb (a b : float) : (a <? b)%float = true → (b <=? a)%float = false.
Proof.
  rewrite FloatAxioms.ltb_spec, FloatAxioms.leb_spec. unfold SFltb, SFleb.
  destruct (SFcompare (Prim2SF a) (Prim2SF b)) as [[]|] eqn:H; try done.
  intros _. by rewrite (SFcompare_antisym _ _ _ H).
Qed.

Lemma ltb_not_eqb (a b : float) : (a <? b)%float = true → (b =? a)%float = false.
Proof.
  rewrite FloatAxioms.ltb_spec, FloatAxioms.eqb_spec. unfold SFltb, SFeqb.
  destruct (SFcompare (Prim2SF a) (Prim2SF b)) as [[]|] eqn:H; try done.
  intros _. by rewrite (SFcompare_antisym _ _ _ H).
Qed.

Lemma ltb_leb (a b : float) : (a <? b)%float = true → (a <=? b)%float = true.
Proof.
  rewrite FloatAxioms.ltb_spec, FloatAxioms.leb_spec. unfold SFltb, SFleb.
  by destruct (SFcompare (Prim2SF a) (Prim2SF b)) as [[]|].
Qed.

(** [Math.max(0, x)] is NaN, or [x] when that is positive, or zero. *)
Lemma max_zero_cases (x : float) :
  (Js.max 0 x = nan ∧ is_nan x = true)
  ∨ (Js.max 0 x = x ∧ (0 <? x)%float = true)
  ∨ (Js.max 0 x = 0%float ∧ (0 <? x)%float = false).
Proof.
  unfold Js.max. change (is_nan 0) with false. cbn [orb].
  destruct (is_nan x); [by left|]. right.
  destruct (0 <? x)%float eqn:Hpos; [by left|]. right.
  destruct (x <? 0)%float; by split.
Qed.

Lemma max_zero_not_negative (x : float) : (Js.max 0 x <? 0)%float = false.
Proof.
  destruct (max_zero_cases x) as [[-> _]|[[-> H]|[-> _]]];
    [reflexivity|by apply ltb_asym|reflexivity].
Qed.

(** On [Math.max(0, x)] the tests [<= 0] and [=== 0] agree, and they hold
    exactly when the value is the positive zero. *)
Lemma max_zero_leb_eqb (x : float) :
  (Js.max 0 x <=? 0)%float = (Js.max 0 x =? 0)%float
  ∧ ((Js.max 0 x <=? 0)%float = true ↔ Js.max 0 x = 0%float).
Proof.
  destruct (max_zero_cases x) as [[-> _]|[[-> H]|[-> _]]].
  - split; [reflexivity|]. split; [done|]. intros H. by vm_compute in H.
  - rewrite (ltb_not_leb _ _ H), (ltb_not_eqb _ _ H). split; [done|].
    split; [done|]. intros ->. by vm_compute in H.
  - split; [reflexivity|]. by split.
Qed.

Lemma ltb_zero_shape (x : float) : (x <? 0)%float = negb (sf_nonneg (Prim2SF x)).
Proof.
  rewrite FloatAxioms.ltb_spec. change (Prim2SF 0) with (S754_zero false).
  unfold SFltb. by destruct (Prim2SF x) as [[]|[]| |[] ? ?].
Qed.

Lemma binary_round_aux_sign (sx : bool) (mx ex : Z) (lx : location) :
  match binary_round_aux prec emax sx mx ex lx with
  | S754_nan => True
  | S754_zero sign | S754_infinity sign | S754_finite sign _ _ => sign = sx
  end.
Proof.
  unfold binary_round_aux.
  destruct (shr_fexp _ _ _ _ _) as [mrs' e'].
  destruct (shr_fexp _ _ _ _ _) as [mrs'' e''].
  destruct (shr_m mrs''); [done| |done]. by destruct (e'' <=? emax - prec).
Qed.

Lemma binary_normalize_nonneg (m e : Z) :
  0 ≤ m → sf_nonneg (binary_normalize prec emax m e false) = true.
Proof.
  intros Hm. destruct m as [|m|m]; [done| |lia].
  cbn. unfold binary_round. destruct (shl_align _ _ _) as [mz ez].
  pose proof (binary_round_aux_sign false (Z.pos mz) ez loc_Exact) as H.
  destruct (binary_round_aux _ _ _ _ _ _); cbn; try done; by subst.
Qed.

Lemma SFadd_nonneg (a b : spec_float) :
  sf_nonneg a = true → sf_nonneg b = true → sf_nonneg (SFadd prec emax a b) = true.
Proof.
  destruct a as [sa|sa| |sa ma ea], b as [sb|sb| |sb mb eb]; cbn;
    try done; try (by destruct sa, sb).
  intros Ha Hb. apply negb_true_iff in Ha, Hb. subst. cbn.
  apply binary_normalize_nonneg. lia.
Qed.

(** A sum of two numbers that are not negative is not negative. *)
Lemma add_not_negative (a b : float) :
  (a <? 0)%float = false → (b <? 0)%float = false → (a + b <? 0)%float = false.
Proof.
  rewrite !ltb_zero_shape, FloatAxioms.add_spec, !negb_false_iff. apply SFadd_nonneg.
Qed.

(** ** Balance reconciliation *)

Lemma reduce_doubles_from {A} (f : A → float) (l : list A) (acc : float) :
  Js.reduce (λ sum x, (sum + f x)%float) acc l = sum_doubles acc (f <$> l).
Proof.
  unfold Js.reduce. revert acc. induction l as [|x l IH]; intros acc; [done|].
  cbn. apply IH.
Qed.

Lemma reduce_amounts (ps : list Payment) :
  Js.reduce (λ sum payment, (sum + Js.parseFloat (payment_amount payment))%float)
    0%float ps
  = sum_doubles 0 (Js.parseFloat <$> amounts_of ps).
Proof.
  rewrite (reduce_doubles_from (λ p, Js.parseFloat (payment_amount p))).
  unfold amounts_of. by rewrite <- list_fmap_compose.
Qed.


Lemma sum_doubles_snoc (l : list float) (a acc : float) :
  sum_doubles acc (l ++ [a]) = (sum_doubles acc l + a)%float.
Proof. revert acc. induction l as [|x l IH]; intros acc; [done|]. cbn. apply IH. Qed.

Lemma sum_doubles_not_negative (l : list float) (acc : float) :
  (acc <? 0)%float = false → Forall (λ x, (x <? 0)%float = false) l →
  (sum_doubles acc l <? 0)%float = false.
Proof.
  intros Hacc Hl. revert acc Hacc.
  induction Hl as [|x l Hx _ IH]; intros acc Hacc; [done|].
  cbn. apply IH. by apply add_not_negative.
Qed.

(** C1. At each call site (enrollment listing, enrollment detail, student
    payment summary, dashboard aggregation) the inline computation yields
    totalPaid = the sum of the payment amounts, outstanding =
    max(0, price - totalPaid) and isFullyPaid = (outstanding <= 0), where
    the amounts and the price are read as binary64 numbers and the sum is
    taken in binary64, from 0 through the payments in their order; and the
    outstanding amount is never negative. *)
Theorem balance_at_every_call_site (enrollment : EnrollmentFull)
    (enrollments : list EnrollmentFull) :
  enrollmentWithPaymentStatus enrollment = (enrollment, balance_of enrollment)
  ∧ enrollmentsWithPaymentStatus enrollments = (λ e, (e, balance_of e)) <$> enrollments
  ∧ status_of_item <$> summary enrollments = balance_of <$> enrollments
  ∧ outstandingAmount enrollments
    = sum_doubles 0 ((λ e, outstanding (balance_of e)) <$> enrollments)
  ∧ totalPaid (balance_of enrollment)
    = sum_doubles 0 (Js.parseFloat <$> amounts_of (ef_payments enrollment))
  ∧ outstanding (balance_of enrollment)
    = Js.max 0 (Js.parseFloat (course_price (ef_course enrollment))
                - totalPaid (balance_of enrollment))
  ∧ isFullyPaid (balance_of enrollment)
    = (outstanding (balance_of enrollment) <=? 0)%float
  ∧ (outstanding (balance_of enrollment) <? 0)%float = false
  ∧ (outstandingAmount enrollments <? 0)%float = false.
Proof.
  assert (outstandingAmount enrollments
          = sum_doubles 0 ((λ e, outstanding (balance_of e)) <$> enrollments)) as Hsum.
  { unfold outstandingAmount.
    rewrite (reduce_doubles_from
               (λ e, Js.max 0
                       (Js.parseFloat (course_price (ef_course e))
                        - Js.reduce (λ sum payment,
                                       (sum + Js.parseFloat (payment_amount payment))%float)
                            0%float (ef_payments e)))).
    f_equal. apply list_fmap_ext; intros _ e _; cbn. by rewrite reduce_amounts. }
  split_and!; try done.
  - unfold enrollmentWithPaymentStatus, balance_of, balance_double.
    by rewrite reduce_amounts.
  - unfold enrollmentsWithPaymentStatus, balance_of, balance_double.
    apply list_fmap_ext; intros _ e _. by rewrite reduce_amounts.
  - unfold summary. rewrite <- list_fmap_compose.
    apply list_fmap_ext; intros _ e _; cbn.
    unfold status_of_item, balance_of, balance_double; cbn.
    by rewrite reduce_amounts.
  - apply max_zero_not_negative.
  - rewrite Hsum. apply sum_doubles_not_negative; [reflexivity|].
    apply Forall_fmap, Forall_true. intros e. apply max_zero_not_negative.
Qed.

(** ** The ORM client: lookups after writes *)

Lemma find_by_update_by {A} (key : A → string) (k k' : string) (f : A → A)
    (rows : list A) :
  (∀ x, key (f x) = key x) →
  Prisma.find_by key k' (Prisma.update_by key k f rows)
  = (λ x, if decide (key x = k) then f x else x) <$> Prisma.find_by key k' rows.
Proof.
  intros Hkey. unfold Prisma.find_by, Prisma.update_by.
  induction rows as [|x rows IH]; [done|].
  rewrite fmap_cons, !filter_cons.
  destruct (decide (key x = k)) as [Hx|Hx].
  - rewrite Hkey. destruct (decide (key x = k')); cbn; [|done].
    by rewrite decide_True.
  - destruct (decide (key x = k')); cbn; [|done].
    by rewrite decide_False.
Qed.

Lemma find_by_Some_key {A} (key : A → string) (k : string) (rows : list A) (x : A) :
  Prisma.find_by key k rows = Some x → key x = k ∧ x ∈ rows.
Proof.
  unfold Prisma.find_by. intros H.
  apply head_Some_elem_of in H. by apply list_elem_of_filter in H.
Qed.

Lemma find_by_remove_by {A} (key : A → string) (k k' : string) (rows : list A) :
  k' ≠ k →
  Prisma.find_by key k' (Prisma.remove_by key k rows) = Prisma.find_by key k' rows.
Proof.
  intros Hne. unfold Prisma.find_by, Prisma.remove_by.
  induction rows as [|x rows IH]; [done|].
  rewrite !filter_cons.
  destruct (decide (key x ≠ k)) as [Hx|Hx].
  - rewrite filter_cons. destruct (decide (key x = k')); [done|]. apply IH.
  - apply dec_stable in Hx. rewrite decide_False by congruence. apply IH.
Qed.


(** ** POST /payments *)

Arguments Prisma.payment_create : simpl never.
Arguments Prisma.payment_update : simpl never.
Arguments Prisma.enrollment_update_status : simpl never.
Arguments Prisma.student_findUnique : simpl never.
Arguments Prisma.enrollment_findUnique : simpl never.
Arguments Prisma.course_findUnique : simpl never.
Arguments Prisma.payment_findUnique : simpl never.
Arguments Prisma.payment_findMany_enrollment : simpl never.

Ltac handler_cases :=
  cbv zeta; repeat (first [case_match | case_bool_decide]); simplify_eq; cbn in *.

Lemma totalPaid_of_sum (db : DB) (id : string) :
  totalPaid_of db id
  = sum_doubles 0 (Js.parseFloat <$> amounts_of (Prisma.payment_findMany_enrollment db id)).
Proof. apply reduce_amounts. Qed.

Lemma post_payment_exceeding_400 (db : DB) (b : PaymentBody) (e : Enrollment) (c : Course) :
  Prisma.enrollment_findUnique db (pb_enrollmentId b) = Some e →
  Prisma.course_findUnique db (enrollment_courseId e) = Some c →
  (Js.parseFloat (course_price c)
   <? totalPaid_of db (pb_enrollmentId b) + pb_amount b)%float = true →
  status (post_payment db b).2 = 400%nat.
Proof.
  intros He Hc Hover. unfold post_payment, totalPaid_of in *. rewrite He, Hc.
  cbv zeta. rewrite Hover.
  handler_cases; done.
Qed.

Lemma post_payment_inactive_400 (db : DB) (b : PaymentBody) (e : Enrollment) :
  Prisma.enrollment_findUnique db (pb_enrollmentId b) = Some e →
  enrollment_status e ≠ ACTIVE →
  status (post_payment db b).2 = 400%nat.
Proof.
  intros He Hst. unfold post_payment. rewrite He.
  rewrite (bool_decide_eq_true_2 _ Hst).
  handler_cases; done.
Qed.

Lemma payment_create_inr (db db1 : DB) (studentId enrollmentId : string) (amount : Z)
    (method : string) (date : JsDate) (notes : option string) (p : Payment) :
  Prisma.payment_create db studentId (Some enrollmentId) amount method date notes
  = inr (db1, p) →
  db1 = Prisma.tick (Prisma.with_payments db (payments db ++ [p]))
  ∧ payment_enrollmentId p = enrollmentId ∧ payment_amount p = amount.
Proof. unfold Prisma.payment_create. intros H. handler_cases. done. Qed.

Lemma enrollment_update_status_inr (db db2 : DB) (id : string) (st : EnrollmentStatus) :
  Prisma.enrollment_update_status db id st = inr db2 →
  payments db2 = payments db ∧ courses db2 = courses db ∧ students db2 = students db
  ∧ ∀ id',
      Prisma.enrollment_findUnique db2 id'
      = (λ e, if decide (enrollment_id e = id)
              then {| enrollment_id := enrollment_id e;
                      enrollment_studentId := enrollment_studentId e;
                      enrollment_courseId := enrollment_courseId e;
                      enrollment_batch := enrollment_batch e;
                      enrollment_startDate := enrollment_startDate e;
                      enrollment_endDate := enrollment_endDate e;
                      enrollment_status := st |}
              else e) <$> Prisma.enrollment_findUnique db id'.
Proof.
  unfold Prisma.enrollment_update_status. intros H.
  destruct (Prisma.enrollment_findUnique db id); [|done].
  simplify_eq; cbn. repeat split.
  intros id'. unfold Prisma.enrollment_findUnique; cbn.
  by rewrite find_by_update_by.
Qed.

(** What an accepted request did: it passed the price check and appended
    one payment for the enrollment; when the new total, a binary64 number,
    is not below the price it also set the status. *)
Lemma post_payment_201 (db db' : DB) (b : PaymentBody) (r : Response PaymentReply) :
  post_payment db b = (db', r) → status r = 201%nat →
  ∃ e c p,
    Prisma.enrollment_findUnique db (pb_enrollmentId b) = Some e
    ∧ Prisma.course_findUnique db (enrollment_courseId e) = Some c
    ∧ enrollment_status e = ACTIVE
    ∧ (Js.parseFloat (course_price c)
       <? totalPaid_of db (pb_enrollmentId b) + pb_amount b)%float = false
    ∧ payment_enrollmentId p = pb_enrollmentId b
    ∧ payment_amount p = toDecimal (pb_amount b)
    ∧ let db1 := Prisma.tick (Prisma.with_payments db (payments db ++ [p])) in
      if (Js.parseFloat (course_price c)
          <=? totalPaid_of db (pb_enrollmentId b) + pb_amount b)%float
      then Prisma.enrollment_update_status db1 (pb_enrollmentId b) COMPLETED = inr db'
      else db' = db1.
Proof.
  unfold post_payment, totalPaid_of. intros H Hst.
  destruct (validatePayment b); [|by simplify_eq].
  destruct (Prisma.student_findUnique db (pb_studentId b)); [|by simplify_eq].
  destruct (Prisma.enrollment_findUnique db (pb_enrollmentId b)) as [e|];
    [|by simplify_eq].
  cbv zeta in H.
  case_bool_decide; [by simplify_eq|].
  case_bool_decide as Hact; [by simplify_eq|].
  destruct (Prisma.course_findUnique db (enrollment_courseId e)) as [c|] eqn:Hc;
    [|by simplify_eq].
  destruct (_ <? _)%float eqn:Hover; [by simplify_eq|].
  destruct (Prisma.payment_create _ _ _ _ _ _ _) as [?|[db1 p]] eqn:Hcreate;
    [by simplify_eq|].
  apply payment_create_inr in Hcreate as (-> & Hp1 & Hp2).
  exists e, c, p. split_and!; [done|done|done|done|done|done|].
  cbv zeta. destruct (_ <=? _)%float.
  - destruct (Prisma.enrollment_update_status _ _ _) as [?|db2]; by simplify_eq.
  - by simplify_eq.
Qed.

Lemma update_after_create_succeeds (db db1 : DB) (studentId enrollmentId : string)
    (amount : Z) (method : string) (date : JsDate) (notes : option string)
    (p : Payment) (st : EnrollmentStatus) :
  Prisma.payment_create db studentId (Some enrollmentId) amount method date notes
  = inr (db1, p) →
  is_Some (Prisma.enrollment_findUnique db enrollmentId) →
  ∃ db2, Prisma.enrollment_update_status db1 enrollmentId st = inr db2.
Proof.
  intros Hcreate [e He]. apply payment_create_inr in Hcreate as (-> & _ & _).
  unfold Prisma.enrollment_update_status.
  change (Prisma.enrollment_findUnique (Prisma.tick _) enrollmentId)
    with (Prisma.enrollment_findUnique db enrollmentId).
  rewrite He. eauto.
Qed.

(** Only a 201 reply leaves a trace in the database. *)
Lemma post_payment_rejected_unchanged (db : DB) (b : PaymentBody) :
  status (post_payment db b).2 ≠ 201%nat → (post_payment db b).1 = db.
Proof.
  unfold post_payment.
  destruct (validatePayment b); [|done].
  destruct (Prisma.student_findUnique db (pb_studentId b)); [|done].
  destruct (Prisma.enrollment_findUnique db (pb_enrollmentId b)) as [e|] eqn:He; [|done].
  cbv zeta. repeat (case_bool_decide; [done|]).
  destruct (Prisma.course_findUnique db (enrollment_courseId e)); [|done].
  destruct (_ <? _)%float; [done|].
  destruct (Prisma.payment_create _ _ _ _ _ _ _) as [?|[db1 p]] eqn:Hcreate; [done|].
  destruct (_ <=? _)%float; [|done].
  destruct (update_after_create_succeeds _ _ _ _ _ _ _ _ _ COMPLETED Hcreate)
    as [db2 ->]; [by rewrite He|].
  done.
Qed.

Lemma post_payment_completed (db db' : DB) (b : PaymentBody) (r : Response PaymentReply)
    (e : Enrollment) (c : Course) :
  post_payment db b = (db', r) → status r = 201%nat →
  Prisma.enrollment_findUnique db (pb_enrollmentId b) = Some e →
  Prisma.course_findUnique db (enrollment_courseId e) = Some c →
  (Js.parseFloat (course_price c)
   <=? totalPaid_of db (pb_enrollmentId b) + pb_amount b)%float = true →
  ∃ e', Prisma.enrollment_findUnique db' (pb_enrollmentId b) = Some e'
        ∧ enrollment_status e' = COMPLETED.
Proof.
  intros H Hst He Hc Hfull.
  destruct (post_payment_201 _ _ _ _ H Hst) as (e0 & c0 & p & He0 & Hc0 & _ & _ & _ & _ & Hw).
  simplify_eq. cbv zeta in Hw. rewrite Hfull in Hw.
  apply enrollment_update_status_inr in Hw as (_ & _ & _ & Hfind).
  rewrite Hfind.
  change (Prisma.enrollment_findUnique (Prisma.tick _) (pb_enrollmentId b))
    with (Prisma.enrollment_findUnique db (pb_enrollmentId b)).
  rewrite He; cbn. apply find_by_Some_key in He as [Hk _].
  rewrite decide_True by done. eauto.
Qed.

(** A request that is accepted while its new total, a binary64 number, is
    below the price leaves the enrollment as it is. *)
Lemma post_payment_not_completed (db db' : DB) (b : PaymentBody)
    (r : Response PaymentReply) (e : Enrollment) (c : Course) :
  post_payment db b = (db', r) → status r = 201%nat →
  Prisma.enrollment_findUnique db (pb_enrollmentId b) = Some e →
  Prisma.course_findUnique db (enrollment_courseId e) = Some c →
  (Js.parseFloat (course_price c)
   <=? totalPaid_of db (pb_enrollmentId b) + pb_amount b)%float = false →
  enrollments db' = enrollments db.
Proof.
  intros H Hst He Hc Hfull.
  destruct (post_payment_201 _ _ _ _ H Hst) as (e0 & c0 & p & He0 & Hc0 & _ & _ & _ & _ & Hw).
  simplify_eq. cbv zeta in Hw. rewrite Hfull in Hw. by subst.
Qed.

(** The handler agrees with its own steps when no other request runs in
    between. *)
Lemma post_alone_is_post_payment (db : DB) (b : PaymentBody) :
  post_alone db b = ((post_payment db b).1, Finished (post_payment db b).2).
Proof.
  unfold post_alone, post_begin, post_payment.
  destruct (validatePayment b); [|done]. cbn.
  destruct (Prisma.student_findUnique db (pb_studentId b)); [|done]. cbn.
  destruct (Prisma.enrollment_findUnique db (pb_enrollmentId b)) as [e|]; [|done]. cbn.
  repeat (case_bool_decide; [done|]). cbn.
  destruct (Prisma.course_findUnique db (enrollment_courseId e)); [|done]. cbn.
  destruct (_ <? _)%float; [done|]. cbn.
  destruct (Prisma.payment_create _ _ _ _ _ _ _) as [?|[db1 p]]; [done|]. cbn.
  destruct (_ <=? _)%float; [|done]. cbn.
  by destruct (Prisma.enrollment_update_status _ _ _).
Qed.

Lemma demo_body_valid (amount : Z) (date : string) :
  (Js.quotient 1 100 <=? Js.parseFloat amount)%float = true →
  isISO8601 date = true → validatePayment (demo_body amount date) = [].
Proof.
  intros Ha Hd. unfold validatePayment; cbn [demo_body pb_studentId pb_enrollmentId
    pb_amount pb_method pb_date pb_notes].
  rewrite Hd, Ha. reflexivity.
Qed.

Lemma demo_db_within_price : within_price demo_db.
Proof.
  intros id e c He Hc.
  apply find_by_Some_key in He as [<- He].
  apply list_elem_of_singleton in He as ->.
  apply find_by_Some_key in Hc as [_ Hc].
  apply list_elem_of_singleton in Hc as ->.
  vm_compute. discriminate.
Qed.

(** C2. A POST /payments request is answered with status 400 whenever the
    total paid so far plus the new amount, added up in binary64 as the
    handler does, compares greater than the course price; and a request
    that is not answered with 201 leaves the database, hence the payments
    of the enrollment, unchanged. *)
Theorem payment_exceeding_price_rejected :
  (∀ (db : DB) (b : PaymentBody) (e : Enrollment) (c : Course),
     Prisma.enrollment_findUnique db (pb_enrollmentId b) = Some e →
     Prisma.course_findUnique db (enrollment_courseId e) = Some c →
     (Js.parseFloat (course_price c)
      <? totalPaid_of db (pb_enrollmentId b) + pb_amount b)%float = true →
     status (post_payment db b).2 = 400%nat
     ∧ (post_payment db b).1 = db
     ∧ Prisma.payment_findMany_enrollment (post_payment db b).1 (pb_enrollmentId b)
       = Prisma.payment_findMany_enrollment db (pb_enrollmentId b))
  ∧ (∀ (db : DB) (b : PaymentBody),
       status (post_payment db b).2 ≠ 201%nat → (post_payment db b).1 = db).
Proof.
  split; [|apply post_payment_rejected_unchanged].
  intros db b e c He Hc Hover.
  pose proof (post_payment_exceeding_400 db b e c He Hc Hover) as H400.
  assert ((post_payment db b).1 = db) as Hdb.
  { apply post_payment_rejected_unchanged. rewrite H400. done. }
  by rewrite Hdb.
Qed.

(** C3. An accepted POST /payments request whose new total, added up in
    binary64 as the handler does, is not below the course price sets the
    enrollment to COMPLETED.  Example: with a price of 1000.00 and 400.00
    already paid, a payment of 600.00 (kept as 600.00 by the column) is
    accepted, the enrollment becomes COMPLETED and its outstanding amount
    is 0. *)
Theorem payment_reaching_price_completes :
  (∀ (db db' : DB) (b : PaymentBody) (r : Response PaymentReply)
     (e : Enrollment) (c : Course),
     post_payment db b = (db', r) → status r = 201%nat →
     Prisma.enrollment_findUnique db (pb_enrollmentId b) = Some e →
     Prisma.course_findUnique db (enrollment_courseId e) = Some c →
     (Js.parseFloat (course_price c)
      <=? totalPaid_of db (pb_enrollmentId b) + pb_amount b)%float = true →
     ∃ e', Prisma.enrollment_findUnique db' (pb_enrollmentId b) = Some e'
           ∧ enrollment_status e' = COMPLETED)
  ∧ (∀ date, isISO8601 date = true → toDecimal (Js.parseFloat 60000) = 60000 →
     ∃ db' p,
       post_payment demo_db (demo_body 60000 date) = (db', reply 201%nat (PaymentJson p))
       ∧ enrollment_status <$> Prisma.enrollment_findUnique db' "e1" = Some COMPLETED
       ∧ match body (get_student_summary db' "s1") with
         | SummaryOk _ items _ =>
             (λ i, (si_totalPaid i, si_outstanding i, si_isFullyPaid i)) <$> items
             = [(Js.parseFloat 100000, 0%float, true)]
         | SummaryError _ => False
         end).
Proof.
  split.
  - intros db db' b r e c. apply post_payment_completed.
  - intros date Hd Hkeep. unfold post_payment.
    rewrite (demo_body_valid 60000 date) by done.
    cbn [demo_body pb_amount]. rewrite Hkeep.
    eexists _, _. split; [vm_compute; reflexivity|].
    split; vm_compute; reflexivity.
Qed.

(** C10. A POST /payments request for an enrollment that exists but is not
    ACTIVE (COMPLETED, CANCELLED or SUSPENDED) is answered with status 400
    and leaves the database unchanged; a COMPLETED enrollment therefore
    receives no further payment through this endpoint. *)
Theorem payment_for_inactive_enrollment_rejected (db : DB) (b : PaymentBody)
    (e : Enrollment) :
  Prisma.enrollment_findUnique db (pb_enrollmentId b) = Some e →
  enrollment_status e ≠ ACTIVE →
  status (post_payment db b).2 = 400%nat
  ∧ (post_payment db b).1 = db
  ∧ paid (post_payment db b).1 (pb_enrollmentId b) = paid db (pb_enrollmentId b).
Proof.
  intros He Hst.
  pose proof (post_payment_inactive_400 db b e He Hst) as H400.
  assert ((post_payment db b).1 = db) as Hdb.
  { apply post_payment_rejected_unchanged. rewrite H400. done. }
  by rewrite Hdb.
Qed.

(** X4. Once an accepted POST /payments has brought the total of an
    enrollment, added up in binary64 as the handler does, to the price of
    its course or beyond, every later POST /payments for that enrollment is
    answered with 400 and leaves the database as it is. *)
Lemma completed_by_payment_then_closed (db db' : DB) (b b2 : PaymentBody)
    (r : Response PaymentReply) (e : Enrollment) (c : Course) :
  post_payment db b = (db', r) → status r = 201%nat →
  Prisma.enrollment_findUnique db (pb_enrollmentId b) = Some e →
  Prisma.course_findUnique db (enrollment_courseId e) = Some c →
  (Js.parseFloat (course_price c)
   <=? totalPaid_of db (pb_enrollmentId b) + pb_amount b)%float = true →
  pb_enrollmentId b2 = pb_enrollmentId b →
  post_payment db' b2 = (db', (post_payment db' b2).2)
  ∧ status (post_payment db' b2).2 = 400%nat.
Proof.
  intros H Hst He Hc Hfull Hsame.
  destruct (post_payment_completed _ _ _ _ _ _ H Hst He Hc Hfull) as (e' & He' & Hdone).
  rewrite <- Hsame in He'.
  assert (status (post_payment db' b2).2 = 400%nat) as H400.
  { eapply post_payment_inactive_400; [done|]. by rewrite Hdone. }
  split; [|done].
  rewrite (surjective_pairing (post_payment db' b2)) at 1. f_equal.
  apply post_payment_rejected_unchanged. by rewrite H400.
Qed.

(** ** PUT /payments/:id *)

(** C5. The update path does not keep the invariant: on [demo_db], where
    every enrollment is within the price of its course, PUT /payments/p1
    with an amount of 5000.00 (kept as 5000.00 by the column) is answered
    with status 200 and leaves the enrollment paid 5000.00 against a price
    of 1000.00. *)
Theorem put_payment_overshoots (date : string) :
  isISO8601 date = true → toDecimal (Js.parseFloat 500000) = 500000 →
  within_price demo_db
  ∧ ∃ db' p,
      put_payment demo_db "p1" (demo_body 500000 date)
      = (db', reply 200%nat (PaymentJson p))
      ∧ Prisma.enrollment_findUnique db' "e1" = Some demo_enrollment
      ∧ Prisma.course_findUnique db' "k1" = Some demo_course
      ∧ paid db' "e1" = 500000
      ∧ course_price demo_course = 100000
      ∧ ¬ within_price db'.
Proof.
  intros Hd Hkeep. split; [apply demo_db_within_price|].
  unfold put_payment. rewrite (demo_body_valid 500000 date) by done.
  cbn [demo_body pb_amount]. rewrite Hkeep.
  eexists _, _. split; [vm_compute; reflexivity|].
  split_and!; try (vm_compute; reflexivity).
  intros Hinv.
  specialize (Hinv "e1" demo_enrollment demo_course eq_refl eq_refl).
  vm_compute in Hinv. by apply Hinv.
Qed.

(** ** Two POST /payments requests in flight *)

(** C9. Two concurrent POST /payments requests for the same enrollment can
    both pass the price check and both be stored, after which the total paid
    exceeds the course price: on [demo_db] (price 1000.00, 400.00 paid), two
    requests of 600.00 (kept as 600.00 by the column) whose reads all
    precede their writes have both passed the check after six steps, are
    both answered 201 and leave 1600.00 paid, whereas served one after the
    other the second is refused. *)
Theorem concurrent_payments_overshoot (date : string) :
  isISO8601 date = true → toDecimal (Js.parseFloat 60000) = 60000 →
  ∃ (db db' : DB) (b1 b2 : PaymentBody) (schedule : list Turn) (p1 p2 : Payment)
    (e : Enrollment) (c : Course),
    within_price db
    ∧ pb_enrollmentId b1 = pb_enrollmentId b2
    ∧ Prisma.enrollment_findUnique db (pb_enrollmentId b1) = Some e
    ∧ Prisma.course_findUnique db (enrollment_courseId e) = Some c
    ∧ paid db (pb_enrollmentId b1) + toDecimal (pb_amount b1) ≤ course_price c
    ∧ paid db (pb_enrollmentId b2) + toDecimal (pb_amount b2) ≤ course_price c
    ∧ race b1 b2 db (take 6 schedule)
      = (db, AwaitCreate (totalPaid_of db (pb_enrollmentId b1) + pb_amount b1)%float
                         (Js.parseFloat (course_price c)),
             AwaitCreate (totalPaid_of db (pb_enrollmentId b2) + pb_amount b2)%float
                         (Js.parseFloat (course_price c)))
    ∧ race b1 b2 db schedule
      = (db', Finished (reply 201%nat (PaymentJson p1)),
              Finished (reply 201%nat (PaymentJson p2)))
    ∧ p1 ∈ payments db' ∧ p2 ∈ payments db' ∧ p1 ≠ p2
    ∧ paid db' (pb_enrollmentId b1) > course_price c
    ∧ status (post_payment (post_payment db b1).1 b2).2 = 400%nat.
Proof.
  intros Hd Hkeep.
  pose proof Hkeep as Hk. vm_compute in Hk.
  exists demo_db.
  eexists _, (demo_body 60000 date), (demo_body 60000 date), demo_schedule, _, _.
  exists demo_enrollment, demo_course.
  split; [apply demo_db_within_price|].
  split; [done|]. split; [done|]. split; [done|].
  cbn [demo_body pb_amount pb_enrollmentId]. rewrite Hkeep.
  split; [vm_compute; discriminate|]. split; [vm_compute; discriminate|].
  split.
  { unfold race, post_begin. rewrite (demo_body_valid 60000 date) by done.
    vm_compute. reflexivity. }
  split.
  { unfold race, post_begin. rewrite (demo_body_valid 60000 date) by done.
    vm_compute. rewrite !Hk. reflexivity. }
  split; [vm_compute; set_solver|]. split; [vm_compute; set_solver|].
  split; [vm_compute; discriminate|]. split; [vm_compute; reflexivity|].
  unfold post_payment at 2. rewrite (demo_body_valid 60000 date) by done.
  cbn [demo_body pb_amount]. rewrite Hkeep.
  unfold post_payment. rewrite (demo_body_valid 60000 date) by done.
  vm_compute. reflexivity.
Qed.

(** ** The list endpoints *)

Section Listing.

(** With a row offset and a page size that are not negative, the ORM gives
    the rows after the offset, up to the page size. *)
Hypothesis window_valid : ∀ (A : Type) (skip take_ : Z) (rows : list A),
  0 ≤ skip → 0 ≤ take_ →
  window A (Some skip) (Some take_) rows
  = Some (take (Z.to_nat take_) (drop (Z.to_nat skip) rows)).

Lemma ceil_div_is_ceil (total l : Z) :
  1 ≤ l → ∃ k, Js.ceil_div total (Some l) = Some k ∧ is_ceil total l k.
Proof.
  intros Hl. unfold Js.ceil_div. rewrite bool_decide_eq_false_2 by lia.
  eexists; split; [done|]. unfold is_ceil.
  pose proof (Z.div_mod (- total) l ltac:(lia)) as Hdm.
  pose proof (Z.mod_pos_bound (- total) l ltac:(lia)) as Hb.
  nia.
Qed.


(** The rows sent by an endpoint that does not reshape them are the page
    asked for. *)
Lemma list_rows_data {Row : Type} (where_ : Row → Prop)
    `{∀ r, Decision (where_ r)} (orderBy : list Row → list Row)
    (key failure : string) (table : list Row) (page limit : option string) (p l : Z) :
  parse_param 1 page = Some p → parse_param 20 limit = Some l → 1 ≤ p → 1 ≤ l →
  ∃ pagination,
    body (list_rows where_ orderBy Some key failure table page limit)
    = ListJson key (take (Z.to_nat l)
                  (drop (Z.to_nat ((p - 1) * l)) (orderBy (filter where_ table))))
        pagination.
Proof.
  intros Hp Hl Hp1 Hl1. unfold list_rows.
  rewrite Hp, Hl; cbn. rewrite window_valid by nia. cbn. eauto.
Qed.



End Listing.

(** ** The CSV preview *)

Lemma truthy_Some (s : string) : s ≠ "" → Js.truthy (Some s) = true.
Proof. by destruct s. Qed.

Lemma onData_valid (results : list CsvStudent) (errors : list CsvError)
    (data : gmap string string) :
  csv_valid data →
  ∃ cleanedData, onData (results, errors) data = (results ++ [cleanedData], errors).
Proof.
  intros (name & email & phone & Hn & He & Hp & Hn0 & He0 & Hp0 & Hlen & Hat & Hph).
  unfold onData. rewrite Hn, He, Hp, !truthy_Some by done.
  cbn [negb orb default from_option id cs_name cs_email cs_phone].
  rewrite bool_decide_eq_false_2 by lia.
  rewrite Hat. cbn [negb].
  rewrite bool_decide_eq_false_2 by lia.
  eauto.
Qed.

Lemma onData_missing_email (results : list CsvStudent) (errors : list CsvError)
    (data : gmap string string) :
  csv_missing_email data →
  onData (results, errors) data
  = (results,
     errors ++ [{| ce_row := length results + 1;
                   ce_error := "Missing required fields (name, email, phone)";
                   ce_data := RawRow data |}]).
Proof.
  intros Hmiss. unfold onData.
  assert (Js.truthy (data !! "email") = false) as ->
    by (by destruct Hmiss as [-> | ->]).
  cbn. by rewrite orb_true_r.
Qed.

(** C7. For a CSV file with exactly one valid row and one row without an
    email, in either order, POST /upload/csv-preview answers with
    validRows = 1 and errorRows = 1 and leaves the database as it was. *)
Theorem csv_preview_one_valid_one_missing_email (db : DB)
    (good bad : gmap string string) (rows : list (gmap string string)) :
  csv_valid good → csv_missing_email bad →
  rows = [good; bad] ∨ rows = [bad; good] →
  ∃ pv, csv_preview db (CsvFile rows) = (db, reply 200%nat (PreviewJson pv))
        ∧ pv_validRows pv = 1%nat ∧ pv_errorRows pv = 1%nat
        ∧ pv_totalRows pv = 2%nat
        ∧ ce_error <$> pv_errors pv = ["Missing required fields (name, email, phone)"].
Proof.
  intros Hgood Hbad Hrows. unfold csv_preview, parseCSV.
  destruct Hrows as [-> | ->]; cbn [foldl].
  - destruct (onData_valid [] [] good Hgood) as [c ->].
    rewrite onData_missing_email by done. cbn. eauto 10.
  - rewrite onData_missing_email by done.
    destruct (onData_valid [] ([] ++ [{| ce_row := length (@nil CsvStudent) + 1;
        ce_error := "Missing required fields (name, email, phone)";
        ce_data := RawRow bad |}]) good Hgood) as [c ->].
    cbn. eauto 10.
Qed.

(** ** The guarded deletes *)

Lemma filter_nonempty {A} (P : A → Prop) `{∀ x, Decision (P x)} (l : list A) (x : A) :
  x ∈ l → P x → (0 < length (filter P l))%nat.
Proof.
  intros Hx HP.
  assert (x ∈ filter P l) as Hin by (by apply list_elem_of_filter).
  destruct (filter P l); [by apply not_elem_of_nil in Hin|cbn; lia].
Qed.

Lemma filter_empty {A} (P : A → Prop) `{∀ x, Decision (P x)} (l : list A) (x : A) :
  ¬ (0 < length (filter P l))%nat → x ∈ l → ¬ P x.
Proof. intros Hlen Hx HP. apply Hlen. by eapply filter_nonempty. Qed.

Lemma delete_course_no_dangling (db : DB) (id : string) :
  no_dangling db → no_dangling (delete_course db id).1.
Proof.
  intros [Hc Hp]. unfold delete_course. cbv zeta.
  case_bool_decide as Hlen; [done|].
  unfold Prisma.course_delete.
  destruct (Prisma.course_findUnique db id); [|done]. cbn.
  split; [|done]. intros enr He. cbn in He.
  unfold Prisma.course_findUnique; cbn.
  rewrite find_by_remove_by; [by apply Hc|].
  by apply (filter_empty _ _ _ Hlen He).
Qed.

Lemma delete_enrollment_no_dangling (db : DB) (id : string) :
  no_dangling db → no_dangling (delete_enrollment db id).1.
Proof.
  intros [Hc Hp]. unfold delete_enrollment. cbv zeta.
  case_bool_decide as Hlen; [done|].
  unfold Prisma.enrollment_delete.
  destruct (Prisma.enrollment_findUnique db id); [|done]. cbn.
  split.
  - intros enr He. cbn in He. unfold Prisma.remove_by in He.
    apply list_elem_of_filter in He as [_ He]. by apply Hc.
  - intros pay Hin. cbn in Hin. unfold Prisma.enrollment_findUnique; cbn.
    rewrite find_by_remove_by; [by apply Hp|].
    by apply (filter_empty _ _ _ Hlen Hin).
Qed.

(** C8. DELETE /courses/:id is answered with status 400 and deletes nothing
    when an enrollment references the course; DELETE /enrollments/:id is
    answered with status 400 and deletes nothing when a payment references
    the enrollment; neither delete leaves an enrollment without its course
    or a payment without its enrollment. *)
Theorem guarded_deletes (db : DB) (id : string) :
  ((∃ e, e ∈ enrollments db ∧ enrollment_courseId e = id) →
     status (delete_course db id).2 = 400%nat ∧ (delete_course db id).1 = db)
  ∧ ((∃ p, p ∈ payments db ∧ payment_enrollmentId p = id) →
     status (delete_enrollment db id).2 = 400%nat ∧ (delete_enrollment db id).1 = db)
  ∧ (no_dangling db →
     no_dangling (delete_course db id).1 ∧ no_dangling (delete_enrollment db id).1).
Proof.
  split_and!.
  - intros (e & He & Hid). unfold delete_course. cbv zeta.
    rewrite bool_decide_eq_true_2; [done|].
    by apply (filter_nonempty _ _ e).
  - intros (p & Hin & Hid). unfold delete_enrollment. cbv zeta.
    rewrite bool_decide_eq_true_2; [done|].
    by apply (filter_nonempty _ _ p).
  - intros Hnd. split;
      [by apply delete_course_no_dangling | by apply delete_enrollment_no_dangling].
Qed.

(** ** The composite creation *)

Lemma full_create_catch_400 (error : Thrown) : status (full_create_catch error) = 400%nat.
Proof. unfold full_create_catch. cbv zeta. by repeat case_match. Qed.

Lemma transaction_rolls_back {E A} (fn : DB → E + DB * A) (db : DB) (e : E) :
  fn db = inl e → Prisma.transaction fn db = (db, inl e).
Proof. unfold Prisma.transaction. by intros ->. Qed.

(** The callback is its steps in a row: the national-ID check, then the
    three writes, each in the state that the one before it left. *)
Lemma full_create_tx_steps (studentPayload : StudentPayload)
    (enrollment : option EnrollmentPayload) (payment : option PaymentPayload)
    (docPaths : list string) (tx : DB) :
  full_create_tx studentPayload enrollment payment docPaths tx
  = match Prisma.student_findFirst_nric tx (default "" (sp_nricPassportId studentPayload)) with
    | Some dup => inl (JsError "NRIC/Passport ID already exists")
    | None =>
        match tx_student studentPayload docPaths tx with
        | inl e => inl e
        | inr (tx1, createdStudent) =>
            match tx_enrollment enrollment tx1 createdStudent with
            | inl e => inl e
            | inr (tx2, createdEnrollment) =>
                match tx_payment payment tx2 createdStudent createdEnrollment with
                | inl e => inl e
                | inr (tx3, createdPayment) =>
                    inr (tx3, {| createdStudent := createdStudent;
                                 createdEnrollment := createdEnrollment;
                                 createdPayment := createdPayment |})
                end
            end
        end
    end.
Proof.
  unfold full_create_tx, tx_student, tx_enrollment, tx_payment. cbv zeta.
  destruct (Prisma.student_findFirst_nric _ _); [done|].
  destruct (lift (Prisma.student_create _ _ _ _ _ _ _ _)) as [e|[tx1 s]]; [done|].
  destruct (match enrollment ≫= ep_courseId with Some _ => _ | None => _ end)
    as [e|[tx2 ce]]; [done|].
  destruct (_ && _); [|done].
  destruct (default AmountFalsy (pp_amount <$> payment)); try done.
  by destruct (lift (Prisma.payment_create _ _ _ _ _ _ _)) as [e|[tx3 p]].
Qed.

(** C4. POST /students/full-create is all-or-nothing.  A reply other than
    201 leaves the database unchanged.  And for every request, if a step
    fails: the national-ID check finds the ID taken; or the creation of the
    student fails; or, the student created, the creation of the enrollment
    fails; or, the student and the enrollment (if any) created, the creation
    of the payment fails; then the reply is a 400 and the database is as it
    was before the request: no student, enrollment or payment row is kept,
    those created by the earlier steps included. *)
Theorem full_create_all_or_nothing (db : DB) (req : FullCreateRequest) :
  (status (full_create db req).2 ≠ 201%nat → (full_create db req).1 = db)
  ∧ ∀ (sp : StudentPayload) (enrollment : option EnrollmentPayload)
      (payment : option PaymentPayload),
      fc_data req = Json (Some sp) enrollment payment →
      let docPaths := (λ f, "/uploads/student-docs/" +:+ f) <$> fc_files req in
      is_Some (Prisma.student_findFirst_nric db (default "" (sp_nricPassportId sp)))
      ∨ (∃ error, tx_student sp docPaths db = inl error)
      ∨ (∃ tx1 student error,
           tx_student sp docPaths db = inr (tx1, student)
           ∧ tx_enrollment enrollment tx1 student = inl error)
      ∨ (∃ tx1 student tx2 created error,
           tx_student sp docPaths db = inr (tx1, student)
           ∧ tx_enrollment enrollment tx1 student = inr (tx2, created)
           ∧ tx_payment payment tx2 student created = inl error) →
      status (full_create db req).2 = 400%nat
      ∧ (full_create db req).1 = db
      ∧ students (full_create db req).1 = students db
      ∧ enrollments (full_create db req).1 = enrollments db
      ∧ payments (full_create db req).1 = payments db.
Proof.
  split.
  - unfold full_create, Prisma.transaction.
    destruct (fc_data req) as [m|student enrollment payment]; [done|].
    case_match; [done|].
    destruct (full_create_tx _ _ _ _ db) as [e|[db' created]]; done.
  - intros sp enrollment payment Hdata docPaths Hstep.
    unfold full_create. rewrite Hdata.
    case_match; [done|]. cbn [default from_option id].
    assert (∃ error, full_create_tx sp enrollment payment docPaths db = inl error)
      as [error Htx].
    { rewrite full_create_tx_steps.
      destruct (Prisma.student_findFirst_nric _ _) as [dup|]; [by eexists|].
      destruct Hstep as [[? [=]]|[[error ->]|[(tx1 & s & error & -> & ->)|Hpay]]];
        [by eexists|by eexists|].
      destruct Hpay as (tx1 & s & tx2 & created & error & -> & -> & ->). by eexists. }
    fold docPaths. rewrite (transaction_rolls_back _ _ _ Htx). cbn.
    by rewrite full_create_catch_400.
Qed.

(* ===================================================================== *)
(** * Further properties of the routers *)
(* ===================================================================== *)

(** ** The payments router *)

Lemma validatePayment_nil (b : PaymentBody) :
  validatePayment b = [] →
  pb_studentId b ≠ "" ∧ pb_enrollmentId b ≠ ""
  ∧ (Js.quotient 1 100 <=? pb_amount b)%float = true
  ∧ pb_method b ∈ payment_methods ∧ isISO8601 (pb_date b) = true.
Proof.
  unfold validatePayment. intros H.
  repeat (apply app_eq_nil in H as [? H]).
  split_and!.
  - clear -H0. by case_bool_decide.
  - clear -H1. by case_bool_decide.
  - clear -H2. by destruct (_ <=? _)%float.
  - clear -H3. destruct (Js.isIn _ _) eqn:E; [|done].
    by apply bool_decide_eq_true in E.
  - clear -H4. by destruct (isISO8601 _).
Qed.

Lemma fmap_key_update_by {A} (key : A → string) (k : string) (f : A → A) (rows : list A) :
  (∀ x, key x = k → key (f x) = k) →
  key <$> Prisma.update_by key k f rows = key <$> rows.
Proof.
  intros Hf. unfold Prisma.update_by. rewrite <- list_fmap_compose.
  apply list_fmap_ext; intros _ x _; cbn.
  destruct (decide (key x = k)) as [Hx|Hx]; [|done]. by rewrite Hf, Hx.
Qed.

Lemma find_by_update_other {A} (key : A → string) (k k' : string) (f : A → A)
    (rows : list A) :
  (∀ x, key x = k → key (f x) = k) → k' ≠ k →
  Prisma.find_by key k' (Prisma.update_by key k f rows) = Prisma.find_by key k' rows.
Proof.
  intros Hf Hne. unfold Prisma.find_by, Prisma.update_by.
  induction rows as [|x rows IH]; [done|].
  rewrite fmap_cons, !filter_cons.
  destruct (decide (key x = k)) as [Hx|Hx].
  - rewrite (Hf x Hx), Hx. rewrite !decide_False by done. apply IH.
  - destruct (decide (key x = k')); [done|apply IH].
Qed.

Lemma find_by_update_same {A} (key : A → string) (k : string) (y : A) (rows : list A) :
  key y = k → is_Some (Prisma.find_by key k rows) →
  Prisma.find_by key k (Prisma.update_by key k (λ _, y) rows) = Some y.
Proof.
  intros Hy [x Hx]. unfold Prisma.find_by, Prisma.update_by in *.
  induction rows as [|z rows IH]; [done|].
  rewrite fmap_cons, filter_cons. rewrite filter_cons in Hx.
  destruct (decide (key z = k)) as [Hz|Hz].
  - by rewrite decide_True.
  - rewrite decide_False by done. by apply IH.
Qed.

Lemma find_by_remove_same {A} (key : A → string) (k : string) (rows : list A) :
  Prisma.find_by key k (Prisma.remove_by key k rows) = None.
Proof.
  unfold Prisma.find_by, Prisma.remove_by. apply head_None.
  induction rows as [|x rows IH]; [done|].
  rewrite filter_cons. destruct (decide (key x ≠ k)) as [Hx|Hx]; [|done].
  by rewrite filter_cons, decide_False.
Qed.


(** X5. PUT /payments/:id never touches students, courses or enrollments
    (so no status changes), and neither adds nor removes a payment; when it
    answers 200 the payment with that id carries the student, enrollment and
    amount resolved from the request and every other payment reads as
    before. *)
Theorem put_payment_frame (db db' : DB) (id : string) (b : PaymentBody)
    (r : Response PaymentReply) :
  put_payment db id b = (db', r) →
  students db' = students db ∧ courses db' = courses db
  ∧ enrollments db' = enrollments db
  ∧ payment_id <$> payments db' = payment_id <$> payments db
  ∧ (status r = 200%nat →
     ∃ p, r = reply 200%nat (PaymentJson p)
          ∧ Prisma.payment_findUnique db' id = Some p
          ∧ payment_id p = id
          ∧ payment_studentId p = pb_studentId b
          ∧ payment_enrollmentId p = pb_enrollmentId b
          ∧ payment_amount p = toDecimal (pb_amount b)
          ∧ ∀ id', id' ≠ id →
                   Prisma.payment_findUnique db' id' = Prisma.payment_findUnique db id').
Proof.
  unfold put_payment. intros H.
  destruct (validatePayment b) eqn:Hv; [|by simplify_eq].
  apply validatePayment_nil in Hv as (Hs0 & He0 & _).
  destruct (Prisma.payment_findUnique db id) as [existing|] eqn:Hex;
    [|by simplify_eq].
  cbv zeta in H. rewrite !(bool_decide_eq_true_2 _ Hs0) in H.
  rewrite !(bool_decide_eq_true_2 _ He0) in H.
  assert (∀ db1 p,
            Prisma.payment_update db id (pb_studentId b) (pb_enrollmentId b)
              (toDecimal (pb_amount b)) (pb_method b) (DateOf (pb_date b))
              (Js.trim <$> pb_notes b)
            = inr (db1, p) →
            students db1 = students db ∧ courses db1 = courses db
            ∧ enrollments db1 = enrollments db
            ∧ payment_id <$> payments db1 = payment_id <$> payments db
            ∧ Prisma.payment_findUnique db1 id = Some p
            ∧ payment_id p = id ∧ payment_studentId p = pb_studentId b
            ∧ payment_enrollmentId p = pb_enrollmentId b
            ∧ payment_amount p = toDecimal (pb_amount b)
            ∧ ∀ id', id' ≠ id →
                Prisma.payment_findUnique db1 id' = Prisma.payment_findUnique db id')
    as Hupd.
  { clear H. intros db1 p Hu. unfold Prisma.payment_update in Hu. rewrite Hex in Hu.
    destruct (negb _); [done|]. do 2 (case_bool_decide; [done|]).
    simplify_eq. cbn.
    split_and!; try done.
    - by apply fmap_key_update_by.
    - unfold Prisma.payment_findUnique in *; cbn.
      apply find_by_update_same; [done|]. rewrite Hex. by eexists.
    - intros id' Hne. unfold Prisma.payment_findUnique; cbn.
      by apply find_by_update_other. }
  destruct (Prisma.payment_update db id _ _ _ _ _ _) as [err|[db1 p]] eqn:Hu.
  - assert ((db', r) = (db, r) ∧ status r ≠ 200%nat) as [Heq Hne].
    { cbn in H. repeat case_match; simplify_eq; done. }
    simplify_eq. done.
  - destruct (Hupd db1 p eq_refl) as (? & ? & ? & ? & ? & ? & ? & ? & ? & ?).
    cbn in H.
    assert ((db', r) = (db, r) ∧ status r ≠ 200%nat
            ∨ (db', r) = (db1, reply 200%nat (PaymentJson p))) as [[Heq Hne]|Heq].
    { repeat case_match; simplify_eq; (by left) || by right. }
    + simplify_eq. done.
    + simplify_eq. split_and!; try done. intros _. exists p. done.
Qed.

(** X6. DELETE /payments/:id answers 404 and changes nothing when no payment
    has the id; otherwise it answers 200, the payment is gone, every other
    payment reads as before and no enrollment row changes.  In particular an
    enrollment that is not ACTIVE stays closed to POST /payments after one
    of its payments is deleted. *)
Theorem delete_payment_effect (db : DB) (id : string) :
  (Prisma.payment_findUnique db id = None →
     delete_payment db id = (db, reply 404%nat (DeleteError "Payment not found")))
  ∧ (is_Some (Prisma.payment_findUnique db id) →
     status (delete_payment db id).2 = 200%nat
     ∧ Prisma.payment_findUnique (delete_payment db id).1 id = None
     ∧ ∀ id', id' ≠ id →
         Prisma.payment_findUnique (delete_payment db id).1 id'
         = Prisma.payment_findUnique db id')
  ∧ enrollments (delete_payment db id).1 = enrollments db
  ∧ (∀ (b : PaymentBody) (e : Enrollment),
       Prisma.enrollment_findUnique db (pb_enrollmentId b) = Some e →
       enrollment_status e ≠ ACTIVE →
       status (post_payment (delete_payment db id).1 b).2 = 400%nat).
Proof.
  unfold delete_payment, Prisma.payment_delete.
  destruct (Prisma.payment_findUnique db id) as [p|] eqn:Hp; cbn.
  - split_and!; try done.
    + intros _. split_and!; [done| |].
      * unfold Prisma.payment_findUnique; cbn. apply find_by_remove_same.
      * intros id' Hne. unfold Prisma.payment_findUnique; cbn.
        by apply find_by_remove_by.
    + intros b e He Hst. by apply (post_payment_inactive_400 _ b e).
  - split_and!; try done.
    intros b e He Hst. by apply (post_payment_inactive_400 _ b e).
Qed.

(** ** The student summary and the dashboard *)

Lemma sum_doubles_zeros (l : list float) :
  Forall (λ x, x = 0%float) l → sum_doubles 0 l = 0%float.
Proof. induction 1 as [|x l -> _ IH]; [done|]. exact IH. Qed.

Lemma outstandingAmount_sum (l : list EnrollmentFull) :
  outstandingAmount l
  = sum_doubles 0
      ((λ e, Js.max 0 (Js.parseFloat (course_price (ef_course e))
                       - Js.reduce (λ sum payment,
                                      (sum + Js.parseFloat (payment_amount payment))%float)
                           0%float (ef_payments e))) <$> l).
Proof.
  unfold outstandingAmount.
  by rewrite (reduce_doubles_from
                (λ e, Js.max 0
                        (Js.parseFloat (course_price (ef_course e))
                         - Js.reduce (λ sum payment,
                                        (sum + Js.parseFloat (payment_amount payment))%float)
                             0%float (ef_payments e)))).
Qed.

Lemma mapM_include_full (db : DB) (es : list Enrollment) (l : list EnrollmentFull) :
  mapM (include_full db) es = Some l →
  Forall2 (λ e ef, ∃ c, Prisma.course_findUnique db (enrollment_courseId e) = Some c
                        ∧ ef = {| ef_enrollment := e; ef_course := c;
                                  ef_payments :=
                                    Prisma.payment_findMany_enrollment db (enrollment_id e) |})
    es l.
Proof.
  intros H. apply mapM_Some in H.
  eapply Forall2_impl; [exact H|]. intros e ef Hef. unfold include_full in Hef.
  destruct (Prisma.course_findUnique db (enrollment_courseId e)) as [c|]; [|done].
  exists c. by simplify_eq.
Qed.

(** X7. In the reply of GET /payments/student/:studentId/summary there is
    one item per enrollment of that student, in order.  Its price is the
    price of the course read as a binary64 number, its totalPaid is the
    binary64 sum, from 0 and in the order of the query, of the payments
    recorded against the enrollment, its outstanding is
    max(0, price - totalPaid), which is never negative, and it is fully paid
    exactly when its outstanding is zero.  The two totals are the binary64
    sums, from 0 and in order, over the items, and the total outstanding is
    never negative. *)
Theorem student_summary_characterised (db : DB) (studentId sid : string)
    (items : list SummaryItem) (totals : SummaryTotals) :
  body (get_student_summary db studentId) = SummaryOk sid items totals →
  sid = studentId
  ∧ Forall2 (λ e i,
       si_enrollmentId i = enrollment_id e
       ∧ (∃ c, Prisma.course_findUnique db (enrollment_courseId e) = Some c
               ∧ si_coursePrice i = Js.parseFloat (course_price c))
       ∧ si_totalPaid i = totalPaid_of db (enrollment_id e)
       ∧ si_outstanding i = Js.max 0 (si_coursePrice i - si_totalPaid i)
       ∧ (si_outstanding i <? 0)%float = false
       ∧ si_isFullyPaid i = (si_outstanding i <=? 0)%float
       ∧ (si_isFullyPaid i = true ↔ si_outstanding i = 0%float))
      (Prisma.enrollment_findMany_student db studentId) items
  ∧ totals_paid totals = sum_doubles 0 (si_totalPaid <$> items)
  ∧ totals_outstanding totals = sum_doubles 0 (si_outstanding <$> items)
  ∧ (totals_outstanding totals <? 0)%float = false.
Proof.
  unfold get_student_summary.
  destruct (mapM _ _) as [l|] eqn:Hl; [|done]. cbn. intros [= <- <- <-].
  apply mapM_include_full in Hl.
  split_and!; try done.
  - unfold summary. apply Forall2_fmap_r.
    eapply Forall2_impl; [exact Hl|]. intros e ef (c & Hc & ->); cbn.
    split_and!; try done.
    + by exists c.
    + apply max_zero_not_negative.
    + apply max_zero_leb_eqb.
  - unfold summary_totals; cbn. apply reduce_doubles_from.
  - unfold summary_totals; cbn. apply reduce_doubles_from.
  - unfold summary_totals; cbn. rewrite reduce_doubles_from.
    apply sum_doubles_not_negative; [reflexivity|].
    unfold summary. rewrite <- list_fmap_compose. apply Forall_fmap, Forall_true.
    intros ef. apply max_zero_not_negative.
Qed.

(** X8. When GET /dashboard/overview answers, its outstanding amount is the
    binary64 sum, from 0 and in the order of the query, of
    max(0, price - totalPaid) over the ACTIVE enrollments, where totalPaid
    is the binary64 sum of the payments of the enrollment; enrollments that
    are not ACTIVE never count.  The amount is never negative, and it is
    zero when every term is zero.  The total revenue is the exact sum of all
    payments, and the ACTIVE and COMPLETED counters together do not exceed
    the number of enrollments. *)
Theorem dashboard_overview_characterised (db : DB) (ov : Overview) :
  dashboard_overview db = Some ov →
  (∃ terms,
     Forall2 (λ e term,
        ∃ c, Prisma.course_findUnique db (enrollment_courseId e) = Some c
             ∧ term = Js.max 0 (Js.parseFloat (course_price c)
                                - totalPaid_of db (enrollment_id e))%float)
       (filter (λ e, enrollment_status e = ACTIVE) (enrollments db)) terms
     ∧ ov_outstandingAmount ov = sum_doubles 0 terms
     ∧ (Forall (λ term, term = 0%float) terms → ov_outstandingAmount ov = 0%float))
  ∧ (ov_outstandingAmount ov <? 0)%float = false
  ∧ ov_totalRevenue ov = sum_amounts (amounts_of (payments db))
  ∧ (ov_activeEnrollments ov + ov_completedEnrollments ov ≤ length (enrollments db))%nat.
Proof.
  unfold dashboard_overview. cbv zeta.
  destruct (mapM _ _) as [l|] eqn:Hl; [|done]. intros [= <-]; cbn.
  apply mapM_include_full in Hl. rewrite outstandingAmount_sum.
  split_and!; [| |done|].
  - eexists. split_and!; [|done|apply sum_doubles_zeros].
    apply Forall2_fmap_r. eapply Forall2_impl; [exact Hl|].
    intros e ef (c & Hc & ->); cbn. by exists c.
  - apply sum_doubles_not_negative; [reflexivity|].
    apply Forall_fmap, Forall_true. intros ef. apply max_zero_not_negative.
  - clear. induction (enrollments db) as [|e es IH]; [done|].
    rewrite !filter_cons.
    destruct (decide (enrollment_status e = ACTIVE)) as [Ha|Ha],
             (decide (enrollment_status e = COMPLETED)) as [Hc|Hc]; cbn; try lia.
    congruence.
Qed.

(** ** The enrollments router *)

Arguments Prisma.enrollment_create : simpl never.
Arguments Prisma.enrollment_update : simpl never.
Arguments Prisma.enrollment_findFirst_active : simpl never.

Lemma filter_nil_none {A} (P : A → Prop) `{∀ x, Decision (P x)} (l : list A) (x : A) :
  filter P l = [] → x ∈ l → ¬ P x.
Proof.
  intros Hnil Hx HP.
  assert (x ∈ filter P l) as Hin by (by apply list_elem_of_filter).
  rewrite Hnil in Hin. by apply not_elem_of_nil in Hin.
Qed.

Lemma status_of_text_Some (s : string) (st : EnrollmentStatus) :
  status_of_text s = Some st → status_text st = s.
Proof.
  unfold status_of_text. intros H.
  repeat case_bool_decide; by simplify_eq.
Qed.

Lemma enrollment_create_inr (db db' : DB) (studentId courseId : string)
    (batch : option string) (startDate : JsDate) (endDate : option JsDate)
    (status : string) (e : Enrollment) :
  Prisma.enrollment_create db studentId courseId batch startDate endDate status
  = inr (db', e) →
  db' = Prisma.tick (Prisma.with_enrollments db (enrollments db ++ [e]))
  ∧ enrollment_studentId e = studentId ∧ enrollment_courseId e = courseId
  ∧ enrollment_batch e = batch ∧ enrollment_startDate e = startDate
  ∧ enrollment_endDate e = endDate
  ∧ status_of_text status = Some (enrollment_status e)
  ∧ is_Some (Prisma.student_findUnique db studentId)
  ∧ is_Some (Prisma.course_findUnique db courseId).
Proof.
  unfold Prisma.enrollment_create. intros H.
  destruct (status_of_text status) as [st|]; [|done].
  repeat case_bool_decide; simplify_eq. cbn.
  split_and!; try done.
  - by destruct (Prisma.student_findUnique db studentId); [eexists|].
  - by destruct (Prisma.course_findUnique db courseId); [eexists|].
Qed.

Lemma post_enrollment_201 (db db' : DB) (b : EnrollmentBody) (r : Response EnrollmentReply) :
  post_enrollment db b = (db', r) → status r = 201%nat →
  ∃ e c,
    r = reply 201%nat (EnrollmentJson e)
    ∧ db' = Prisma.tick (Prisma.with_enrollments db (enrollments db ++ [e]))
    ∧ enrollment_studentId e = eb_studentId b
    ∧ enrollment_courseId e = eb_courseId b
    ∧ status_of_text (default "ACTIVE" (eb_status b)) = Some (enrollment_status e)
    ∧ is_Some (Prisma.student_findUnique db (eb_studentId b))
    ∧ Prisma.course_findUnique db (eb_courseId b) = Some c
    ∧ course_isActive c = true
    ∧ Prisma.enrollment_findFirst_active db (eb_studentId b) (eb_courseId b) = None.
Proof.
  unfold post_enrollment. intros H Hst.
  destruct (validateEnrollment b); [|by simplify_eq].
  cbv zeta in H.
  destruct (Prisma.student_findUnique db (eb_studentId b)) as [s|] eqn:Hs;
    [|by simplify_eq].
  destruct (Prisma.course_findUnique db (eb_courseId b)) as [c|] eqn:Hc;
    [|by simplify_eq].
  destruct (course_isActive c) eqn:Hact; cbn in H; [|by simplify_eq].
  destruct (Prisma.enrollment_findFirst_active db _ _) eqn:Hfirst; [by simplify_eq|].
  destruct (Prisma.enrollment_create _ _ _ _ _ _ _) as [?|[db1 e]] eqn:Hcreate;
    [by simplify_eq|].
  apply enrollment_create_inr in Hcreate as (-> & ? & ? & _ & _ & _ & ? & _ & _).
  simplify_eq. exists e, c. by split_and!.
Qed.

Lemma post_enrollment_rejected_unchanged (db : DB) (b : EnrollmentBody) :
  status (post_enrollment db b).2 ≠ 201%nat → (post_enrollment db b).1 = db.
Proof.
  unfold post_enrollment.
  destruct (validateEnrollment b); [|done]. cbv zeta.
  repeat case_match; done.
Qed.

(** X9. A request that POST /enrollments accepts adds exactly one
    enrollment, for a student that exists and a course that exists and is
    active, with the requested status (ACTIVE when none is given), and only
    when that student had no ACTIVE enrollment in that course; payments,
    students and courses are untouched.  Any other reply changes nothing. *)
Theorem accepted_enrollment_effect (db : DB) (b : EnrollmentBody) :
  (status (post_enrollment db b).2 ≠ 201%nat → (post_enrollment db b).1 = db)
  ∧ (status (post_enrollment db b).2 = 201%nat →
     ∃ e c,
       (post_enrollment db b).2 = reply 201%nat (EnrollmentJson e)
       ∧ enrollments (post_enrollment db b).1 = enrollments db ++ [e]
       ∧ payments (post_enrollment db b).1 = payments db
       ∧ students (post_enrollment db b).1 = students db
       ∧ courses (post_enrollment db b).1 = courses db
       ∧ enrollment_studentId e = eb_studentId b
       ∧ enrollment_courseId e = eb_courseId b
       ∧ status_text (enrollment_status e) = default "ACTIVE" (eb_status b)
       ∧ is_Some (Prisma.student_findUnique db (eb_studentId b))
       ∧ Prisma.course_findUnique db (eb_courseId b) = Some c
       ∧ course_isActive c = true
       ∧ ∀ e0, e0 ∈ enrollments db →
               enrollment_studentId e0 = eb_studentId b →
               enrollment_courseId e0 = eb_courseId b →
               enrollment_status e0 ≠ ACTIVE).
Proof.
  split; [apply post_enrollment_rejected_unchanged|].
  destruct (post_enrollment db b) as [db' r] eqn:H. cbn. intros Hst.
  destruct (post_enrollment_201 _ _ _ _ H Hst)
    as (e & c & -> & -> & ? & ? & Hstatus & ? & ? & ? & Hfirst).
  exists e, c. split_and!; try done.
  - by apply status_of_text_Some.
  - intros e0 He0 Hs0 Hc0 Ha0.
    unfold Prisma.enrollment_findFirst_active in Hfirst. apply head_None in Hfirst.
    by apply (filter_nil_none _ _ e0 Hfirst He0).
Qed.

Lemma active_pairs_after_create (db : DB) (e : Enrollment) :
  active_pairs (Prisma.tick (Prisma.with_enrollments db (enrollments db ++ [e])))
  = active_pairs db
    ++ (if decide (enrollment_status e = ACTIVE)
        then [(enrollment_studentId e, enrollment_courseId e)] else []).
Proof.
  unfold active_pairs; cbn. rewrite filter_app, fmap_app. f_equal.
  rewrite filter_cons, filter_nil. by destruct (decide _).
Qed.

(** X10. POST /enrollments keeps the rule that a student has at most one
    ACTIVE enrollment per course: if no (student, course) pair is ACTIVE
    twice before the request, none is afterwards. *)
Theorem post_enrollment_keeps_unique_active (db : DB) (b : EnrollmentBody) :
  unique_active db → unique_active (post_enrollment db b).1.
Proof.
  intros Hinv. destruct (post_enrollment db b) as [db' r] eqn:H.
  destruct (decide (status r = 201%nat)) as [Hst|Hst]; cycle 1.
  { pose proof (post_enrollment_rejected_unchanged db b) as Hu.
    rewrite H in Hu. cbn in *. by rewrite Hu. }
  destruct (post_enrollment_201 _ _ _ _ H Hst)
    as (e & c & _ & -> & Hs & Hc & _ & _ & _ & _ & Hfirst).
  cbn. unfold unique_active. rewrite active_pairs_after_create.
  destruct (decide _) as [Hact|Hact]; [|by rewrite app_nil_r].
  apply NoDup_app. split_and!; [done| |apply NoDup_singleton].
  intros pair Hin Hnew. apply list_elem_of_singleton in Hnew as ->.
  unfold active_pairs in Hin.
  apply list_elem_of_fmap in Hin as (e0 & Heq & He0).
  apply list_elem_of_filter in He0 as [Ha0 He0].
  unfold Prisma.enrollment_findFirst_active in Hfirst. apply head_None in Hfirst.
  apply (filter_nil_none _ _ e0 Hfirst He0).
  simplify_eq. split_and!; congruence.
Qed.

Lemma update_by_update_by {A} (key : A → string) (k : string) (f g : A → A)
    (rows : list A) :
  (∀ x, key (g x) = key x) →
  Prisma.update_by key k f (Prisma.update_by key k g rows)
  = Prisma.update_by key k (f ∘ g) rows.
Proof.
  intros Hg. unfold Prisma.update_by. rewrite <- list_fmap_compose.
  apply list_fmap_ext; intros _ x _; cbn.
  destruct (decide (key x = k)) as [Hx|Hx].
  - by rewrite Hg, decide_True.
  - by rewrite decide_False.
Qed.

Lemma patch_enrollment_status_found (db : DB) (id : string) (status : option string)
    (st : EnrollmentStatus) (e : Enrollment) :
  status ≫= status_of_text = Some st →
  Prisma.enrollment_findUnique db id = Some e →
  patch_enrollment_status db id status
  = (Prisma.with_enrollments db
       (Prisma.update_by enrollment_id id (with_status st) (enrollments db)),
     reply 200%nat (EnrollmentJson (with_status st e))).
Proof.
  intros Hst He. unfold patch_enrollment_status, Prisma.enrollment_update_status.
  rewrite Hst, He.
  change (Prisma.with_enrollments db (Prisma.update_by enrollment_id id _ (enrollments db)))
    with (Prisma.with_enrollments db
            (Prisma.update_by enrollment_id id (with_status st) (enrollments db))).
  assert (Prisma.enrollment_findUnique
            (Prisma.with_enrollments db
               (Prisma.update_by enrollment_id id (with_status st) (enrollments db))) id
          = Some (with_status st e)) as ->; [|done].
  unfold Prisma.enrollment_findUnique in *; cbn.
  rewrite find_by_update_by by done. rewrite He; cbn.
  apply find_by_Some_key in He as [Hk _]. by rewrite decide_True.
Qed.

(** X11. PATCH /enrollments/:id/status answers 400 and changes nothing for a
    status outside the four values, and 404 when no enrollment has the id;
    otherwise it answers 200 with the enrollment, which now has the new
    status and is otherwise as before, every other enrollment and all
    payments are untouched, and a second PATCH overrides the first. *)
Theorem patch_enrollment_status_effect (db : DB) (id : string) (status : option string) :
  (status ≫= status_of_text = None →
     patch_enrollment_status db id status
     = (db, reply 400%nat (EnrollmentError "Invalid status")))
  ∧ (∀ st, status ≫= status_of_text = Some st →
     (Prisma.enrollment_findUnique db id = None →
        patch_enrollment_status db id status
        = (db, reply 404%nat (EnrollmentError "Enrollment not found")))
     ∧ (∀ e, Prisma.enrollment_findUnique db id = Some e →
        (patch_enrollment_status db id status).2
        = reply 200%nat (EnrollmentJson (with_status st e))
        ∧ Prisma.enrollment_findUnique (patch_enrollment_status db id status).1 id
          = Some (with_status st e)
        ∧ (∀ id', id' ≠ id →
             Prisma.enrollment_findUnique (patch_enrollment_status db id status).1 id'
             = Prisma.enrollment_findUnique db id')
        ∧ payments (patch_enrollment_status db id status).1 = payments db
        ∧ ∀ earlier, is_Some (earlier ≫= status_of_text) →
            (patch_enrollment_status (patch_enrollment_status db id earlier).1 id status).1
            = (patch_enrollment_status db id status).1)).
Proof.
  split.
  { intros Hbad. unfold patch_enrollment_status. by rewrite Hbad. }
  intros st Hst. split.
  { intros Hnone. unfold patch_enrollment_status, Prisma.enrollment_update_status.
    by rewrite Hst, Hnone. }
  intros e He.
  assert (∀ t, Prisma.enrollment_findUnique
                 (Prisma.with_enrollments db
                    (Prisma.update_by enrollment_id id (with_status t) (enrollments db))) id
               = Some (with_status t e)) as Hsame.
  { intros t. unfold Prisma.enrollment_findUnique in *; cbn.
    rewrite find_by_update_by by done. rewrite He; cbn.
    apply find_by_Some_key in He as [Hk _]. by rewrite decide_True. }
  rewrite (patch_enrollment_status_found db id status st e Hst He). cbn [fst snd].
  split_and!; try done.
  - intros id' Hne. unfold Prisma.enrollment_findUnique; cbn.
    by apply find_by_update_other.
  - intros earlier [t0 Ht0].
    rewrite (patch_enrollment_status_found db id earlier t0 e Ht0 He). cbn [fst].
    rewrite (patch_enrollment_status_found _ id status st _ Hst (Hsame t0)). cbn.
    unfold Prisma.with_enrollments; cbn. f_equal.
    etrans; [exact (update_by_update_by enrollment_id id (with_status st)
                      (with_status t0) (enrollments db) (λ _, eq_refl))|].
    unfold Prisma.update_by. apply list_fmap_ext; intros _ x _; cbn.
    by destruct (decide _).
Qed.

Lemma validateEnrollment_nil (b : EnrollmentBody) :
  validateEnrollment b = [] → eb_studentId b ≠ "" ∧ eb_courseId b ≠ "".
Proof.
  unfold validateEnrollment. intros H.
  apply app_eq_nil in H as [H1 H]. apply app_eq_nil in H as [H2 _].
  split.
  - clear -H1. by case_bool_decide.
  - clear -H2. by case_bool_decide.
Qed.

Lemma enrollment_update_inr (db db' : DB) (id studentId courseId : string)
    (batch : option string) (startDate : JsDate) (endDate : option JsDate)
    (st : EnrollmentStatus) (e : Enrollment) :
  Prisma.enrollment_update db id studentId courseId batch startDate endDate st
  = inr (db', e) →
  e = {| enrollment_id := id; enrollment_studentId := studentId;
         enrollment_courseId := courseId; enrollment_batch := batch;
         enrollment_startDate := startDate; enrollment_endDate := endDate;
         enrollment_status := st |}
  ∧ db' = Prisma.with_enrollments db
            (Prisma.update_by enrollment_id id (λ _, e) (enrollments db))
  ∧ is_Some (Prisma.enrollment_findUnique db id).
Proof.
  unfold Prisma.enrollment_update. intros H.
  destruct (Prisma.enrollment_findUnique db id) as [e0|]; [|done].
  repeat case_bool_decide; simplify_eq. split_and!; [done|done|by eexists].
Qed.

(** X12. PUT /enrollments/:id never touches payments, students or courses
    and neither adds nor removes an enrollment.  When it answers 200 the
    enrollment with that id carries the student and the course of the
    request, the course exists and is active, and values the request leaves
    out are kept: the status when none is sent, and an end date or a batch
    that is already set can be replaced but not removed. *)
Theorem put_enrollment_effect (db db' : DB) (id : string) (b : EnrollmentBody)
    (r : Response EnrollmentReply) :
  put_enrollment db id b = (db', r) →
  payments db' = payments db ∧ students db' = students db ∧ courses db' = courses db
  ∧ enrollment_id <$> enrollments db' = enrollment_id <$> enrollments db
  ∧ (status r = 200%nat →
     ∃ existing e' c,
       Prisma.enrollment_findUnique db id = Some existing
       ∧ r = reply 200%nat (EnrollmentJson e')
       ∧ Prisma.enrollment_findUnique db' id = Some e'
       ∧ enrollment_studentId e' = eb_studentId b
       ∧ enrollment_courseId e' = eb_courseId b
       ∧ Prisma.course_findUnique db (eb_courseId b) = Some c
       ∧ course_isActive c = true
       ∧ (eb_status b = None → enrollment_status e' = enrollment_status existing)
       ∧ (is_Some (enrollment_endDate existing) → is_Some (enrollment_endDate e'))
       ∧ (Js.truthy (enrollment_batch existing) = true →
          Js.truthy (enrollment_batch e') = true)).
Proof.
  unfold put_enrollment. intros H.
  destruct (validateEnrollment b) eqn:Hv; [|by simplify_eq].
  apply validateEnrollment_nil in Hv as [Hs0 Hc0].
  destruct (Prisma.enrollment_findUnique db id) as [existing|] eqn:Hex;
    [|by simplify_eq].
  cbv zeta in H.
  rewrite !(bool_decide_eq_true_2 _ Hs0), !(bool_decide_eq_true_2 _ Hc0) in H.
  cbn [andb] in H.
  case_bool_decide as Hstu; [by simplify_eq|].
  destruct (Prisma.course_findUnique db (eb_courseId b)) as [c|] eqn:Hc; cycle 1.
  { rewrite bool_decide_eq_true_2 in H by done. by simplify_eq. }
  rewrite bool_decide_eq_false_2 in H by done.
  change (default true (course_isActive <$> Some c)) with (course_isActive c) in H.
  destruct (course_isActive c) eqn:Hact; cbn [negb] in H; [|by simplify_eq].
  destruct (match eb_status b with
            | Some (String _ _ as st) => status_of_text st
            | _ => Some (enrollment_status existing)
            end) as [st0|] eqn:Hst0; [|by simplify_eq].
  match type of H with
  | context [Prisma.enrollment_update ?a ?b ?c ?d ?e ?f ?g ?h] =>
      destruct (Prisma.enrollment_update a b c d e f g h) as [err|[db1 e1]] eqn:Hu
  end.
  { assert ((db', r) = (db, r) ∧ status r ≠ 200%nat) as [Heq Hne]
      by (destruct err; simplify_eq; done).
    simplify_eq. done. }
  simplify_eq.
  apply enrollment_update_inr in Hu as (He1 & -> & _).
  cbn [payments students courses enrollments Prisma.with_enrollments].
  split_and!; try done.
  { apply fmap_key_update_by. intros x Hx. by rewrite He1. }
  intros _. exists existing, e1, c. split_and!; try done.
  - unfold Prisma.enrollment_findUnique in *; cbn.
    apply find_by_update_same; [by rewrite He1|]. rewrite Hex. by eexists.
  - by rewrite He1.
  - by rewrite He1.
  - intros Hnone. rewrite He1; cbn. rewrite Hnone in Hst0. by simplify_eq.
  - intros [d Hd]. rewrite He1; cbn. rewrite Hd.
    destruct (eb_endDate b) as [[|? ?]|]; by eexists.
  - intros Htruthy. rewrite He1; cbn.
    destruct (Js.trim <$> eb_batch b) as [[|? ?]|]; done.
Qed.

(** ** Trimming *)

Lemma trimStart_head (s : string) :
  Js.trimStart s = "" ∨ ∃ c r, Js.trimStart s = String c r ∧ Js.is_white c = false.
Proof.
  induction s as [|c s IH]; [by left|]. cbn [Js.trimStart].
  destruct (Js.is_white c) eqn:Hc; [done|]. right. by exists c, s.
Qed.

Lemma trimEnd_head (c : ascii) (r : string) :
  Js.is_white c = false → ∃ r', Js.trimEnd (String c r) = String c r'.
Proof.
  intros Hc. cbn [Js.trimEnd]. destruct (Js.trimEnd r); [rewrite Hc|]; by eexists.
Qed.

Lemma trimEnd_idempotent (s : string) : Js.trimEnd (Js.trimEnd s) = Js.trimEnd s.
Proof.
  induction s as [|c s IH]; [done|]. cbn [Js.trimEnd].
  destruct (Js.trimEnd s) as [|d r] eqn:Hs.
  - destruct (Js.is_white c) eqn:Hc; [done|]. cbn. by rewrite Hc.
  - cbn [Js.trimEnd]. cbn [Js.trimEnd] in IH.
    destruct (Js.trimEnd r) as [|d' r'] eqn:Hr.
    + destruct (Js.is_white d); [done|]. by rewrite IH.
    + by rewrite IH.
Qed.

(** Trimming twice is trimming once, so a text already trimmed by the
    validation chain is not changed by the handler's own [trim()]. *)
Lemma trim_idempotent (s : string) : Js.trim (Js.trim s) = Js.trim s.
Proof.
  unfold Js.trim.
  destruct (trimStart_head s) as [->|(c & r & -> & Hc)]; [done|].
  destruct (trimEnd_head c r Hc) as [r' Hr']. rewrite Hr'.
  cbn [Js.trimStart]. rewrite Hc, <- Hr'. apply trimEnd_idempotent.
Qed.

(** ** The courses router *)

Arguments Prisma.course_findFirst_name : simpl never.
Arguments Prisma.course_create : simpl never.
Arguments Prisma.course_update : simpl never.

Lemma validateCourse_nil (b : CourseBody) :
  validateCourse b = [] →
  (2 ≤ Js.length (Js.trim (cb_name b)) ≤ 100)%nat ∧ 0 ≤ cb_price b.
Proof.
  unfold validateCourse. intros H.
  apply app_eq_nil in H as [H1 H]. apply app_eq_nil in H as [_ H].
  apply app_eq_nil in H as [_ H2]. split.
  - clear -H1. by case_bool_decide.
  - clear -H2. by case_bool_decide.
Qed.

Lemma post_course_201 (db db' : DB) (b : CourseBody) (r : Response CourseReply) :
  post_course db b = (db', r) → status r = 201%nat →
  ∃ c, r = reply 201%nat (CourseJson c)
       ∧ db' = Prisma.tick (Prisma.with_courses db (courses db ++ [c]))
       ∧ course_name c = Js.trim (cb_name b)
       ∧ (2 ≤ Js.length (course_name c) ≤ 100)%nat
       ∧ course_price c = cb_price b ∧ 0 ≤ course_price c
       ∧ course_isActive c = default true (cb_isActive b)
       ∧ Prisma.course_findFirst_name db (Js.trim (cb_name b)) None = None.
Proof.
  unfold post_course. intros H Hst.
  destruct (validateCourse b) eqn:Hv; [|by simplify_eq].
  apply validateCourse_nil in Hv as [Hlen Hprice]. cbv zeta in H.
  destruct (Prisma.course_findFirst_name db _ None) eqn:Hfirst; [by simplify_eq|].
  destruct (Prisma.course_create _ _ _ _ _ _ _) as [?|[db1 c]] eqn:Hcreate;
    [by simplify_eq|].
  unfold Prisma.course_create in Hcreate.
  destruct (course_name_clash _ _); [done|].
  simplify_eq. eexists.
  split_and!; try done; cbn [course_name course_price course_isActive];
    rewrite trim_idempotent; [done|lia|lia].
Qed.

Lemma post_course_rejected_unchanged (db : DB) (b : CourseBody) :
  status (post_course db b).2 ≠ 201%nat → (post_course db b).1 = db.
Proof.
  unfold post_course. destruct (validateCourse b); [|done]. cbv zeta.
  repeat case_match; done.
Qed.

(** X13. POST /courses answers 400 and stores nothing when a course already
    has the name up to letter case and surrounding blanks; a request it
    accepts appends one course whose name is the trimmed name (2 to 100
    characters), whose price is the price sent (not negative) and which is
    active unless the request says otherwise; and it keeps course names
    distinct up to letter case. *)
Theorem post_course_effect (db : DB) (b : CourseBody) :
  (validateCourse b = [] →
   (∃ c, c ∈ courses db
         ∧ Js.toLowerCase (course_name c) = Js.toLowerCase (Js.trim (cb_name b))) →
   post_course db b = (db, reply 400%nat (CourseError "Course name already exists")))
  ∧ (status (post_course db b).2 ≠ 201%nat → (post_course db b).1 = db)
  ∧ (status (post_course db b).2 = 201%nat →
     ∃ c, (post_course db b).2 = reply 201%nat (CourseJson c)
          ∧ courses (post_course db b).1 = courses db ++ [c]
          ∧ enrollments (post_course db b).1 = enrollments db
          ∧ course_name c = Js.trim (cb_name b)
          ∧ (2 ≤ Js.length (course_name c) ≤ 100)%nat
          ∧ course_price c = cb_price b ∧ 0 ≤ course_price c
          ∧ course_isActive c = default true (cb_isActive b))
  ∧ (names_distinct db → names_distinct (post_course db b).1).
Proof.
  split_and!.
  - intros Hv (c & Hc & Hname). unfold post_course. rewrite Hv. cbv zeta.
    destruct (Prisma.course_findFirst_name db _ None) eqn:Hfirst; [done|].
    unfold Prisma.course_findFirst_name in Hfirst. apply head_None in Hfirst.
    destruct (filter_nil_none _ _ c Hfirst Hc). by split.
  - apply post_course_rejected_unchanged.
  - destruct (post_course db b) as [db' r] eqn:H. cbn. intros Hst.
    destruct (post_course_201 _ _ _ _ H Hst) as (c & -> & -> & ? & ? & ? & ? & ? & _).
    exists c. split_and!; try done; lia.
  - intros Hinv. destruct (post_course db b) as [db' r] eqn:H.
    destruct (decide (status r = 201%nat)) as [Hst|Hst]; cycle 1.
    { pose proof (post_course_rejected_unchanged db b) as Hu.
      rewrite H in Hu. cbn in *. by rewrite Hu. }
    destruct (post_course_201 _ _ _ _ H Hst) as (c & _ & -> & Hname & _ & _ & _ & _ & Hfirst).
    unfold names_distinct; cbn. rewrite fmap_app. apply NoDup_app.
    split_and!; [done| |apply NoDup_singleton].
    intros lower Hin Hnew. apply list_elem_of_singleton in Hnew as ->.
    apply list_elem_of_fmap in Hin as (c0 & Heq & Hc0).
    unfold Prisma.course_findFirst_name in Hfirst. apply head_None in Hfirst.
    destruct (filter_nil_none _ _ c0 Hfirst Hc0). split; [|done]. congruence.
Qed.

Lemma toggle_course_found (db : DB) (id : string) (c : Course) :
  Prisma.course_findUnique db id = Some c →
  toggle_course db id
  = (Prisma.with_courses db
       (Prisma.update_by course_id id (with_isActive (negb (course_isActive c)))
          (courses db)),
     reply 200%nat (CourseJson (with_isActive (negb (course_isActive c)) c))).
Proof.
  intros Hc. unfold toggle_course, Prisma.course_update. by rewrite Hc.
Qed.

Lemma course_found_after_update (db : DB) (id : string) (c : Course) (f : Course → Course) :
  (∀ x, course_id (f x) = course_id x) →
  Prisma.course_findUnique db id = Some c →
  Prisma.course_findUnique
    (Prisma.with_courses db (Prisma.update_by course_id id f (courses db))) id
  = Some (f c).
Proof.
  intros Hf Hc. unfold Prisma.course_findUnique in *; cbn.
  rewrite find_by_update_by by done. rewrite Hc; cbn.
  apply find_by_Some_key in Hc as [Hk _]. by rewrite decide_True.
Qed.

(** X14. PATCH /courses/:id/toggle-status answers 404 and changes nothing
    when no course has the id; otherwise it answers 200, the course has the
    opposite active flag and is otherwise the same, other courses,
    enrollments and payments are untouched, and toggling a second time gives
    the course back as it was. *)
Theorem toggle_course_effect (db : DB) (id : string) :
  (Prisma.course_findUnique db id = None →
     toggle_course db id = (db, reply 404%nat (CourseError "Course not found")))
  ∧ (∀ c, Prisma.course_findUnique db id = Some c →
     (toggle_course db id).2
     = reply 200%nat (CourseJson (with_isActive (negb (course_isActive c)) c))
     ∧ Prisma.course_findUnique (toggle_course db id).1 id
       = Some (with_isActive (negb (course_isActive c)) c)
     ∧ (∀ id', id' ≠ id →
          Prisma.course_findUnique (toggle_course db id).1 id'
          = Prisma.course_findUnique db id')
     ∧ enrollments (toggle_course db id).1 = enrollments db
     ∧ payments (toggle_course db id).1 = payments db
     ∧ Prisma.course_findUnique (toggle_course (toggle_course db id).1 id).1 id = Some c).
Proof.
  split.
  { intros Hnone. unfold toggle_course. by rewrite Hnone. }
  intros c Hc. rewrite (toggle_course_found db id c Hc). cbn [fst snd].
  pose proof (course_found_after_update db id c
                (with_isActive (negb (course_isActive c))) (λ _, eq_refl) Hc) as Hc1.
  split_and!; try done.
  - intros id' Hne. unfold Prisma.course_findUnique; cbn.
    by apply find_by_update_other.
  - rewrite (toggle_course_found _ id _ Hc1). cbn [fst].
    erewrite course_found_after_update; [|done|exact Hc1].
    f_equal. destruct c; cbn. by rewrite negb_involutive.
Qed.

(** X15. POST /enrollments answers 400 and stores nothing for a course that
    is not active; in particular, once PATCH /courses/:id/toggle-status has
    switched an active course off, no student can be enrolled in it. *)
Theorem inactive_course_refuses_enrollment (db : DB) (b : EnrollmentBody) (c : Course) :
  Prisma.course_findUnique db (eb_courseId b) = Some c →
  (course_isActive c = false →
     status (post_enrollment db b).2 = 400%nat ∧ (post_enrollment db b).1 = db)
  ∧ (course_isActive c = true →
     status (post_enrollment (toggle_course db (eb_courseId b)).1 b).2 = 400%nat
     ∧ (post_enrollment (toggle_course db (eb_courseId b)).1 b).1
       = (toggle_course db (eb_courseId b)).1).
Proof.
  intros Hc.
  assert (∀ db0 c0, Prisma.course_findUnique db0 (eb_courseId b) = Some c0 →
            course_isActive c0 = false →
            status (post_enrollment db0 b).2 = 400%nat ∧ (post_enrollment db0 b).1 = db0)
    as Hoff.
  { intros db0 c0 Hc0 Hoff.
    assert (status (post_enrollment db0 b).2 = 400%nat) as H400.
    { unfold post_enrollment. destruct (validateEnrollment b); [|done]. cbv zeta.
      destruct (Prisma.student_findUnique db0 _); [|done]. by rewrite Hc0, Hoff. }
    split; [done|]. apply post_enrollment_rejected_unchanged. by rewrite H400. }
  split; [by apply Hoff|]. intros Hon.
  apply (Hoff _ (with_isActive (negb (course_isActive c)) c)); [|by rewrite Hon].
  rewrite (toggle_course_found db _ c Hc). cbn [fst].
  by apply course_found_after_update.
Qed.

(** ** The CSV parser *)

Lemma lower_idempotent (c : ascii) : Js.lower (Js.lower c) = Js.lower c.
Proof. destruct c as [[] [] [] [] [] [] [] []]; reflexivity. Qed.

Lemma toLowerCase_idempotent (s : string) :
  Js.toLowerCase (Js.toLowerCase s) = Js.toLowerCase s.
Proof.
  induction s as [|c s IH]; [done|]. cbn. by rewrite lower_idempotent, IH.
Qed.

(** What one row does to the accumulator: it is counted once, as a result
    that passed the checks or as an error numbered after the results so
    far. *)
Lemma onData_cases (results : list CsvStudent) (errors : list CsvError)
    (data : gmap string string) :
  (∃ c, onData (results, errors) data = (results ++ [c], errors) ∧ csv_clean c)
  ∨ (∃ err, onData (results, errors) data = (results, errors ++ [err])
            ∧ ce_row err = (length results + 1)%nat).
Proof.
  unfold onData.
  destruct (negb (Js.truthy (data !! "name")) || negb (Js.truthy (data !! "email"))
            || negb (Js.truthy (data !! "phone"))); [right; by eexists|].
  cbn [cs_name cs_email cs_phone].
  case_bool_decide as Hname; [right; by eexists|].
  destruct (Js.includes _ _) eqn:Hat; cbn [negb]; [|right; by eexists].
  case_bool_decide as Hphone; [right; by eexists|].
  left. eexists. split; [done|].
  unfold csv_clean; cbn [cs_name cs_email cs_phone]. unfold Js.length in *.
  split_and!; [lia|done|lia|apply trim_idempotent|apply trim_idempotent|
               apply toLowerCase_idempotent].
Qed.

Lemma parseCSV_invariant (rows : list (gmap string string))
    (results : list CsvStudent) (errors : list CsvError) :
  Forall csv_clean results →
  Forall (λ e, 1 ≤ ce_row e ≤ length results + 1)%nat errors →
  let out := foldl onData (results, errors) rows in
  (length out.1 + length out.2 = length results + length errors + length rows)%nat
  ∧ Forall csv_clean out.1
  ∧ Forall (λ e, 1 ≤ ce_row e ≤ length out.1 + 1)%nat out.2.
Proof.
  revert results errors. induction rows as [|data rows IH]; intros results errors Hr He.
  { cbn. split_and!; [lia|done|done]. }
  cbn [foldl].
  destruct (onData_cases results errors data) as [(c & -> & Hc)|(err & -> & Herr)].
  - destruct (IH (results ++ [c]) errors) as (Hlen & ? & ?).
    + apply Forall_app; split; [done|by constructor].
    + eapply Forall_impl; [exact He|]. cbn. intros e. rewrite length_app; cbn. lia.
    + split_and!; [|done|done]. rewrite length_app in Hlen; cbn in *. lia.
  - destruct (IH results (errors ++ [err])) as (Hlen & ? & ?).
    + done.
    + apply Forall_app; split; [done|]. constructor; [lia|constructor].
    + split_and!; [|done|done]. rewrite length_app in Hlen; cbn in *. lia.
Qed.

Lemma parseCSV_counts (rows : list (gmap string string)) :
  (length (parseCSV rows).1 + length (parseCSV rows).2 = length rows)%nat
  ∧ Forall csv_clean (parseCSV rows).1
  ∧ Forall (λ e, 1 ≤ ce_row e ≤ length (parseCSV rows).1 + 1)%nat (parseCSV rows).2.
Proof.
  unfold parseCSV.
  destruct (parseCSV_invariant rows [] [] (Forall_nil_2 _) (Forall_nil_2 _))
    as (Hlen & Hclean & Hrow).
  cbv zeta in *. split_and!; [cbn in Hlen; lia|done|done].
Qed.

(** A row read after others is treated as it is when read alone, except
    that its error is numbered after the valid rows read so far. *)
Lemma onData_alone (results : list CsvStudent) (errors : list CsvError)
    (data : gmap string string) :
  match onData ([], []) data with
  | ([c], []) => onData (results, errors) data = (results ++ [c], errors)
  | ([], [e]) =>
      onData (results, errors) data
      = (results, errors ++ [{| ce_row := length results + 1; ce_error := ce_error e;
                                ce_data := ce_data e |}])
  | _ => False
  end.
Proof.
  unfold onData.
  destruct (negb (Js.truthy (data !! "name")) || negb (Js.truthy (data !! "email"))
            || negb (Js.truthy (data !! "phone"))); [done|].
  cbn [cs_name cs_email cs_phone].
  case_bool_decide; [done|].
  destruct (negb (Js.includes _ _)); [done|].
  by case_bool_decide.
Qed.

(** What has been read stays: later rows only append. *)
Lemma parseCSV_extends (rows : list (gmap string string))
    (results : list CsvStudent) (errors : list CsvError) :
  ∃ results' errors',
    foldl onData (results, errors) rows = (results ++ results', errors ++ errors').
Proof.
  revert results errors. induction rows as [|data rows IH]; intros results errors.
  { exists [], []. by rewrite !app_nil_r. }
  cbn [foldl].
  destruct (onData_cases results errors data) as [(c & -> & _)|(err & -> & _)].
  - destruct (IH (results ++ [c]) errors) as (r & e & ->).
    exists (c :: r), e. by rewrite <- app_assoc.
  - destruct (IH results (errors ++ [err])) as (r & e & ->).
    exists r, (err :: e). by rewrite <- app_assoc.
Qed.

(** X16. [parseCSV] counts every row of the file exactly once, as a valid
    row or as an error.  Every valid row has a trimmed name of at least 2
    characters, a lower-case email containing an at-sign and a trimmed phone
    of at least 10 characters.  A row that is valid when read alone is the
    next valid row after those of the rows before it; a row that is an error
    when read alone is the next error after those of the rows before it,
    with the same message and data, and the row number attached to it is
    one more than the number of valid rows read before it.  So a row number
    lies between 1 and the number of valid rows plus one, and in a file
    without a valid row every error is reported as row 1. *)
Theorem parseCSV_accounting (rows : list (gmap string string)) :
  (length (parseCSV rows).1 + length (parseCSV rows).2 = length rows)%nat
  ∧ Forall csv_clean (parseCSV rows).1
  ∧ (∀ before data after, rows = before ++ data :: after →
       match parseCSV [data] with
       | ([c], []) => (parseCSV rows).1 !! length (parseCSV before).1 = Some c
       | ([], [e]) =>
           (parseCSV rows).2 !! length (parseCSV before).2
           = Some {| ce_row := length (parseCSV before).1 + 1;
                     ce_error := ce_error e; ce_data := ce_data e |}
       | _ => False
       end)
  ∧ Forall (λ e, 1 ≤ ce_row e ≤ length (parseCSV rows).1 + 1)%nat (parseCSV rows).2
  ∧ ((parseCSV rows).1 = [] → Forall (λ e, ce_row e = 1%nat) (parseCSV rows).2).
Proof.
  destruct (parseCSV_counts rows) as (Hlen & Hclean & Hrow).
  split_and!; [done|done| |done|].
  - intros before data after ->. unfold parseCSV. rewrite foldl_app. cbn [foldl].
    destruct (foldl onData ([], []) before) as [results errors]. cbn [fst snd].
    pose proof (onData_alone results errors data) as Halone.
    destruct (onData ([], []) data) as [[|c [|? ?]] [|e [|? ?]]]; try done.
    + rewrite Halone.
      destruct (parseCSV_extends after results
                  (errors ++ [{| ce_row := length results + 1; ce_error := ce_error e;
                                 ce_data := ce_data e |}])) as (r & e' & ->).
      cbn [fst snd]. rewrite <- app_assoc. by apply list_lookup_middle.
    + rewrite Halone.
      destruct (parseCSV_extends after (results ++ [c]) errors) as (r & e' & ->).
      cbn [fst snd]. rewrite <- app_assoc. by apply list_lookup_middle.
  - intros Hnil. rewrite Hnil in Hrow. cbn in Hrow.
    eapply Forall_impl; [exact Hrow|]. cbn. lia.
Qed.

(** X17. POST /upload/csv-preview never writes to the database.  Without a
    file it answers 400; for a file it answers 200 where totalRows is the
    number of rows of the file and equals validRows + errorRows, validRows
    and errorRows count the valid rows and the errors of [parseCSV], the
    preview and the error list hold the first ten valid rows and the first
    ten errors, and the sample is the first valid row. *)
Theorem csv_preview_totals (db : DB) (file : Upload) :
  (csv_preview db file).1 = db
  ∧ (file = NoFile → status (csv_preview db file).2 = 400%nat)
  ∧ (∀ rows, file = CsvFile rows →
     ∃ pv, (csv_preview db file).2 = reply 200%nat (PreviewJson pv)
           ∧ pv_totalRows pv = length rows
           ∧ (pv_validRows pv + pv_errorRows pv = pv_totalRows pv)%nat
           ∧ pv_validRows pv = length (parseCSV rows).1
           ∧ pv_errorRows pv = length (parseCSV rows).2
           ∧ pv_preview pv = take 10 (parseCSV rows).1
           ∧ pv_errors pv = take 10 (parseCSV rows).2
           ∧ length (pv_preview pv) = (pv_validRows pv `min` 10)%nat
           ∧ length (pv_errors pv) = (pv_errorRows pv `min` 10)%nat
           ∧ pv_sampleData pv = head (parseCSV rows).1
           ∧ Forall csv_clean (pv_preview pv)).
Proof.
  split_and!.
  - unfold csv_preview. destruct file; [done|done|]. by destruct (parseCSV rows).
  - by intros ->.
  - intros rows ->. unfold csv_preview.
    destruct (parseCSV_counts rows) as (Hlen & Hclean & _).
    destruct (parseCSV rows) as [results errors]. cbn in *.
    eexists. split; [done|]. cbn.
    split_and!; try done.
    + by rewrite length_take, Nat.min_comm.
    + by rewrite length_take, Nat.min_comm.
    + by apply Forall_take.
Qed.

(** ** The imports *)

Arguments Prisma.student_create : simpl never.
Arguments Prisma.student_findUnique_email : simpl never.
Arguments Prisma.course_findFirst_active_name : simpl never.

Lemma student_create_inr (db db' : DB) (name email phone : string)
    (nric address remarks : option string) (documents : list string) (s : Student) :
  Prisma.student_create db name email phone nric address remarks documents
  = inr (db', s) →
  db' = Prisma.tick (Prisma.with_students db (students db ++ [s]))
  ∧ student_name s = name ∧ student_email s = email ∧ student_phone s = phone.
Proof.
  unfold Prisma.student_create. intros H. repeat case_bool_decide; by simplify_eq.
Qed.

Lemma bulk_step_cases (db : DB) (results : list Student) (errors : list BulkError)
    (i : nat) (row : BulkRow) :
  (∃ err, bulk_step (db, results, errors) (i, row) = (db, results, errors ++ [err])
          ∧ be_row err = (i + 1)%nat ∧ be_data err = row)
  ∨ (∃ s, bulk_step (db, results, errors) (i, row)
          = (Prisma.tick (Prisma.with_students db (students db ++ [s])),
             results ++ [s], errors)
          ∧ Js.toLowerCase (student_email s) = student_email s
          ∧ Js.trim (student_name s) = student_name s
          ∧ Js.trim (student_phone s) = student_phone s
          ∧ Prisma.student_findUnique_email db (default "" (br_email row)) = None).
Proof.
  unfold bulk_step.
  destruct (negb (Js.truthy (br_name row)) || negb (Js.truthy (br_email row))
            || negb (Js.truthy (br_phone row))); [left; by eexists|].
  cbv zeta.
  destruct (Prisma.student_findUnique_email db _) eqn:Hfind; [left; by eexists|].
  destruct (Prisma.student_create db _ _ _ _ _ _ _) as [err|[db' s]] eqn:Hcreate;
    [left; by eexists|].
  apply student_create_inr in Hcreate as (-> & Hn & He & Hp).
  right. exists s. split_and!; [done| | |  |done].
  - rewrite He. apply toLowerCase_idempotent.
  - rewrite Hn. apply trim_idempotent.
  - rewrite Hp. apply trim_idempotent.
Qed.

Lemma bulk_fold (rows : list BulkRow) (k : nat) (db : DB) (results : list Student)
    (errors : list BulkError) :
  ∃ db' new errs,
    foldl bulk_step (db, results, errors) (imap (λ i row, (k + i, row)%nat) rows)
    = (db', results ++ new, errors ++ errs)
    ∧ students db' = students db ++ new ∧ courses db' = courses db
    ∧ enrollments db' = enrollments db ∧ payments db' = payments db
    ∧ (length new + length errs = length rows)%nat
    ∧ Forall (λ s, Js.toLowerCase (student_email s) = student_email s
                   ∧ Js.trim (student_name s) = student_name s
                   ∧ Js.trim (student_phone s) = student_phone s) new
    ∧ Forall (λ e, k + 1 ≤ be_row e ≤ k + length rows)%nat errs
    ∧ Forall (λ e, rows !! (be_row e - (k + 1))%nat = Some (be_data e)) errs
    ∧ StronglySorted (λ e e', be_row e < be_row e')%nat errs.
Proof.
  revert k db results errors.
  induction rows as [|row rows IH]; intros k db results errors.
  { exists db, [], []. rewrite !app_nil_r. split_and!; try done. constructor. }
  rewrite imap_cons. cbn [foldl].
  rewrite (imap_ext _ (λ i row, (S k + i, row)%nat)); cycle 1.
  { intros i x _. cbn. f_equal. lia. }
  replace (k + 0)%nat with k by lia.
  assert (∀ errs : list BulkError,
            Forall (λ e, S k + 1 ≤ be_row e ≤ S k + length rows)%nat errs →
            Forall (λ e, rows !! (be_row e - (S k + 1))%nat = Some (be_data e)) errs →
            Forall (λ e, (row :: rows) !! (be_row e - (k + 1))%nat = Some (be_data e)) errs)
    as Hshift.
  { intros errs Hb Hd. rewrite Forall_forall in Hb, Hd. apply Forall_forall.
    intros e He. specialize (Hb e He). specialize (Hd e He).
    replace (be_row e - (k + 1))%nat with (S (be_row e - (S k + 1))) by lia.
    exact Hd. }
  destruct (bulk_step_cases db results errors k row)
    as [(err & -> & Herr & Hdata)|(s & -> & He & Hn & Hp & _)].
  - destruct (IH (S k) db results (errors ++ [err]))
      as (db' & new & errs & -> & ? & ? & ? & ? & Hlen & ? & Hrows & Hdatas & Hsorted).
    exists db', new, (err :: errs). rewrite <- app_assoc.
    split_and!; try done.
    + cbn; lia.
    + constructor; [cbn; lia|]. eapply Forall_impl; [exact Hrows|]. cbn. lia.
    + constructor; [|by apply Hshift].
      rewrite Herr, Hdata. by replace (k + 1 - (k + 1))%nat with 0%nat by lia.
    + constructor; [done|]. eapply Forall_impl; [exact Hrows|]. cbn. lia.
  - destruct (IH (S k) (Prisma.tick (Prisma.with_students db (students db ++ [s])))
                (results ++ [s]) errors)
      as (db' & new & errs & -> & Hstu & ? & ? & ? & Hlen & ? & Hrows & Hdatas & Hsorted).
    exists db', (s :: new), errs. rewrite <- app_assoc.
    split_and!; try done.
    + rewrite Hstu; cbn. by rewrite <- app_assoc.
    + cbn; lia.
    + by constructor.
    + eapply Forall_impl; [exact Hrows|]. cbn. lia.
    + by apply Hshift.
Qed.

(** X18. POST /students/bulk-import answers 400 and stores nothing when the
    list is missing or empty.  Otherwise it answers 200 and accounts for
    every row exactly once: imported plus the number of errors is the total.
    The students created are appended to the table, with trimmed name and
    phone and a lower-case email; each error carries the position of its row
    in the list, counted from 1, and that row as its data, and the errors
    are listed by increasing position, so no row is reported twice; courses,
    enrollments and payments are untouched. *)
Theorem bulk_import_accounting (db : DB) (students_ : option (list BulkRow)) :
  (students_ = None ∨ students_ = Some [] →
     bulk_import db students_
     = (db, reply 400%nat (BulkError_ "Students data is required and must be an array")))
  ∧ (∀ rows, students_ = Some rows → rows ≠ [] →
     ∃ s, (bulk_import db students_).2 = reply 200%nat (BulkJson s)
          ∧ bs_total s = length rows
          ∧ bs_imported s = length (bs_results s)
          ∧ (bs_imported s + length (bs_errors s) = bs_total s)%nat
          ∧ students (bulk_import db students_).1 = students db ++ bs_results s
          ∧ courses (bulk_import db students_).1 = courses db
          ∧ enrollments (bulk_import db students_).1 = enrollments db
          ∧ payments (bulk_import db students_).1 = payments db
          ∧ Forall (λ st, Js.toLowerCase (student_email st) = student_email st
                          ∧ Js.trim (student_name st) = student_name st
                          ∧ Js.trim (student_phone st) = student_phone st) (bs_results s)
          ∧ Forall (λ e, 1 ≤ be_row e ≤ length rows)%nat (bs_errors s)
          ∧ Forall (λ e, rows !! (be_row e - 1)%nat = Some (be_data e)) (bs_errors s)
          ∧ StronglySorted (λ e e', be_row e < be_row e')%nat (bs_errors s)).
Proof.
  split.
  { by intros [-> | ->]. }
  intros rows -> Hne. unfold bulk_import.
  destruct rows as [|row rows]; [done|].
  destruct (bulk_fold (row :: rows) 0 db [] [])
    as (db' & new & errs & Hfold & ? & ? & ? & ? & Hlen & ? & Hrows & Hdatas & Hsorted).
  rewrite (imap_ext _ (λ i row, (0 + i, row)%nat)) by done.
  rewrite Hfold. cbn [fst snd app]. eexists. split; [done|]. cbn.
  by split_and!.
Qed.

Lemma import_enrollment_cases (db : DB) (student : Student) (row : ImportRow)
    (courseName : string) :
  ∃ dc den,
    students (import_enrollment db student row courseName).1 = students db
    ∧ payments (import_enrollment db student row courseName).1 = payments db
    ∧ courses (import_enrollment db student row courseName).1 = courses db ++ dc
    ∧ enrollments (import_enrollment db student row courseName).1 = enrollments db ++ den
    ∧ Forall imported_course dc ∧ Forall imported_enrollment den
    ∧ match (import_enrollment db student row courseName).2 with
      | inr e => den = [e]
      | inl _ => den = []
      end.
Proof.
  assert (∀ db1 c,
            students db1 = students db → payments db1 = payments db →
            enrollments db1 = enrollments db →
            let out := match Prisma.enrollment_create db1 (student_id student) (course_id c)
                               (match Js.trim <$> ir_batch row with
                                | Some (String _ _ as batch) => Some batch
                                | _ => Some "CSV Import"
                                end)
                               (match ir_startDate row with
                                | Some (String _ _ as startDate) => DateOf startDate
                                | _ => CurrentDate
                                end)
                               None "ACTIVE" with
                       | inl error => (db1, inl error)
                       | inr (db2, enrollment) => (db2, inr enrollment)
                       end in
            ∃ den, students out.1 = students db ∧ payments out.1 = payments db
                   ∧ courses out.1 = courses db1
                   ∧ enrollments out.1 = enrollments db ++ den
                   ∧ Forall imported_enrollment den
                   ∧ match out.2 with inr e => den = [e] | inl _ => den = [] end)
    as Henr.
  { intros db1 c Hs Hp He.
    destruct (Prisma.enrollment_create db1 _ _ _ _ _ _) as [err|[db2 e]] eqn:Hcreate; cbn.
    - exists []. rewrite app_nil_r. by split_and!.
    - apply enrollment_create_inr in Hcreate as (-> & _ & _ & Hb & _ & Hend & Hst & _).
      exists [e]. cbn. rewrite Hs, Hp, He. split_and!; try done.
      constructor; [|done]. unfold imported_enrollment. split_and!.
      + change (status_of_text "ACTIVE") with (Some ACTIVE) in Hst. by simplify_eq.
      + done.
      + rewrite Hb. by destruct (Js.trim <$> ir_batch row) as [[|? ?]|]. }
  unfold import_enrollment. cbv zeta.
  destruct (Prisma.course_findFirst_active_name db courseName) as [c|].
  - destruct (Henr db c eq_refl eq_refl eq_refl) as (den & ? & ? & ? & ? & ? & ?).
    exists [], den. rewrite app_nil_r. by split_and!.
  - destruct (Prisma.course_create db _ _ _ _ _ _) as [err|[db1 c]] eqn:Hcreate.
    + exists [], []. rewrite !app_nil_r. by split_and!.
    + unfold Prisma.course_create in Hcreate.
      destruct (course_name_clash _ _); [done|]. simplify_eq.
      set (c0 := {| course_id := Prisma.cuid (nextId db);
                    course_name := Js.trim courseName;
                    course_description := Some "Auto-created from CSV import";
                    course_duration := None; course_price := 0;
                    course_isActive := true |}).
      set (dbc := Prisma.tick (Prisma.with_courses db (courses db ++ [c0]))).
      destruct (Henr dbc c0 eq_refl eq_refl eq_refl) as (den & ? & ? & Hco & ? & ? & ?).
      exists [c0], den. split_and!; try done.
      by constructor.
Qed.

Lemma import_step_cases (createEnrollments : bool) (db : DB) (imp : list Student)
    (errs : list ImportError) (enrs : list Enrollment) (i : nat) (row : ImportRow) :
  ∃ db' ds de dc den,
    import_step createEnrollments (db, imp, errs, enrs) (i, row)
    = (db', imp ++ ds, errs ++ de, enrs ++ den)
    ∧ students db' = students db ++ ds ∧ payments db' = payments db
    ∧ courses db' = courses db ++ dc ∧ enrollments db' = enrollments db ++ den
    ∧ (length ds ≤ 1 ∧ length de ≤ 1 ∧ 1 ≤ length ds + length de
       ∧ length den ≤ length ds)%nat
    ∧ Forall imported_course dc ∧ Forall imported_enrollment den
    ∧ Forall (λ e, ie_row e = (i + 1)%nat) de
    ∧ (createEnrollments = false → dc = [] ∧ den = []).
Proof.
  unfold import_step.
  destruct (Prisma.student_findUnique_email db (ir_email row)).
  { eexists db, [], [_], [], []. rewrite !app_nil_r. cbn.
    split_and!; try done; try lia. by repeat constructor. }
  destruct (Prisma.student_create db _ _ _ _ _ _ _) as [err|[db1 s]] eqn:Hcreate.
  { eexists db, [], [_], [], []. rewrite !app_nil_r. cbn.
    split_and!; try done; try lia. by repeat constructor. }
  apply student_create_inr in Hcreate as (-> & _).
  set (db1 := Prisma.tick (Prisma.with_students db (students db ++ [s]))).
  assert (∃ db' ds de dc den,
            (db1, imp ++ [s], errs, enrs) = (db', imp ++ ds, errs ++ de, enrs ++ den)
            ∧ students db' = students db ++ ds ∧ payments db' = payments db
            ∧ courses db' = courses db ++ dc ∧ enrollments db' = enrollments db ++ den
            ∧ (length ds ≤ 1 ∧ length de ≤ 1 ∧ 1 ≤ length ds + length de
               ∧ length den ≤ length ds)%nat
            ∧ Forall imported_course dc ∧ Forall imported_enrollment den
            ∧ Forall (λ e, ie_row e = (i + 1)%nat) de
            ∧ (createEnrollments = false → dc = [] ∧ den = [])) as Hplain.
  { exists db1, [s], [], [], []. rewrite !app_nil_r. cbn.
    split_and!; try done; lia. }
  destruct (ir_course row) as [[|a courseName]|]; [done| |done].
  destruct createEnrollments; [|done].
  destruct (import_enrollment_cases db1 s row (String a courseName))
    as (dc & den & Hs & Hp & Hc & He & Hdc & Hden & Hres).
  destruct (import_enrollment db1 s row (String a courseName)) as [db2 [err|e]];
    cbn in *; subst den.
  - eexists db2, [s], [_], dc, []. rewrite !app_nil_r in *. cbn.
    split_and!; try done; try lia. by repeat constructor.
  - exists db2, [s], [], dc, [e]. rewrite !app_nil_r in *. cbn.
    split_and!; try done; lia.
Qed.

Lemma import_fold (createEnrollments : bool) (rows : list ImportRow) (k : nat) (db : DB)
    (imp : list Student) (errs : list ImportError) (enrs : list Enrollment) :
  ∃ db' ds de dc den,
    foldl (import_step createEnrollments) (db, imp, errs, enrs)
      (imap (λ i row, (k + i, row)%nat) rows)
    = (db', imp ++ ds, errs ++ de, enrs ++ den)
    ∧ students db' = students db ++ ds ∧ payments db' = payments db
    ∧ courses db' = courses db ++ dc ∧ enrollments db' = enrollments db ++ den
    ∧ (length ds ≤ length rows ∧ length de ≤ length rows
       ∧ length rows ≤ length ds + length de ∧ length den ≤ length ds)%nat
    ∧ Forall imported_course dc ∧ Forall imported_enrollment den
    ∧ Forall (λ e, k + 1 ≤ ie_row e ≤ k + length rows)%nat de
    ∧ (createEnrollments = false → dc = [] ∧ den = []).
Proof.
  revert k db imp errs enrs.
  induction rows as [|row rows IH]; intros k db imp errs enrs.
  { exists db, [], [], [], []. rewrite !app_nil_r. cbn. by split_and!. }
  rewrite imap_cons. cbn [foldl].
  rewrite (imap_ext _ (λ i row, (S k + i, row)%nat)); cycle 1.
  { intros i x _. cbn. f_equal. lia. }
  replace (k + 0)%nat with k by lia.
  destruct (import_step_cases createEnrollments db imp errs enrs k row)
    as (db1 & ds1 & de1 & dc1 & den1 & -> & Hs1 & Hp1 & Hc1 & He1 & Hl1 & ? & ? & Hr1 & Hoff1).
  destruct (IH (S k) db1 (imp ++ ds1) (errs ++ de1) (enrs ++ den1))
    as (db2 & ds2 & de2 & dc2 & den2 & -> & Hs2 & Hp2 & Hc2 & He2 & Hl2 & ? & ? & Hr2 & Hoff2).
  exists db2, (ds1 ++ ds2), (de1 ++ de2), (dc1 ++ dc2), (den1 ++ den2).
  rewrite !app_assoc. split_and!; try done.
  - by rewrite Hs2, Hs1.
  - by rewrite Hp2, Hp1.
  - by rewrite Hc2, Hc1.
  - by rewrite He2, He1.
  - rewrite length_app; cbn; lia.
  - rewrite length_app; cbn; lia.
  - rewrite !length_app; cbn; lia.
  - rewrite !length_app; cbn; lia.
  - by apply Forall_app.
  - by apply Forall_app.
  - apply Forall_app; split.
    + eapply Forall_impl; [exact Hr1|]. cbn. lia.
    + eapply Forall_impl; [exact Hr2|]. cbn. lia.
  - intros Hoff. destruct (Hoff1 Hoff) as [-> ->], (Hoff2 Hoff) as [-> ->]. done.
Qed.

(** X19. When POST /upload/import-students answers 200, every row of the
    list is accounted for: it produced a student, an error, or both (a
    student whose enrollment failed), so imported and the number of errors
    are each at most the total and together at least the total, and
    enrollmentsCreated is at most imported.  The students created are
    appended to the table and payments are untouched.  A course the import
    creates is free (price 0) and active; an enrollment it creates is ACTIVE
    with a batch label and no end date; without [createEnrollments] no
    course and no enrollment is written. *)
Theorem import_students_accounting (isEmail : string → bool)
    (normalizeEmail : string → string) (db db' : DB) (rows : list ImportRow)
    (createEnrollments : option bool) (s : ImportSummary) :
  import_students isEmail normalizeEmail db (Some rows) createEnrollments
  = (db', reply 200%nat (ImportJson s)) →
  is_total s = length rows ∧ is_imported s = length (is_results s)
  ∧ (is_imported s ≤ is_total s ∧ length (is_errors s) ≤ is_total s
     ∧ is_total s ≤ is_imported s + length (is_errors s)
     ∧ is_enrollmentsCreated s ≤ is_imported s)%nat
  ∧ students db' = students db ++ is_results s
  ∧ payments db' = payments db
  ∧ Forall (λ e, 1 ≤ ie_row e ≤ length rows)%nat (is_errors s)
  ∧ ∃ newCourses newEnrollments,
      courses db' = courses db ++ newCourses
      ∧ enrollments db' = enrollments db ++ newEnrollments
      ∧ length newEnrollments = is_enrollmentsCreated s
      ∧ Forall imported_course newCourses
      ∧ Forall imported_enrollment newEnrollments
      ∧ (default false createEnrollments = false →
         newCourses = [] ∧ newEnrollments = []).
Proof.
  unfold import_students. intros H.
  destruct (validateImport isEmail rows); [|done].
  destruct (sanitizeImportRow normalizeEmail <$> rows) as [|row rows'] eqn:Hrows; [done|].
  assert (length (row :: rows') = length rows) as Hlen
    by (by rewrite <- Hrows, length_fmap).
  destruct (import_fold (default false createEnrollments) (row :: rows') 0 db [] [] [])
    as (db2 & ds & de & dc & den & Hfold & ? & ? & ? & ? & Hl & ? & ? & Hr & Hoff).
  rewrite (imap_ext _ (λ i row, (0 + i, row)%nat)) in H by done.
  rewrite Hfold in H. cbn [app] in H. simplify_eq. cbn [is_total is_imported is_results
    is_errors is_enrollmentsCreated].
  rewrite <- Hlen. cbn [length] in *.
  split_and!; try done; try lia.
  exists dc, den. by split_and!.
Qed.

(** ** Paging through a list *)

Lemma chunks_concat {A} (L n : nat) (rows : list A) :
  (length rows ≤ n * L)%nat →
  concat ((λ i, take L (drop (i * L)%nat rows)) <$> seq 0 n) = rows.
Proof.
  revert rows. induction n as [|n IH]; intros rows Hlen.
  { cbn in *. destruct rows; [done|cbn in *; lia]. }
  cbn [seq fmap list_fmap concat]. rewrite <- fmap_S_seq, <- list_fmap_compose.
  rewrite (list_fmap_ext _ (λ i, take L (drop (i * L)%nat (drop L rows))) (seq 0 n)); cycle 1.
  { intros _ i _. cbn. rewrite drop_drop. do 2 f_equal; lia. }
  rewrite IH by (rewrite length_drop; lia). cbn. apply take_drop.
Qed.

Section Paging.

(** With a row offset and a page size that are not negative, the ORM gives
    the rows after the offset, up to the page size. *)
Hypothesis window_rows : ∀ (A : Type) (skip take_ : Z) (rows : list A),
  0 ≤ skip → 0 ≤ take_ →
  window A (Some skip) (Some take_) rows
  = Some (take (Z.to_nat take_) (drop (Z.to_nat skip) rows)).

Lemma page_data_window {Row : Type} (where_ : Row → Prop)
    `{∀ r, Decision (where_ r)} (orderBy : list Row → list Row)
    (key failure : string) (table : list Row) (page limit : option string)
    (i : nat) (l : Z) :
  parse_param 1 page = Some (Z.of_nat i + 1) → parse_param 20 limit = Some l → 1 ≤ l →
  page_data (list_rows where_ orderBy Some key failure table page limit)
  = take (Z.to_nat l) (drop (i * Z.to_nat l)%nat (orderBy (filter where_ table))).
Proof.
  intros Hp Hl Hl1. unfold page_data, list_rows.
  rewrite Hp, Hl; cbn. rewrite window_rows by nia. cbn.
  do 2 f_equal. nia.
Qed.

(** X20. For a limit of at least 1, the pages of a list endpoint that sends
    its rows as they are (GET /students, /courses, /payments) partition the
    result: the pages numbered 1 to [pages], one after the other, are
    exactly the matching rows in order; a page beyond [pages] is empty; and
    page [n] holds as many rows as the frontend announces with "Showing
    first to last of total". *)
Theorem pages_partition_rows {Row : Type} (where_ : Row → Prop)
    `{∀ r, Decision (where_ r)} (orderBy : list Row → list Row)
    (key failure : string) (table : list Row) (limit : option string)
    (l pages : Z) :
  parse_param 20 limit = Some l → 1 ≤ l →
  orderBy (filter where_ table) ≡ₚ filter where_ table →
  Js.ceil_div (Z.of_nat (length (filter where_ table))) (Some l) = Some pages →
  let fetch page :=
    page_data (list_rows where_ orderBy Some key failure table page limit) in
  let total := Z.of_nat (length (filter where_ table)) in
  (∀ numbers : list (option string),
     Z.of_nat (length numbers) = pages →
     (∀ (i : nat) page, numbers !! i = Some page →
                        parse_param 1 page = Some (Z.of_nat i + 1)) →
     concat (fetch <$> numbers) = orderBy (filter where_ table))
  ∧ (∀ page n, parse_param 1 page = Some n → pages < n → fetch page = [])
  ∧ (∀ page n, parse_param 1 page = Some n → 1 ≤ n ≤ pages →
       Z.of_nat (length (fetch page))
       = showing_last n l total - showing_first n l + 1).
Proof.
  intros Hl Hl1 Hperm Hceil fetch total.
  destruct (ceil_div_is_ceil total l Hl1) as (k & Hk & Hk1 & Hk2).
  unfold total in Hk. rewrite Hceil in Hk. injection Hk as <-.
  set (rows := orderBy (filter where_ table)) in *.
  assert (Z.of_nat (length rows) = total) as Hlen
    by (unfold total; by rewrite Hperm).
  assert (∀ page (i : nat), parse_param 1 page = Some (Z.of_nat i + 1) →
            fetch page = take (Z.to_nat l) (drop (i * Z.to_nat l)%nat rows)) as Hfetch.
  { intros page i Hpage. unfold fetch. by apply page_data_window. }
  split_and!.
  - intros numbers Hnum Hpages.
    assert (length rows ≤ length numbers * Z.to_nat l)%nat as Hfit.
    { apply Nat2Z.inj_le. rewrite Nat2Z.inj_mul, Z2Nat.id by lia. nia. }
    etrans; [|by apply (chunks_concat (Z.to_nat l) (length numbers) rows)].
    f_equal. apply list_eq. intros i. rewrite !list_lookup_fmap.
    destruct (numbers !! i) as [page|] eqn:Hi.
    + rewrite lookup_seq_lt by (by eapply lookup_lt_Some). cbn.
      f_equal. apply Hfetch. by apply Hpages.
    + rewrite lookup_seq_ge by (by apply lookup_ge_None). done.
  - intros page n Hpage Hn.
    assert (0 ≤ pages) as Hpages by nia.
    rewrite (Hfetch page (Z.to_nat (n - 1))) by (rewrite Hpage; f_equal; lia).
    rewrite drop_ge by nia. apply take_nil.
  - intros page n Hpage Hn.
    rewrite (Hfetch page (Z.to_nat (n - 1))) by (rewrite Hpage; f_equal; lia).
    rewrite length_take, length_drop.
    unfold showing_last, showing_first. nia.
Qed.

End Paging.

(** ** The composite creation, when it succeeds *)






(** X22. POST /students/full-create with a payment (amount, method and date
    present) but no course to enroll in and no enrollment id in the payment
    is always refused with 400, and nothing is kept: not the student
    either. *)
Theorem full_create_payment_needs_enrollment (db : DB) (req : FullCreateRequest)
    (student : option StudentPayload) (enrollment : option EnrollmentPayload)
    (pp : PaymentPayload) :
  fc_data req = Json student enrollment (Some pp) →
  Js.truthy (enrollment ≫= ep_courseId) = false →
  amount_truthy (pp_amount pp) = true →
  Js.truthy (pp_method pp) = true → Js.truthy (pp_date pp) = true →
  pp_enrollmentId pp = None →
  status (full_create db req).2 = 400%nat ∧ (full_create db req).1 = db.
Proof.
  intros Hdata Hcourse Hamount Hmethod Hdate Hid.
  unfold full_create. rewrite Hdata. case_match; [done|].
  match goal with
  | |- context [Prisma.transaction ?fn db] =>
      assert (∃ error, fn db = inl error) as [error Htx]
  end.
  { unfold full_create_tx.
    destruct (Prisma.student_findFirst_nric _ _); [by eexists|].
    destruct (lift (Prisma.student_create _ _ _ _ _ _ _ _)) as [err|[tx1 s]];
      [by eexists|].
    cbn [mbind option_bind fmap option_fmap option_map default from_option id].
    rewrite Hamount, Hmethod, Hdate, Hid. cbn [andb Js.or_else Js.truthy].
    destruct (enrollment ≫= ep_courseId) as [[|a k]|]; [|done|];
      (destruct (bool_decide (pp_applyTo pp = Some "enrollment"));
       cbn [fmap option_fmap option_map Js.truthy];
       (destruct (pp_amount pp); [done| |]);
       unfold Prisma.payment_create; cbn [lift]; by eexists). }
  rewrite (transaction_rolls_back _ _ _ Htx). cbn.
  by rewrite full_create_catch_400.
Qed.

(** ** The dashboard: revenue by month *)

Lemma obj_get_cons (k0 : string) (v0 : float) (o : list (string * float)) (k : string) :
  obj_get ((k0, v0) :: o) k = if decide (k0 = k) then Some v0 else obj_get o k.
Proof.
  unfold obj_get. rewrite filter_cons. cbn [fst]. by destruct (decide (k0 = k)).
Qed.

Lemma obj_get_None (o : list (string * float)) (k : string) :
  obj_get o k = None ↔ k ∉ o.*1.
Proof.
  induction o as [|[k0 v0] o IH]; [split; [intros _; apply not_elem_of_nil|done]|].
  rewrite obj_get_cons, fmap_cons, not_elem_of_cons. cbn [fst].
  destruct (decide (k0 = k)) as [->|Hne]; [split; [done|by intros [? _]]|].
  rewrite IH. split; [by intros ?; split|by intros [_ ?]].
Qed.

Lemma obj_get_replace (o : list (string * float)) (k k' : string) (v : float) :
  obj_get ((λ kv, if decide (kv.1 = k) then (k, v) else kv) <$> o) k'
  = if decide (k' = k) then (λ _, v) <$> obj_get o k else obj_get o k'.
Proof.
  induction o as [|[k0 v0] o IH]; [by destruct (decide (k' = k))|].
  rewrite fmap_cons. cbn [fst].
  destruct (decide (k0 = k)) as [->|Hne].
  - rewrite !obj_get_cons. rewrite (decide_True (P := k = k)) by done.
    destruct (decide (k = k')) as [<-|Hne'].
    + by rewrite decide_True.
    + rewrite IH. by rewrite !decide_False by congruence.
  - rewrite !obj_get_cons. rewrite IH.
    rewrite (decide_False (P := k0 = k)) by done.
    destruct (decide (k' = k)) as [->|Hne'].
    + by rewrite decide_False by congruence.
    + done.
Qed.

Lemma obj_get_app (o : list (string * float)) (k k' : string) (v : float) :
  obj_get (o ++ [(k, v)]) k'
  = match obj_get o k' with
    | Some x => Some x
    | None => if decide (k' = k) then Some v else None
    end.
Proof.
  induction o as [|[k0 v0] o IH].
  - cbn [app]. rewrite obj_get_cons. cbn.
    destruct (decide (k = k')), (decide (k' = k)); by simplify_eq.
  - rewrite <- app_comm_cons, !obj_get_cons. by destruct (decide (k0 = k')).
Qed.

Lemma obj_get_set (o : list (string * float)) (k k' : string) (v : float) :
  obj_get (obj_set o k v) k' = if decide (k' = k) then Some v else obj_get o k'.
Proof.
  unfold obj_set. case_bool_decide as Hk.
  - rewrite obj_get_replace. destruct Hk as [x ->]. done.
  - rewrite obj_get_app. apply eq_None_not_Some in Hk.
    destruct (decide (k' = k)) as [->|Hne]; [by rewrite Hk|by destruct (obj_get o k')].
Qed.

Lemma obj_set_keys (o : list (string * float)) (k : string) (v : float) :
  NoDup o.*1 → NoDup (obj_set o k v).*1.
Proof.
  intros Hnd. unfold obj_set. case_bool_decide as Hk.
  - rewrite <- list_fmap_compose.
    rewrite (list_fmap_ext _ fst o); [done|].
    intros _ [k0 v0] _. cbn. by destruct (decide (k0 = k)).
  - apply eq_None_not_Some, obj_get_None in Hk.
    rewrite fmap_app. apply NoDup_app. split_and!; [done| |apply NoDup_singleton].
    intros x Hx Hin. apply list_elem_of_singleton in Hin. by subst.
Qed.

Lemma obj_set_keys_app (o : list (string * float)) (k : string) (v : float) :
  (obj_set o k v).*1 = if bool_decide (k ∈ o.*1) then o.*1 else o.*1 ++ [k].
Proof.
  unfold obj_set. case_bool_decide as Hk.
  - rewrite bool_decide_eq_true_2; cycle 1.
    { destruct (decide (k ∈ o.*1)) as [|Hn]; [done|].
      apply obj_get_None in Hn. rewrite Hn in Hk. by destruct Hk. }
    rewrite <- list_fmap_compose. apply list_fmap_ext.
    intros _ [k0 v0] _. cbn. by destruct (decide (k0 = k)).
  - apply eq_None_not_Some, obj_get_None in Hk.
    rewrite bool_decide_eq_false_2 by done. by rewrite fmap_app.
Qed.

Lemma filter_none_nil {A} (P : A → Prop) `{∀ x, Decision (P x)} (l : list A) :
  (∀ x, x ∈ l → ¬ P x) → filter P l = [].
Proof.
  induction l as [|x l IH]; [done|]. intros Hl.
  rewrite filter_cons, decide_False by (apply Hl; by left).
  apply IH. intros y Hy. apply Hl. by right.
Qed.

(** One row read into the map: the entry of its month becomes the old
    entry, or 0 when that is absent or falsy, plus the amount of the row. *)
Lemma month_step_get (month_of : JsDate → string) (o : list (string * float))
    (g : JsDate * Z) (k : string) :
  obj_get (month_step month_of o g) k
  = if decide (k = month_of g.1)
    then Some (match obj_get o (month_of g.1) with
               | Some v => if Js.number_truthy v then v else 0
               | None => 0
               end + Js.parseFloat g.2)%float
    else obj_get o k.
Proof.
  unfold month_step. cbv zeta. rewrite obj_get_set.
  destruct (decide (k = month_of g.1)) as [->|Hne].
  - f_equal. f_equal. destruct (obj_get o (month_of g.1)) as [n|] eqn:Hget; cbn.
    + destruct (Js.number_truthy n) eqn:Hn; cbn; [by rewrite Hget|].
      by rewrite obj_get_set, decide_True.
    + by rewrite obj_get_set, decide_True.
  - destruct (entry_falsy _); [|done]. by rewrite obj_get_set, decide_False.
Qed.

Lemma month_step_keys (month_of : JsDate → string) (o : list (string * float))
    (g : JsDate * Z) :
  NoDup o.*1 → NoDup (month_step month_of o g).*1.
Proof.
  intros Hnd. unfold month_step. cbv zeta. apply obj_set_keys.
  destruct (entry_falsy _); [by apply obj_set_keys|done].
Qed.

(** X23. The revenue by month of the dashboard, for any rows of the
    [groupBy] query: every month appears once; a month has an entry exactly
    when some row falls in it, and its amount is what the rows of that
    month, taken in the order of the query, add up to in binary64: from 0,
    each row adds its amount to the entry so far, or to 0 when the entry so
    far is zero or NaN. *)
Theorem monthly_revenue_grouping (month_of : JsDate → string)
    (monthlyRevenue : list (JsDate * Z)) :
  let data := monthlyRevenueData month_of monthlyRevenue in
  NoDup data.*1
  ∧ (∀ month,
       obj_get data month
       = if bool_decide (month ∈ (λ g, month_of g.1) <$> monthlyRevenue)
         then Some (foldl (λ entry amount,
                             ((if Js.number_truthy entry then entry else 0)
                              + Js.parseFloat amount)%float)
                      0%float (filter (λ g, month_of g.1 = month) monthlyRevenue).*2)
         else None).
Proof.
  cbv zeta. unfold monthlyRevenueData.
  induction monthlyRevenue as [|g groups IH] using rev_ind.
  { cbn. split; [apply NoDup_nil_2|done]. }
  destruct IH as (Hnd & Hget).
  rewrite foldl_app. cbn [foldl].
  split.
  - by apply month_step_keys.
  - intros month. rewrite month_step_get, (Hget (month_of g.1)).
    rewrite fmap_app, filter_app, fmap_app. cbn [fmap list_fmap].
    rewrite filter_cons, filter_nil.
    destruct (decide (month = month_of g.1)) as [->|Hne].
    + rewrite decide_True by done.
      rewrite (bool_decide_eq_true_2 (_ ∈ _ ++ _)); cycle 1.
      { apply elem_of_app. right. by apply list_elem_of_singleton. }
      cbn [fmap list_fmap]. rewrite foldl_app. cbn [foldl snd]. f_equal.
      case_bool_decide as Hin; [done|].
      rewrite filter_none_nil; [done|].
      intros x Hx Hm. apply Hin.
      apply list_elem_of_fmap. by exists x.
    + rewrite decide_False by done. cbn [fmap list_fmap]. rewrite app_nil_r.
      rewrite (Hget month).
      apply (f_equal (λ b : bool, if b then _ else _)).
      apply bool_decide_ext. rewrite elem_of_app, list_elem_of_singleton.
      split; [by left|by intros [?|?]].
Qed.

(** ** The pages of the frontend against the API *)






(** X25. The badge of a student in the student list: "Active" exactly when
    some enrollment is ACTIVE, whatever the others are; "Completed" exactly
    when none is ACTIVE and some is COMPLETED; "Inactive" exactly when the
    student has enrollments and all are cancelled or suspended. *)
Theorem students_badge_characterised (enrollments : list EnrollmentView) :
  (students_getStatusBadge enrollments = BadgeNoEnrollments ↔ enrollments = [])
  ∧ (students_getStatusBadge enrollments = BadgeActive
     ↔ Exists (λ e, ev_status e = ACTIVE) enrollments)
  ∧ (students_getStatusBadge enrollments = BadgeCompleted
     ↔ ¬ Exists (λ e, ev_status e = ACTIVE) enrollments
       ∧ Exists (λ e, ev_status e = COMPLETED) enrollments)
  ∧ (students_getStatusBadge enrollments = BadgeInactive
     ↔ enrollments ≠ []
       ∧ Forall (λ e, ev_status e = CANCELLED ∨ ev_status e = SUSPENDED) enrollments).
Proof.
  assert (∀ (P : EnrollmentView → Prop) `{∀ e, Decision (P e)},
            (0 < length (filter P enrollments))%nat ↔ Exists P enrollments) as Hex.
  { intros P ?. rewrite Exists_exists. split.
    - destruct (filter P enrollments) as [|x l] eqn:Hf; [cbn; lia|]. intros _.
      assert (x ∈ filter P enrollments) as Hx by (rewrite Hf; by left).
      apply list_elem_of_filter in Hx as [HP Hin]. by exists x.
    - intros (x & Hx & HP). by apply (filter_nonempty _ _ x). }
  unfold students_getStatusBadge.
  destruct enrollments as [|e l] eqn:Hl.
  { cbn. split_and!; try (split; [done|]).
    - done.
    - by intros H%Exists_nil.
    - by intros [_ H%Exists_nil].
    - by intros [? _]. }
  rewrite <- Hl in *. rewrite (bool_decide_eq_false_2 (length _ = 0%nat)) by (by subst).
  assert (enrollments ≠ []) as Hne by (by subst). clear Hl.
  case_bool_decide as Ha; [|case_bool_decide as Hc]; rewrite ?Hex in *.
  - split_and!; split; try done.
    + by intros [? _].
    + intros [_ Hall]. exfalso. apply Exists_exists in Ha as (x & Hx & Hs).
      rewrite Forall_forall in Hall. destruct (Hall x Hx); congruence.
  - split_and!; split; try done.
    intros [_ Hall]. exfalso. apply Exists_exists in Hc as (x & Hx & Hs).
    rewrite Forall_forall in Hall. destruct (Hall x Hx); congruence.
  - split_and!; split; try done.
    + by intros [_ ?].
    + intros _. split; [done|]. apply Forall_forall. intros x Hx.
      destruct (ev_status x) eqn:Hs; try (by left); try (by right).
      * exfalso. apply Ha. apply Exists_exists. by exists x.
      * exfalso. apply Hc. apply Exists_exists. by exists x.
Qed.

End Routes.

Arguments ListJson {Row} _ _ _.
Arguments ListError {Row} _.

(* ===================================================================== *)
(** * The properties on the example database *)
(* ===================================================================== *)

Lemma demo_window_valid (A : Type) (skip take_ : Z) (rows : list A) :
  0 ≤ skip → 0 ≤ take_ →
  demo_window A (Some skip) (Some take_) rows
  = Some (take (Z.to_nat take_) (drop (Z.to_nat skip) rows)).
Proof.
  intros Hs Ht. unfold demo_window. by rewrite bool_decide_eq_true_2.
Defined.

Lemma demo_db_no_dangling : no_dangling demo_db.
Proof.
  split.
  - intros e He. apply list_elem_of_singleton in He as ->. by eexists.
  - intros p Hp. apply list_elem_of_singleton in Hp as ->. by eexists.
Defined.

(** C1 fails as stated: with a price of 0.80 and payments of 0.10 and 0.70
    the amounts add up to the price, so that by the formula on the amounts
    the total paid is 0.80, nothing is outstanding and the enrollment is
    fully paid; the code finds a total below 0.80, an outstanding amount
    above zero and an enrollment that is not fully paid, at each of its
    call sites. *)
Lemma balance_differs_from_the_sum :
  sum_amounts (amounts_of (ef_payments demo_full_cents))
  = course_price (ef_course demo_full_cents)
  ∧ exact_status demo_full_cents
    = {| totalPaid := Js.parseFloat 80; outstanding := 0; isFullyPaid := true |}
  ∧ (totalPaid (enrollmentWithPaymentStatus demo_full_cents).2
     <? Js.parseFloat 80)%float = true
  ∧ (0 <? outstanding (enrollmentWithPaymentStatus demo_full_cents).2)%float = true
  ∧ isFullyPaid (enrollmentWithPaymentStatus demo_full_cents).2 = false
  ∧ (enrollmentWithPaymentStatus demo_full_cents).2 ≠ exact_status demo_full_cents
  ∧ snd <$> enrollmentsWithPaymentStatus [demo_full_cents]
    ≠ [exact_status demo_full_cents]
  ∧ status_of_item <$> summary [demo_full_cents] ≠ [exact_status demo_full_cents]
  ∧ outstandingAmount [demo_full_cents] ≠ 0%float.
Proof.
  split_and!; try (vm_compute; reflexivity).
  - intros H. apply (f_equal isFullyPaid) in H. vm_compute in H. discriminate H.
  - intros H. apply (f_equal (fmap isFullyPaid)) in H. vm_compute in H. discriminate H.
  - intros H. apply (f_equal (fmap isFullyPaid)) in H. vm_compute in H. discriminate H.
  - intros H. apply (f_equal (λ x, (x =? 0)%float)) in H. vm_compute in H.
    discriminate H.
Qed.

(** C2: a payment of 700.00 on top of 400.00 against a price of 1000.00. *)
Lemma payment_exceeding_price_rejected_witness :
  (Js.parseFloat (course_price demo_course)
   <? totalPaid_of demo_db "e1" + Js.parseFloat 70000)%float = true
  ∧ status (post_payment demo_isISO8601 demo_toDecimal demo_db
              (demo_body 70000 "2024-03-01")).2 = 400%nat
  ∧ (post_payment demo_isISO8601 demo_toDecimal demo_db
       (demo_body 70000 "2024-03-01")).1 = demo_db.
Proof.
  split; [vm_compute; reflexivity|].
  pose proof (proj1 (payment_exceeding_price_rejected demo_isISO8601 demo_toDecimal)
                demo_db (demo_body 70000 "2024-03-01") demo_enrollment demo_course
                eq_refl eq_refl ltac:(vm_compute; reflexivity)) as (H1 & H2 & _).
  exact (conj H1 H2).
Defined.

(** C2 fails as stated: with 99.99 paid of 100.00, a request for
    0.010000000000001 exceeds the price by its amount, yet it is answered
    201 and its payment is stored. *)
Lemma payment_exceeding_price_accepted :
  let db := demo_db_with 10000 9999 in
  let b := demo_body_numeral 10000000000001 1000000000000000 "2024-03-01" in
  let out := post_payment demo_isISO8601 demo_toDecimal db b in
  Prisma.enrollment_findUnique db (pb_enrollmentId b) = Some demo_enrollment
  ∧ Prisma.course_findUnique db (enrollment_courseId demo_enrollment)
    = Some (demo_course_priced 10000)
  ∧ pb_amount b = Js.quotient 10000000000001 1000000000000000
  ∧ exceeds (paid db (pb_enrollmentId b)) 10000000000001 1000000000000000
      (course_price (demo_course_priced 10000))
  ∧ status out.2 = 201%nat
  ∧ length (Prisma.payment_findMany_enrollment db "e1") = 1%nat
  ∧ length (Prisma.payment_findMany_enrollment out.1 "e1") = 2%nat.
Proof. vm_compute. by split_and!. Qed.

(** C3: the example of the specification, 400.00 paid, then 600.00. *)
Lemma payment_reaching_price_completes_witness :
  status (post_payment demo_isISO8601 demo_toDecimal demo_db
            (demo_body 60000 "2024-03-01")).2 = 201%nat
  ∧ (Js.parseFloat (course_price demo_course)
     <=? totalPaid_of demo_db "e1" + Js.parseFloat 60000)%float = true
  ∧ ∃ e', Prisma.enrollment_findUnique
            (post_payment demo_isISO8601 demo_toDecimal demo_db
               (demo_body 60000 "2024-03-01")).1 "e1"
          = Some e'
          ∧ enrollment_status e' = COMPLETED.
Proof.
  split; [vm_compute; reflexivity|]. split; [vm_compute; reflexivity|].
  apply (proj1 (payment_reaching_price_completes demo_isISO8601 demo_toDecimal)
           demo_db _ (demo_body 60000 "2024-03-01") _ demo_enrollment demo_course
           (surjective_pairing _)).
  - vm_compute; reflexivity.
  - reflexivity.
  - reflexivity.
  - vm_compute; reflexivity.
Defined.

(** C3 fails as stated: with a price of 0.80 and 0.10 paid, a payment of
    0.70 is accepted and brings the total recorded to the price, and the
    enrollment stays ACTIVE. *)
Lemma payment_reaching_price_stays_active :
  let db := demo_db_with 80 10 in
  let b := demo_body 70 "2024-03-01" in
  let out := post_payment demo_isISO8601 demo_toDecimal db b in
  paid db "e1" + 70 = course_price (demo_course_priced 80)
  ∧ status out.2 = 201%nat
  ∧ paid out.1 "e1" = course_price (demo_course_priced 80)
  ∧ Prisma.course_findUnique out.1 "k1" = Some (demo_course_priced 80)
  ∧ Prisma.enrollment_findUnique out.1 "e1" = Some demo_enrollment
  ∧ enrollment_status demo_enrollment = ACTIVE.
Proof. vm_compute. by split_and!. Qed.

(** After the payment that completes it, the enrollment takes no more. *)
Lemma payment_for_inactive_enrollment_rejected_witness :
  let db' := (post_payment demo_isISO8601 demo_toDecimal demo_db (demo_body 60000 "2024-03-01")).1 in
  enrollment_status <$> Prisma.enrollment_findUnique db' "e1" = Some COMPLETED
  ∧ status (post_payment demo_isISO8601 demo_toDecimal db' (demo_body 100 "2024-03-02")).2 = 400%nat
  ∧ (post_payment demo_isISO8601 demo_toDecimal db' (demo_body 100 "2024-03-02")).1 = db'.
Proof.
  intros db'. split; [vm_compute; reflexivity|].
  pose proof (payment_for_inactive_enrollment_rejected demo_isISO8601 demo_toDecimal db'
                (demo_body 100 "2024-03-02")
                {| enrollment_id := "e1"; enrollment_studentId := "s1";
                   enrollment_courseId := "k1"; enrollment_batch := Some "Batch 2024-01";
                   enrollment_startDate := DateOf "2024-01-15";
                   enrollment_endDate := None; enrollment_status := COMPLETED |}
                ltac:(vm_compute; reflexivity) ltac:(discriminate)) as (H1 & H2 & _).
  exact (conj H1 H2).
Defined.

Lemma put_payment_overshoots_witness :
  demo_isISO8601 "2024-03-01" = true
  ∧ demo_toDecimal (Js.parseFloat 500000) = 500000
  ∧ status (put_payment demo_isISO8601 demo_toDecimal demo_db "p1"
              (demo_body 500000 "2024-03-01")).2
    = 200%nat
  ∧ paid (put_payment demo_isISO8601 demo_toDecimal demo_db "p1"
            (demo_body 500000 "2024-03-01")).1 "e1"
    = 500000.
Proof.
  split; [reflexivity|]. split; [vm_compute; reflexivity|].
  destruct (put_payment_overshoots demo_isISO8601 demo_toDecimal "2024-03-01" eq_refl
              ltac:(vm_compute; reflexivity))
    as (_ & db' & p & -> & _ & _ & Hpaid & _).
  exact (conj eq_refl Hpaid).
Defined.

Lemma concurrent_payments_overshoot_witness :
  demo_isISO8601 "2024-03-01" = true
  ∧ demo_toDecimal (Js.parseFloat 60000) = 60000
  ∧ ∃ (db db' : DB) (b1 b2 : PaymentBody) (schedule : list Turn) (p1 p2 : Payment)
      (c : Course),
      race demo_isISO8601 demo_toDecimal b1 b2 db schedule
      = (db', Finished (reply 201%nat (PaymentJson p1)),
              Finished (reply 201%nat (PaymentJson p2)))
      ∧ paid db' (pb_enrollmentId b1) > course_price c.
Proof.
  split; [reflexivity|]. split; [vm_compute; reflexivity|].
  destruct (concurrent_payments_overshoot demo_isISO8601 demo_toDecimal "2024-03-01"
              eq_refl ltac:(vm_compute; reflexivity))
    as (db & db' & b1 & b2 & schedule & p1 & p2 & e & c & H).
  destruct H as (_ & _ & _ & _ & _ & _ & _ & Hrace & _ & _ & _ & Hover & _).
  exists db, db', b1, b2, schedule, p1, p2, c. exact (conj Hrace Hover).
Defined.



Lemma demo_csv_good_valid : csv_valid demo_csv_good.
Proof.
  exists "John Doe", "john@example.com", "1234567890".
  split_and!; try reflexivity; try discriminate; vm_compute; lia.
Defined.

Lemma csv_preview_one_valid_one_missing_email_witness :
  csv_valid demo_csv_good ∧ csv_missing_email demo_csv_bad
  ∧ ∃ pv, csv_preview demo_db (CsvFile [demo_csv_good; demo_csv_bad])
          = (demo_db, reply 200%nat (PreviewJson pv))
          ∧ pv_validRows pv = 1%nat ∧ pv_errorRows pv = 1%nat.
Proof.
  split; [exact demo_csv_good_valid|]. split; [right; reflexivity|].
  destruct (csv_preview_one_valid_one_missing_email demo_db demo_csv_good demo_csv_bad
              [demo_csv_good; demo_csv_bad] demo_csv_good_valid
              (or_intror eq_refl) (or_introl eq_refl))
    as (pv & H & Hv & He & _).
  exists pv. exact (conj H (conj Hv He)).
Defined.

Lemma guarded_deletes_witness :
  (∃ e, e ∈ enrollments demo_db ∧ enrollment_courseId e = "k1")
  ∧ (∃ p, p ∈ payments demo_db ∧ payment_enrollmentId p = "e1")
  ∧ no_dangling demo_db
  ∧ (delete_course demo_db "k1").1 = demo_db
  ∧ (delete_enrollment demo_db "e1").1 = demo_db
  ∧ no_dangling (delete_course demo_db "k1").1.
Proof.
  assert (∃ e, e ∈ enrollments demo_db ∧ enrollment_courseId e = "k1") as He
    by (exists demo_enrollment; split; [left|reflexivity]).
  assert (∃ p, p ∈ payments demo_db ∧ payment_enrollmentId p = "e1") as Hp
    by (exists demo_payment; split; [left|reflexivity]).
  pose proof (guarded_deletes demo_db "k1") as (Hc & _ & Hk).
  pose proof (guarded_deletes demo_db "e1") as (_ & Hen & _).
  split_and!; [exact He|exact Hp|exact demo_db_no_dangling|
               exact (proj2 (Hc He))|exact (proj2 (Hen Hp))|
               exact (proj1 (Hk demo_db_no_dangling))].
Defined.

(** C4: the payment is refused after the student and the enrollment were
    created inside the transaction; nothing is kept. *)
Lemma full_create_all_or_nothing_witness :
  (∃ tx1 student tx2 enrollment error,
     tx_student demo_new_student
       ["/uploads/student-docs/1706745600000-1-passport.pdf"] demo_db
     = inr (tx1, student)
     ∧ tx_enrollment (Some demo_new_enrollment) tx1 student = inr (tx2, Some enrollment)
     ∧ student ∈ students tx2 ∧ enrollment ∈ enrollments tx2
     ∧ tx_payment (Some demo_bad_payment) tx2 student (Some enrollment) = inl error)
  ∧ status (full_create demo_db demo_full_create).2 = 400%nat
  ∧ (full_create demo_db demo_full_create).1 = demo_db.
Proof.
  assert (∃ tx1 student tx2 enrollment error,
            tx_student demo_new_student
       ["/uploads/student-docs/1706745600000-1-passport.pdf"] demo_db
     = inr (tx1, student)
            ∧ tx_enrollment (Some demo_new_enrollment) tx1 student
              = inr (tx2, Some enrollment)
            ∧ student ∈ students tx2 ∧ enrollment ∈ enrollments tx2
            ∧ tx_payment (Some demo_bad_payment) tx2 student (Some enrollment)
              = inl error) as Hsteps.
  { eexists _, _, _, _, _. split; [vm_compute; reflexivity|].
    split; [vm_compute; reflexivity|].
    split; [right; left|]. split; [right; left|]. vm_compute; reflexivity. }
  split; [exact Hsteps|].
  destruct Hsteps as (tx1 & student & tx2 & enrollment & error & H1 & H2 & _ & _ & H3).
  assert (status (full_create demo_db demo_full_create).2 = 400%nat
          ∧ (full_create demo_db demo_full_create).1 = demo_db
          ∧ students (full_create demo_db demo_full_create).1 = students demo_db
          ∧ enrollments (full_create demo_db demo_full_create).1 = enrollments demo_db
          ∧ payments (full_create demo_db demo_full_create).1 = payments demo_db)
    as (Hst & Hdb & _).
  { apply (proj2 (full_create_all_or_nothing demo_db demo_full_create)
             demo_new_student (Some demo_new_enrollment) (Some demo_bad_payment)
             eq_refl).
    right. right. right. exists tx1, student, tx2, (Some enrollment), error.
    exact (conj H1 (conj H2 H3)). }
  exact (conj Hst Hdb).
Defined.

(** Without the payment the same request is accepted and adds the student
    and the enrollment. *)
Example full_create_unpaid_commits :
  status (full_create demo_db demo_full_create_unpaid).2 = 201%nat
  ∧ student_email <$> students (full_create demo_db demo_full_create_unpaid).1
    = ["ada@example.com"; "ben@example.com"]
  ∧ enrollment_studentId <$> enrollments (full_create demo_db demo_full_create_unpaid).1
    = ["s1"; "c4"]
  ∧ payments (full_create demo_db demo_full_create_unpaid).1 = payments demo_db.
Proof. vm_compute. done. Qed.

(** The composite creation can fail at each of its steps, and keeps nothing
    when it does. *)
Example full_create_fails_at_each_step :
  full_create demo_db demo_taken_nric
  = (demo_db,
     reply 400%nat
       (CreateError "NRIC/Passport ID already exists. Please use a different ID."))
  ∧ full_create demo_db demo_taken_email
    = (demo_db,
       reply 400%nat
         (CreateError "Email address already exists. Please use a different email."))
  ∧ full_create demo_db demo_unknown_course
    = (demo_db,
       reply 400%nat (CreateError "Foreign key constraint failed on the field: courseId"))
  ∧ full_create demo_db demo_full_create
    = (demo_db, reply 400%nat (CreateError "Invalid value for argument `method`")).
Proof. vm_compute. done. Qed.

(** ** The primitives on sample inputs *)

Example parseInt_samples :
  Js.parseInt "2" = Some 2 ∧ Js.parseInt "  42px" = Some 42
  ∧ Js.parseInt "-7" = Some (-7) ∧ Js.parseInt "0x1F" = Some 31
  ∧ Js.parseInt "" = None ∧ Js.parseInt "abc" = None
  ∧ Js.ceil_div 41 (Some 20) = Some 3 ∧ Js.ceil_div 40 (Some 20) = Some 2
  ∧ Js.ceil_div 0 (Some 20) = Some 0 ∧ Js.ceil_div 41 (Some 0) = None
  ∧ Js.ceil_div 41 None = None.
Proof. vm_compute. done. Qed.

Example text_samples :
  Js.trim "  John Doe " = "John Doe"
  ∧ Js.toLowerCase "John@Example.COM" = "john@example.com"
  ∧ Js.includes "john@example.com" "@" = true
  ∧ Js.includes "john.example.com" "@" = false
  ∧ Js.contains "[DecimalError] Invalid argument" "Decimal" = true
  ∧ Js.truthy (Some "") = false ∧ Js.truthy None = false.
Proof. vm_compute. done. Qed.

(** The CSV example row by row: the second row is reported against the
    count of valid rows so far plus one. *)
Example parseCSV_sample :
  cs_email <$> (parseCSV [demo_csv_good; demo_csv_bad]).1 = ["john@example.com"]
  ∧ (λ e, (ce_row e, ce_error e)) <$> (parseCSV [demo_csv_good; demo_csv_bad]).2
    = [(2%nat, "Missing required fields (name, email, phone)")].
Proof. vm_compute. done. Qed.

(** ** The further properties on the example database *)


(** X4: 600.00 completes the enrollment; one more cent is turned down. *)
Lemma completed_by_payment_then_closed_witness :
  let db' := (post_payment demo_isISO8601 demo_toDecimal demo_db (demo_body 60000 "2024-03-01")).1 in
  status (post_payment demo_isISO8601 demo_toDecimal demo_db (demo_body 60000 "2024-03-01")).2 = 201%nat
  ∧ (post_payment demo_isISO8601 demo_toDecimal db' (demo_body 1 "2024-03-02")).1 = db'
  ∧ status (post_payment demo_isISO8601 demo_toDecimal db' (demo_body 1 "2024-03-02")).2 = 400%nat.
Proof.
  intros db'. split; [vm_compute; reflexivity|].
  destruct (completed_by_payment_then_closed demo_isISO8601 demo_toDecimal demo_db db'
              (demo_body 60000 "2024-03-01") (demo_body 1 "2024-03-02") _
              demo_enrollment demo_course (surjective_pairing _)
              ltac:(vm_compute; reflexivity) ltac:(vm_compute; reflexivity)
              ltac:(vm_compute; reflexivity) ltac:(vm_compute; reflexivity) eq_refl)
    as [Hdb Hst].
  split; [|exact Hst]. exact (f_equal fst Hdb).
Defined.

(** X5: an update of the payment of the example database. *)
Lemma put_payment_frame_witness :
  let out := put_payment demo_isISO8601 demo_toDecimal demo_db "p1" (demo_body 50000 "2024-03-01") in
  status out.2 = 200%nat
  ∧ enrollments out.1 = enrollments demo_db
  ∧ payment_id <$> payments out.1 = payment_id <$> payments demo_db
  ∧ payment_amount <$> Prisma.payment_findUnique out.1 "p1" = Some 50000.
Proof.
  intros out.
  assert (status out.2 = 200%nat) as Hst by (vm_compute; reflexivity).
  destruct (put_payment_frame demo_isISO8601 demo_toDecimal demo_db out.1 "p1"
              (demo_body 50000 "2024-03-01") out.2 (surjective_pairing _))
    as (_ & _ & He & Hids & Hok).
  destruct (Hok Hst) as (p & _ & Hfind & _ & _ & _ & Ha & _).
  split; [exact Hst|]. split; [exact He|]. split; [exact Hids|].
  rewrite Hfind. exact (f_equal Some Ha).
Defined.

(** X6: deleting the payment of the example database, and an unknown id. *)
Lemma delete_payment_effect_witness :
  Prisma.payment_findUnique demo_db "p9" = None
  ∧ delete_payment demo_db "p9"
    = (demo_db, reply 404%nat (DeleteError "Payment not found"))
  ∧ is_Some (Prisma.payment_findUnique demo_db "p1")
  ∧ status (delete_payment demo_db "p1").2 = 200%nat
  ∧ Prisma.payment_findUnique (delete_payment demo_db "p1").1 "p1" = None.
Proof.
  assert (Prisma.payment_findUnique demo_db "p9" = None) as Hnone by reflexivity.
  assert (is_Some (Prisma.payment_findUnique demo_db "p1")) as Hsome by (by eexists).
  split; [exact Hnone|].
  split; [exact (proj1 (delete_payment_effect demo_isISO8601 demo_toDecimal demo_db "p9") Hnone)|].
  split; [exact Hsome|].
  destruct (proj1 (proj2 (delete_payment_effect demo_isISO8601 demo_toDecimal demo_db "p1")) Hsome) as (Hst & Hgone & _).
  exact (conj Hst Hgone).
Defined.

(** X7: the summary of the student of the example database. *)
Lemma student_summary_characterised_witness :
  ∃ items totals,
    body (get_student_summary demo_db "s1") = SummaryOk "s1" items totals
    ∧ Forall2 (λ e i, si_enrollmentId i = enrollment_id e
                      ∧ si_totalPaid i = totalPaid_of demo_db (enrollment_id e))
        [demo_enrollment] items
    ∧ totals_outstanding totals = sum_doubles 0 (si_outstanding <$> items)
    ∧ (totals_outstanding totals <? 0)%float = false.
Proof.
  eexists _, _. split; [vm_compute; reflexivity|].
  destruct (student_summary_characterised demo_db "s1" "s1" _ _
              ltac:(vm_compute; reflexivity))
    as (_ & Hitems & _ & Hout & Hpos).
  split; [|exact (conj Hout Hpos)].
  eapply Forall2_impl; [exact Hitems|].
  intros e i (Hid & _ & Hpaid & _). exact (conj Hid Hpaid).
Defined.

(** X8: the overview of the example database. *)
Lemma dashboard_overview_characterised_witness :
  ∃ ov, dashboard_overview demo_db = Some ov
        ∧ (ov_outstandingAmount ov <? 0)%float = false
        ∧ ov_totalRevenue ov = sum_amounts (amounts_of (payments demo_db)).
Proof.
  eexists. split; [vm_compute; reflexivity|].
  destruct (dashboard_overview_characterised demo_db _ ltac:(vm_compute; reflexivity))
    as (_ & Hpos & Hrev & _).
  exact (conj Hpos Hrev).
Defined.

(** X9: the student of the example database enrolls in the second course. *)
Lemma accepted_enrollment_effect_witness :
  status (post_enrollment demo_isISO8601 demo_db2 (demo_enrollment_body "k2")).2 = 201%nat
  ∧ (∃ e, enrollments (post_enrollment demo_isISO8601 demo_db2
                         (demo_enrollment_body "k2")).1
          = enrollments demo_db2 ++ [e]
          ∧ enrollment_courseId e = "k2")
  ∧ status (post_enrollment demo_isISO8601 demo_db2 (demo_enrollment_body "k1")).2
    ≠ 201%nat
  ∧ (post_enrollment demo_isISO8601 demo_db2 (demo_enrollment_body "k1")).1 = demo_db2.
Proof.
  assert (status (post_enrollment demo_isISO8601 demo_db2
                    (demo_enrollment_body "k2")).2 = 201%nat) as Hok
    by (vm_compute; reflexivity).
  assert (status (post_enrollment demo_isISO8601 demo_db2
                    (demo_enrollment_body "k1")).2 ≠ 201%nat) as Hno
    by (vm_compute; discriminate).
  split; [exact Hok|].
  destruct (proj2 (accepted_enrollment_effect demo_isISO8601 demo_db2
                     (demo_enrollment_body "k2")) Hok)
    as (e & c & _ & He & _ & _ & _ & _ & Hc & _).
  split; [exists e; exact (conj He Hc)|].
  split; [exact Hno|].
  exact (proj1 (accepted_enrollment_effect demo_isISO8601 demo_db2
                  (demo_enrollment_body "k1")) Hno).
Defined.

Lemma demo_db2_unique_active : unique_active demo_db2.
Proof. apply NoDup_singleton. Defined.

(** X10: both the accepted and the refused request keep the pairs apart. *)
Lemma post_enrollment_keeps_unique_active_witness :
  unique_active demo_db2
  ∧ unique_active (post_enrollment demo_isISO8601 demo_db2 (demo_enrollment_body "k2")).1
  ∧ unique_active (post_enrollment demo_isISO8601 demo_db2 (demo_enrollment_body "k1")).1.
Proof.
  split; [exact demo_db2_unique_active|]. split.
  - exact (post_enrollment_keeps_unique_active demo_isISO8601 demo_db2
             (demo_enrollment_body "k2") demo_db2_unique_active).
  - exact (post_enrollment_keeps_unique_active demo_isISO8601 demo_db2
             (demo_enrollment_body "k1") demo_db2_unique_active).
Defined.

(** X11: suspending the enrollment of the example database; an unknown
    status; an unknown enrollment. *)
Lemma patch_enrollment_status_effect_witness :
  patch_enrollment_status demo_db "e1" (Some "PAUSED")
  = (demo_db, reply 400%nat (EnrollmentError "Invalid status"))
  ∧ patch_enrollment_status demo_db "e9" (Some "SUSPENDED")
    = (demo_db, reply 404%nat (EnrollmentError "Enrollment not found"))
  ∧ (patch_enrollment_status demo_db "e1" (Some "SUSPENDED")).2
    = reply 200%nat (EnrollmentJson (with_status SUSPENDED demo_enrollment))
  ∧ payments (patch_enrollment_status demo_db "e1" (Some "SUSPENDED")).1
    = payments demo_db.
Proof.
  split.
  { exact (proj1 (patch_enrollment_status_effect demo_db "e1" (Some "PAUSED")) eq_refl). }
  split.
  { exact (proj1 (proj2 (patch_enrollment_status_effect demo_db "e9" (Some "SUSPENDED"))
                    SUSPENDED eq_refl) eq_refl). }
  destruct (proj2 (proj2 (patch_enrollment_status_effect demo_db "e1" (Some "SUSPENDED"))
                     SUSPENDED eq_refl) demo_enrollment eq_refl)
    as (Hr & _ & _ & Hp & _).
  exact (conj Hr Hp).
Defined.

(** X12: moving the enrollment of the example database to the second
    course. *)
Lemma put_enrollment_effect_witness :
  let out := put_enrollment demo_isISO8601 demo_db2 "e1" (demo_enrollment_body "k2") in
  status out.2 = 200%nat
  ∧ payments out.1 = payments demo_db2
  ∧ enrollment_id <$> enrollments out.1 = enrollment_id <$> enrollments demo_db2
  ∧ ∃ e', Prisma.enrollment_findUnique out.1 "e1" = Some e'
          ∧ enrollment_courseId e' = "k2"
          ∧ enrollment_status e' = ACTIVE.
Proof.
  intros out.
  assert (status out.2 = 200%nat) as Hst by (vm_compute; reflexivity).
  destruct (put_enrollment_effect demo_isISO8601 demo_db2 out.1 "e1"
              (demo_enrollment_body "k2") out.2 (surjective_pairing _))
    as (Hp & _ & _ & Hids & Hok).
  destruct (Hok Hst) as (existing & e' & c & Hex & _ & Hfind & _ & Hc & _ & _ & Hkeep & _).
  split; [exact Hst|]. split; [exact Hp|]. split; [exact Hids|].
  exists e'. split; [exact Hfind|]. split; [exact Hc|].
  rewrite (Hkeep eq_refl).
  assert (existing = demo_enrollment) as ->
    by (apply (inj Some); rewrite <- Hex; reflexivity).
  reflexivity.
Defined.

(** X13: a new course is stored with its name trimmed; a name that differs
    from an existing one only in case is refused. *)
Lemma post_course_effect_witness :
  status (post_course demo_clash demo_db (demo_course_body "  Data Science ")).2 = 201%nat
  ∧ (∃ c, courses (post_course demo_clash demo_db (demo_course_body "  Data Science ")).1
          = courses demo_db ++ [c]
          ∧ course_name c = "Data Science")
  ∧ post_course demo_clash demo_db (demo_course_body "web development")
    = (demo_db, reply 400%nat (CourseError "Course name already exists")).
Proof.
  assert (status (post_course demo_clash demo_db
                    (demo_course_body "  Data Science ")).2 = 201%nat) as Hok
    by (vm_compute; reflexivity).
  split; [exact Hok|].
  destruct (proj1 (proj2 (proj2 (post_course_effect demo_clash demo_db
                                   (demo_course_body "  Data Science ")))) Hok)
    as (c & _ & Hc & _ & Hname & _).
  split; [exists c; split; [exact Hc|rewrite Hname; vm_compute; reflexivity]|].
  apply (proj1 (post_course_effect demo_clash demo_db (demo_course_body "web development"))).
  - vm_compute. reflexivity.
  - exists demo_course. split; [by left|vm_compute; reflexivity].
Defined.

(** X14: toggling the course of the example database twice. *)
Lemma toggle_course_effect_witness :
  toggle_course demo_db "k9" = (demo_db, reply 404%nat (CourseError "Course not found"))
  ∧ (toggle_course demo_db "k1").2
    = reply 200%nat (CourseJson (with_isActive false demo_course))
  ∧ Prisma.course_findUnique (toggle_course (toggle_course demo_db "k1").1 "k1").1 "k1"
    = Some demo_course.
Proof.
  split; [exact (proj1 (toggle_course_effect demo_db "k9") eq_refl)|].
  destruct (proj2 (toggle_course_effect demo_db "k1") demo_course eq_refl)
    as (Hr & _ & _ & _ & _ & Hback).
  exact (conj Hr Hback).
Defined.

(** X15: once the second course is switched off, the enrollment that X9
    accepts is refused. *)
Lemma inactive_course_refuses_enrollment_witness :
  Prisma.course_findUnique demo_db2 "k2" = Some demo_course2
  ∧ status (post_enrollment demo_isISO8601 demo_db2 (demo_enrollment_body "k2")).2
    = 201%nat
  ∧ status (post_enrollment demo_isISO8601 (toggle_course demo_db2 "k2").1
              (demo_enrollment_body "k2")).2 = 400%nat.
Proof.
  split; [reflexivity|]. split; [vm_compute; reflexivity|].
  exact (proj1 (proj2 (inactive_course_refuses_enrollment demo_isISO8601 demo_db2
                         (demo_enrollment_body "k2") demo_course2 eq_refl) eq_refl)).
Defined.

(** X16: a valid row followed by a row that lacks the email, which is
    reported as row 2. *)
Lemma parseCSV_accounting_witness :
  (length (parseCSV [demo_csv_good; demo_csv_bad]).1
   + length (parseCSV [demo_csv_good; demo_csv_bad]).2 = 2)%nat
  ∧ (parseCSV [demo_csv_good; demo_csv_bad]).2 !! 0%nat
    = Some {| ce_row := 2;
              ce_error := "Missing required fields (name, email, phone)";
              ce_data := RawRow demo_csv_bad |}.
Proof.
  destruct (parseCSV_accounting [demo_csv_good; demo_csv_bad]) as (Hlen & _ & Hrow & _).
  split; [exact Hlen|].
  exact (Hrow [demo_csv_good] demo_csv_bad [] eq_refl).
Defined.

(** X17: the preview of the two example rows, and of no file. *)
Lemma csv_preview_totals_witness :
  status (csv_preview demo_db NoFile).2 = 400%nat
  ∧ ∃ pv, (csv_preview demo_db (CsvFile [demo_csv_good; demo_csv_bad])).2
          = reply 200%nat (PreviewJson pv)
          ∧ pv_totalRows pv = 2%nat
          ∧ (pv_validRows pv + pv_errorRows pv = pv_totalRows pv)%nat
          ∧ pv_errors pv = take 10 (parseCSV [demo_csv_good; demo_csv_bad]).2.
Proof.
  destruct (csv_preview_totals demo_db NoFile) as (_ & H400 & _).
  split; [exact (H400 eq_refl)|].
  destruct (csv_preview_totals demo_db (CsvFile [demo_csv_good; demo_csv_bad]))
    as (_ & _ & Hfile).
  destruct (Hfile _ eq_refl) as (pv & Hr & Htotal & Hsum & _ & _ & _ & Herr & _).
  exists pv. exact (conj Hr (conj Htotal (conj Hsum Herr))).
Defined.


(** X18: of the two rows, the one without an email is reported. *)
Lemma bulk_import_accounting_witness :
  bulk_import demo_db (Some [])
  = (demo_db, reply 400%nat (BulkError_ "Students data is required and must be an array"))
  ∧ ∃ s, (bulk_import demo_db (Some demo_bulk_rows)).2 = reply 200%nat (BulkJson s)
         ∧ bs_total s = 2%nat
         ∧ (bs_imported s + length (bs_errors s) = 2)%nat
         ∧ students (bulk_import demo_db (Some demo_bulk_rows)).1
           = students demo_db ++ bs_results s
         ∧ Forall (λ e, demo_bulk_rows !! (be_row e - 1)%nat = Some (be_data e))
             (bs_errors s).
Proof.
  split.
  { exact (proj1 (bulk_import_accounting demo_db (Some [])) (or_intror eq_refl)). }
  destruct (proj2 (bulk_import_accounting demo_db (Some demo_bulk_rows))
              demo_bulk_rows eq_refl ltac:(discriminate))
    as (s & Hr & Htotal & _ & Hsum & Hst & _ & _ & _ & _ & _ & Hdata & _).
  exists s. split; [exact Hr|]. split; [exact Htotal|]. split; [|exact (conj Hst Hdata)].
  rewrite Htotal in Hsum. exact Hsum.
Defined.

(** X19: of the two rows, the one with the email of the existing student is
    reported; the other one is imported and enrolled. *)
Lemma import_students_accounting_witness :
  ∃ db' s,
    import_students demo_clash demo_isEmail Js.toLowerCase demo_db
      (Some demo_import_rows) (Some true)
    = (db', reply 200%nat (ImportJson s))
    ∧ is_total s = 2%nat
    ∧ students db' = students demo_db ++ is_results s
    ∧ payments db' = payments demo_db.
Proof.
  eexists _, _. split; [vm_compute; reflexivity|].
  destruct (import_students_accounting demo_clash demo_isEmail Js.toLowerCase demo_db
              _ demo_import_rows (Some true) _ ltac:(vm_compute; reflexivity))
    as (Htotal & _ & _ & Hst & Hp & _).
  exact (conj Htotal (conj Hst Hp)).
Defined.

Lemma demo_numbers_parse (i : nat) (page : option string) :
  [Some "1"; Some "2"] !! i = Some page → parse_param 1 page = Some (Z.of_nat i + 1).
Proof.
  destruct i as [|[|i]]; intros H; [| |discriminate H];
    injection H as <-; reflexivity.
Defined.

(** X20: three students, two to a page. *)
Lemma pages_partition_rows_witness :
  let table := [demo_student; demo_student; demo_student] in
  let fetch page :=
    page_data (list_rows demo_window (λ _, True) (λ rows, rows) Some "students"
                 "Failed to fetch students" table page (Some "2")) in
  fetch (Some "1") ++ fetch (Some "2") = table
  ∧ fetch (Some "3") = []
  ∧ Z.of_nat (length (fetch (Some "2"))) = showing_last 2 2 3 - showing_first 2 2 + 1.
Proof.
  intros table fetch.
  destruct (pages_partition_rows demo_window demo_window_valid (λ _ : Student, True)
              (λ rows, rows) "students" "Failed to fetch students" table (Some "2")
              2 2 eq_refl ltac:(lia) ltac:(reflexivity) eq_refl)
    as (Hall & Hpast & Hsize).
  split; [|split].
  - pose proof (Hall [Some "1"; Some "2"] eq_refl demo_numbers_parse) as H.
    cbn [fmap list_fmap concat] in H. rewrite app_nil_r in H. exact H.
  - exact (Hpast (Some "3") 3 eq_refl ltac:(lia)).
  - exact (Hsize (Some "2") 2 eq_refl ltac:(lia)).
Defined.



(** X22: the same payment without a course to enroll in. *)
Lemma full_create_payment_needs_enrollment_witness :
  status (full_create demo_db demo_full_create_no_course).2 = 400%nat
  ∧ (full_create demo_db demo_full_create_no_course).1 = demo_db.
Proof.
  exact (full_create_payment_needs_enrollment demo_db demo_full_create_no_course
           (Some demo_new_student) None demo_large_payment
           eq_refl eq_refl eq_refl eq_refl eq_refl eq_refl).
Defined.

